(** * AIHypeTracker: the agent's tool functions and their REST wrapper

    A shallow embedding of [multi_tool_agent/agent.py]: the weather and time
    stubs, the search for contracted companies, the trading-status check and
    the financial-metrics normaliser, together with the fragment of Python's
    dynamic semantics these functions rely on (truthiness, numeric operators
    on [int]/[float], [round], [str] and the [.2f] format); of the handlers
    of [frontend_app.py] that call them; and the properties of the
    specification and of the code that concern them.

    Conventions.
    - Python [str] is modelled by [string] (a sequence of 8-bit characters);
      case mapping and whitespace are the ASCII ones.
    - Python [float] is IEEE binary64, modelled by Rocq's primitive [float].
    - Python [int] is unbounded, modelled by [Z].
    - A raised exception is a value [Raise msg] of the [result] type, [msg]
      being [str(e)]; [try ... except] is a [match] on it.
    - A dictionary built by the code is an insertion-ordered association list
      ([dict]); the provider's attribute mapping, only ever read, is a [gmap].
    - What lies outside the repository is a parameter: the data provider
      ([yfinance]), the language model ([generate_content]), the clock
      ([strftime_now]) and the web framework's rendering of its own
      exception ([http_exception_str]). *)

From Stdlib Require Import ZArith String Ascii List Bool Lia.
From Stdlib Require Import Floats DecimalString.
From stdpp Require Import base option list gmap strings.

Local Open Scope string_scope.
Local Open Scope Z_scope.

(** ** Strings *)

Module Str.

Definition code (c : ascii) : N := N_of_ascii c.

Definition lower_char (c : ascii) : ascii :=
  if ((65 <=? code c) && (code c <=? 90))%N then ascii_of_N (code c + 32) else c.

Definition upper_char (c : ascii) : ascii :=
  if ((97 <=? code c) && (code c <=? 122))%N then ascii_of_N (code c - 32) else c.

Fixpoint map (f : ascii -> ascii) (s : string) : string :=
  match s with
  | EmptyString => EmptyString
  | String c r => String (f c) (map f r)
  end.

(** [s.lower()] and [s.upper()]. *)
Definition lower : string -> string := map lower_char.
Definition upper : string -> string := map upper_char.

(** The characters [str.strip()] removes: TAB, LF, VT, FF, CR, FS, GS, RS,
    US and the space. *)
Definition is_space (c : ascii) : bool :=
  (((9 <=? code c) && (code c <=? 13)) || ((28 <=? code c) && (code c <=? 32)))%N.

Fixpoint lstrip (s : string) : string :=
  match s with
  | String c r => if is_space c then lstrip r else s
  | EmptyString => EmptyString
  end.

(** [rstrip] keeps a character when it is not a space or when something
    remains after it. *)
Fixpoint rstrip (s : string) : string :=
  match s with
  | EmptyString => EmptyString
  | String c r =>
      match rstrip r with
      | EmptyString => if is_space c then EmptyString else String c EmptyString
      | r' => String c r'
      end
  end.

Definition strip (s : string) : string := rstrip (lstrip s).

(** [s.split(sep)] for a one-character separator: never the empty list. *)
Fixpoint split (sep : ascii) (s : string) : list string :=
  match s with
  | EmptyString => [EmptyString]
  | String c r =>
      if Ascii.eqb c sep then EmptyString :: split sep r
      else match split sep r with
           | w :: ws => String c w :: ws
           | [] => [String c EmptyString]
           end
  end.

(** [s.replace(c, "")]. *)
Fixpoint remove (c : ascii) (s : string) : string :=
  match s with
  | EmptyString => EmptyString
  | String a r => if Ascii.eqb a c then remove c r else String a (remove c r)
  end.

(** [s[:n]]. *)
Fixpoint take (n : nat) (s : string) : string :=
  match n, s with
  | S k, String c r => String c (take k r)
  | _, _ => EmptyString
  end.

(** [s * n]. *)
Fixpoint repeat (s : string) (n : nat) : string :=
  match n with
  | O => EmptyString
  | S k => s +:+ repeat s k
  end.

Definition is_empty (s : string) : bool :=
  match s with EmptyString => true | _ => false end.

(** [sub in s]. *)
Definition contains (sub s : string) : Prop :=
  exists pre post, s = pre +:+ sub +:+ post.

(** Decimal numeral of a natural number, and of an integer. *)
Definition of_N (n : N) : string := NilZero.string_of_uint (N.to_uint n).

Definition of_Z (z : Z) : string :=
  match z with
  | Zneg p => "-" +:+ of_N (Npos p)
  | _ => of_N (Z.to_N z)
  end.

(** The numeral of [n] padded with zeros on the left to [w] digits. *)
Definition pad0 (w : nat) (n : N) : string :=
  let s := of_N n in repeat "0" (w - String.length s) +:+ s.

(** Digits grouped in threes from the right, with commas. *)
Fixpoint group3_rev (s : list ascii) : list ascii :=
  match s with
  | a :: b :: c :: (_ :: _) as r => a :: b :: c :: ","%char :: group3_rev r
  | _ => s
  end.

Definition group3 (s : string) : string :=
  string_of_list_ascii (rev (group3_rev (rev (list_ascii_of_string s)))).

End Str.

(** ** Binary64 floating point: conversions between floats, integers and
    decimal numerals

    The arithmetic operators of Python's [float] are those of the hardware,
    that is, of [PrimFloat].  What Python adds in software is modelled here
    on exact integers: conversion of an [int] or a ratio of two to the
    nearest float, [round(x, 2)], the [.2f] format, [repr] (the shortest
    numeral that reads back as the same float) and [float(str)]. *)

Module PyFloat.

Definition is_neg (f : float) : bool :=
  match Prim2SF f with
  | S754_zero s | S754_infinity s | S754_finite s _ _ => s
  | S754_nan => false
  end.

(** The float nearest to the integer [z] (ties to even; infinite beyond
    the range). *)
Definition of_Z (z : Z) : float := SF2Prim (binary_normalize prec emax z 0 false).

(** The float nearest to [(-1)^s * n / d]. *)
Definition of_ratio (s : bool) (n : Z) (d : positive) : float :=
  match n with
  | Zpos p => SF2Prim (SFdiv prec emax (S754_finite s p 0) (S754_finite false d 0))
  | _ => if s then neg_zero else zero
  end.

(** The float nearest to [(-1)^s * n * 10^p]. *)
Definition of_decimal (s : bool) (n : Z) (p : Z) : float :=
  if 0 <=? p then
    let f := of_Z (n * 10 ^ p) in if s then (- f)%float else f
  else of_ratio s n (Z.to_pos (10 ^ (- p))).

(** [n / d] rounded to an integer, halves to the even neighbour
    ([0 <= n], [0 < d]). *)
Definition div_half_even (n d : Z) : Z :=
  let q := n / d in
  match 2 * (n mod d) ?= d with
  | Lt => q
  | Gt => q + 1
  | Eq => if Z.even q then q else q + 1
  end.

(** [m * 2^e * 10^k] as a fraction, for [0 <= k]. *)
Definition scaled (m : positive) (e : Z) (k : Z) : Z * Z :=
  if 0 <=? e then (Zpos m * 2 ^ e * 10 ^ k, 1) else (Zpos m * 10 ^ k, 2 ^ (- e)).

(** The hundredths in [m * 2^e], rounded half to even. *)
Definition hundredths (m : positive) (e : Z) : Z :=
  let '(n, d) := scaled m e 2 in div_half_even n d.

(** [round(x, 2)]: the decimal nearest to [x] with two digits after the
    point, read back as a float.  Infinities and NaN round to themselves;
    a float with no fractional bit is its own rounding. *)
Definition round2 (f : float) : float :=
  match Prim2SF f with
  | S754_finite s m e => if 0 <=? e then f else of_ratio s (hundredths m e) 100
  | _ => f
  end.

(** [format(x, ".2f")], and [format(x, ",.2f")] when [grouping] is set. *)
Definition format_2f (grouping : bool) (f : float) : string :=
  let fixed (s : bool) (h : Z) :=
    let int_part := Str.of_N (Z.to_N (h / 100)) in
    (if s then "-" else "") +:+
    (if grouping then Str.group3 int_part else int_part) +:+ "." +:+
    Str.pad0 2 (Z.to_N (h mod 100)) in
  match Prim2SF f with
  | S754_nan => "nan"
  | S754_infinity s => if s then "-inf" else "inf"
  | S754_zero s => fixed s 0
  | S754_finite s m e => fixed s (hundredths m e)
  end.

(** *** [repr]: the shortest numeral that reads back as the same float *)

(** [10^k <= m * 2^e]. *)
Definition ge_pow10 (m : positive) (e k : Z) : bool :=
  10 ^ Z.max k 0 * 2 ^ Z.max (- e) 0 <=? Zpos m * 2 ^ Z.max e 0 * 10 ^ Z.max (- k) 0.

(** The [k] with [10^k <= m * 2^e < 10^(k+1)], from an estimate by the
    binary logarithm that is off by one at most. *)
Definition floor_log10 (m : positive) (e : Z) : Z :=
  let k0 := (Z.log2 (Zpos m) + e) * 30103 / 100000 in
  if ge_pow10 m e (k0 + 1) then k0 + 1
  else if ge_pow10 m e k0 then k0 else k0 - 1.

(** Whether the numeral [n * 10^p] reads back as [m * 2^e]. *)
Definition reads_back (m : positive) (e : Z) (n p : Z) : bool :=
  (of_decimal false n p =? SF2Prim (S754_finite false m e))%float.

(** The numeral of [d] significant digits for [m * 2^e], if one reads
    back: of the two that enclose the value, the nearer one first. *)
Definition numeral (m : positive) (e : Z) (d : Z) : option (Z * Z) :=
  let p := floor_log10 m e - (d - 1) in
  let num := Zpos m * 2 ^ Z.max e 0 * 10 ^ Z.max (- p) 0 in
  let den := 2 ^ Z.max (- e) 0 * 10 ^ Z.max p 0 in
  let lo := num / den in
  let hi := lo + 1 in
  let first_hi :=
    match 2 * (num mod den) ?= den with
    | Lt => false
    | Gt => true
    | Eq => Z.odd lo
    end in
  let '(a, b) := if first_hi then (hi, lo) else (lo, hi) in
  if reads_back m e a p then Some (a, p)
  else if reads_back m e b p then Some (b, p)
  else None.

(** The first length, from [d] on, at which a numeral reads back
    (seventeen digits always do). *)
Fixpoint shortest (fuel : nat) (m : positive) (e : Z) (d : Z) : Z * Z :=
  match fuel with
  | O => (Zpos m * 2 ^ Z.max e 0, 0)
  | S k =>
      match numeral m e d with
      | Some r => r
      | None => shortest k m e (d + 1)
      end
  end.

Fixpoint strip_zeros (fuel : nat) (n p : Z) : Z * Z :=
  match fuel with
  | O => (n, p)
  | S k => if (n mod 10 =? 0) && negb (n =? 0) then strip_zeros k (n / 10) (p + 1) else (n, p)
  end.

Fixpoint drop (n : nat) (s : string) : string :=
  match n, s with
  | S k, String _ r => drop k r
  | _, _ => s
  end.

(** The digits [ds] with the decimal point after the first [decpt] of them:
    plain notation when [-4 < decpt <= 16], exponent notation beyond. *)
Definition layout (ds : string) (decpt : Z) : string :=
  let nd := Z.of_nat (String.length ds) in
  if (16 <? decpt) || (decpt <? -3) then
    Str.take 1 ds +:+ (if 1 <? nd then "." +:+ drop 1 ds else "") +:+ "e" +:+
    (if decpt - 1 <? 0 then "-" else "+") +:+ Str.pad0 2 (Z.to_N (Z.abs (decpt - 1)))
  else if decpt <=? 0 then
    "0." +:+ Str.repeat "0" (Z.to_nat (- decpt)) +:+ ds
  else if nd <=? decpt then
    ds +:+ Str.repeat "0" (Z.to_nat (decpt - nd)) +:+ ".0"
  else
    Str.take (Z.to_nat decpt) ds +:+ "." +:+ drop (Z.to_nat decpt) ds.

Definition sign_prefix (s : bool) (body : string) : string :=
  if s then String "-" body else body.

(** [repr(x)], which is also [str(x)]. *)
Definition repr (f : float) : string :=
  match Prim2SF f with
  | S754_nan => "nan"
  | S754_infinity s => sign_prefix s "inf"
  | S754_zero s => sign_prefix s "0.0"
  | S754_finite s m e =>
      let '(n, p) := shortest 17 m e 1 in
      let '(n, p) := strip_zeros 400 n p in
      let ds := Str.of_N (Z.to_N n) in
      sign_prefix s (layout ds (Z.of_nat (String.length ds) + p))
  end.

(** *** [float(s)]: reading a numeral *)

Definition digit_of (c : ascii) : option Z :=
  let n := Str.code c in
  if ((48 <=? n) && (n <=? 57))%N then Some (Z.of_N n - 48) else None.

(** A run of digits, an underscore allowed between two of them: the digits
    accumulated onto [acc], how many were read, and what follows. *)
Fixpoint digits (s : list ascii) (acc cnt : Z) : Z * Z * list ascii :=
  match s with
  | c :: r =>
      match digit_of c with
      | Some d => digits r (acc * 10 + d) (cnt + 1)
      | None =>
          if Ascii.eqb c "_" && (0 <? cnt) then
            match r with
            | c' :: _ =>
                match digit_of c' with
                | Some _ => digits r acc cnt
                | None => (acc, cnt, s)
                end
            | [] => (acc, cnt, s)
            end
          else (acc, cnt, s)
      end
  | [] => (acc, cnt, s)
  end.

Definition take_sign (s : list ascii) : bool * list ascii :=
  match s with
  | c :: r =>
      if Ascii.eqb c "-" then (true, r)
      else if Ascii.eqb c "+" then (false, r)
      else (false, s)
  | [] => (false, s)
  end.

(** The exponent part, absent or [e], a sign and digits; [None] when it is
    malformed or something follows it. *)
Definition exponent (s : list ascii) : option Z :=
  match s with
  | [] => Some 0
  | c :: r =>
      if Ascii.eqb (Str.lower_char c) "e" then
        let '(neg, r) := take_sign r in
        match digits r 0 0 with
        | (v, cnt, []) => if 0 <? cnt then Some (if neg then - v else v) else None
        | _ => None
        end
      else None
  end.

(** [float(s)]; [None] stands for [ValueError]. *)
Definition parse (s : string) : option float :=
  let '(neg, body) := take_sign (list_ascii_of_string (Str.strip s)) in
  let word := Str.lower (string_of_list_ascii body) in
  if String.eqb word "inf" || String.eqb word "infinity" then
    Some (if neg then neg_infinity else infinity)
  else if String.eqb word "nan" then Some nan
  else
    let '(int_val, int_cnt, r) := digits body 0 0 in
    let '(all_val, frac_cnt, r) :=
      match r with
      | c :: r' => if Ascii.eqb c "." then digits r' int_val 0 else (int_val, 0, r)
      | [] => (int_val, 0, r)
      end in
    if int_cnt + frac_cnt =? 0 then None
    else
      match exponent r with
      | None => None
      | Some ex =>
          let p := ex - frac_cnt in
          let size := p + Z.log2 all_val * 30103 / 100000 in
          Some (if (all_val =? 0) || (size <? -400) then (if neg then neg_zero else zero)
                else if 400 <? size then (if neg then neg_infinity else infinity)
                else of_decimal neg all_val p)
      end.

End PyFloat.

(** ** Python values, exceptions and the operators the tools use *)

Inductive pyval :=
  | PNone
  | PBool (b : bool)
  | PInt (z : Z)
  | PFloat (f : float)
  | PStr (s : string).

(** The outcome of evaluating Python code: a value, or a raised exception
    with its message. *)
Inductive result (A : Type) :=
  | Ok (a : A)
  | Raise (e : string).

Arguments Ok {A} a.
Arguments Raise {A} e.

Definition bind {A B} (r : result A) (k : A -> result B) : result B :=
  match r with
  | Ok a => k a
  | Raise e => Raise e
  end.

Notation "x <- r ;; k" := (bind r (fun x => k))
  (at level 100, r at next level, right associativity).

(** [try: r except: handler]. *)
Definition try_except {A} (r : result A) (handler : string -> A) : A :=
  match r with
  | Ok a => a
  | Raise e => handler e
  end.

Module Py.

Definition type_name (v : pyval) : string :=
  match v with
  | PNone => "NoneType"
  | PBool _ => "bool"
  | PInt _ => "int"
  | PFloat _ => "float"
  | PStr _ => "str"
  end.

(** [bool(v)]. *)
Definition truthy (v : pyval) : bool :=
  match v with
  | PNone => false
  | PBool b => b
  | PInt z => negb (z =? 0)
  | PFloat f => negb (f =? 0)%float
  | PStr s => negb (Str.is_empty s)
  end.

(** [a or b]. *)
Definition or_ (a b : pyval) : pyval := if truthy a then a else b.

(** [str(v)]. *)
Definition str (v : pyval) : string :=
  match v with
  | PNone => "None"
  | PBool b => if b then "True" else "False"
  | PInt z => Str.of_Z z
  | PFloat f => PyFloat.repr f
  | PStr s => s
  end.

Definition int_of_bool (b : bool) : Z := if b then 1 else 0.

(** Conversion of an [int] to [float], as the mixed operators and
    [float()] do it. *)
Definition float_of_int (z : Z) : result float :=
  let f := PyFloat.of_Z z in
  if is_infinity f then Raise "int too large to convert to float" else Ok f.

(** [float(v)]. *)
Definition float_ (v : pyval) : result float :=
  match v with
  | PNone => Raise "float() argument must be a string or a real number, not 'NoneType'"
  | PBool b => float_of_int (int_of_bool b)
  | PInt z => float_of_int z
  | PFloat f => Ok f
  | PStr s =>
      match PyFloat.parse s with
      | Some f => Ok f
      | None => Raise ("could not convert string to float: '" +:+ s +:+ "'")
      end
  end.

(** A number is an [int] (a [bool] counts as one) or a [float]. *)
Inductive number := NInt (z : Z) | NFloat (f : float).

Definition as_number (v : pyval) : option number :=
  match v with
  | PBool b => Some (NInt (int_of_bool b))
  | PInt z => Some (NInt z)
  | PFloat f => Some (NFloat f)
  | _ => None
  end.

Definition to_float (n : number) : result float :=
  match n with
  | NInt z => float_of_int z
  | NFloat f => Ok f
  end.

Definition unsupported (op : string) (a b : pyval) : string :=
  "unsupported operand type(s) for " +:+ op +:+ ": '" +:+ type_name a +:+
  "' and '" +:+ type_name b +:+ "'".

(** [v > 0]. *)
Definition gt0 (v : pyval) : result bool :=
  match as_number v with
  | Some (NInt z) => Ok (0 <? z)
  | Some (NFloat f) => Ok (0 <? f)%float
  | None => Raise ("'>' not supported between instances of '" +:+ type_name v +:+ "' and 'int'")
  end.

(** [abs(v)]. *)
Definition abs (v : pyval) : result pyval :=
  match as_number v with
  | Some (NInt z) => Ok (PInt (Z.abs z))
  | Some (NFloat f) => Ok (PFloat (PrimFloat.abs f))
  | None => Raise ("bad operand type for abs(): '" +:+ type_name v +:+ "'")
  end.

(** [z >= c] for an integer and a float, compared exactly. *)
Definition int_ge_float (z : Z) (c : float) : bool :=
  match Prim2SF c with
  | S754_nan => false
  | S754_infinity s => s
  | S754_zero _ => 0 <=? z
  | S754_finite s m e =>
      (if s then Zneg m else Zpos m) * 2 ^ Z.max e 0 <=? z * 2 ^ Z.max (- e) 0
  end.

(** [v >= c] for a float constant [c]. *)
Definition ge (v : pyval) (c : float) : result bool :=
  match as_number v with
  | Some (NInt z) => Ok (int_ge_float z c)
  | Some (NFloat f) => Ok (c <=? f)%float
  | None => Raise ("'>=' not supported between instances of '" +:+ type_name v +:+ "' and 'float'")
  end.

(** [a / b]: on two integers the correctly rounded quotient, otherwise the
    quotient of the operands as floats; Python raises on a zero divisor. *)
Definition truediv (a b : pyval) : result pyval :=
  match as_number a, as_number b with
  | Some (NInt x), Some (NInt y) =>
      if y =? 0 then Raise "division by zero"
      else
        let q := PyFloat.of_ratio (xorb (x <? 0) (y <? 0)) (Z.abs x) (Z.to_pos (Z.abs y)) in
        if is_infinity q then Raise "integer division result too large for a float"
        else Ok (PFloat q)
  | Some x, Some y =>
      fx <- to_float x ;;
      fy <- to_float y ;;
      if (fy =? 0)%float then Raise "float division by zero" else Ok (PFloat (fx / fy))
  | _, _ => Raise (unsupported "/" a b)
  end.

(** [a * b]: numbers multiply, a string is repeated by an integer. *)
Definition mul (a b : pyval) : result pyval :=
  match as_number a, as_number b with
  | Some (NInt x), Some (NInt y) => Ok (PInt (x * y))
  | Some x, Some y =>
      fx <- to_float x ;;
      fy <- to_float y ;;
      Ok (PFloat (fx * fy))
  | _, _ =>
      match a, as_number b, as_number a, b with
      | PStr s, Some (NInt n), _, _ => Ok (PStr (Str.repeat s (Z.to_nat n)))
      | _, _, Some (NInt n), PStr s => Ok (PStr (Str.repeat s (Z.to_nat n)))
      | _, _, _, _ => Raise (unsupported "*" a b)
      end
  end.

(** [round(v, 2)]: an integer is its own rounding. *)
Definition round2 (v : pyval) : result pyval :=
  match as_number v with
  | Some (NInt z) => Ok (PInt z)
  | Some (NFloat f) => Ok (PFloat (PyFloat.round2 f))
  | None => Raise ("type " +:+ type_name v +:+ " doesn't define __round__ method")
  end.

(** [format(v, ".2f")] and [format(v, ",.2f")]. *)
Definition format_2f (grouping : bool) (v : pyval) : result string :=
  match as_number v with
  | Some n => f <- to_float n ;; Ok (PyFloat.format_2f grouping f)
  | None =>
      match v with
      | PStr _ => Raise "Unknown format code 'f' for object of type 'str'"
      | _ => Raise ("unsupported format string passed to " +:+ type_name v +:+ ".__format__")
      end
  end.

End Py.

(** ** Dictionaries built by the code *)

(** A Python [dict] with string keys, in insertion order. *)
Definition dict := list (string * pyval).

Fixpoint dict_lookup (d : dict) (k : string) : option pyval :=
  match d with
  | [] => None
  | (k', v) :: r => if String.eqb k' k then Some v else dict_lookup r k
  end.

(** [d.get(k, dflt)]; [d.get(k)] is [dict_get d k PNone]. *)
Definition dict_get (d : dict) (k : string) (dflt : pyval) : pyval :=
  match dict_lookup d k with
  | Some v => v
  | None => dflt
  end.

(** [d[k]], which raises [KeyError]. *)
Definition dict_item (d : dict) (k : string) : result pyval :=
  match dict_lookup d k with
  | Some v => Ok v
  | None => Raise ("'" +:+ k +:+ "'")
  end.

(** [d[k] = v]: an existing key keeps its position. *)
Fixpoint dict_set (d : dict) (k : string) (v : pyval) : dict :=
  match d with
  | [] => [(k, v)]
  | (k', v') :: r => if String.eqb k' k then (k', v) :: r else (k', v') :: dict_set r k v
  end.

(** [{**d1, **d2}]. *)
Definition dict_merge (d1 d2 : dict) : dict :=
  fold_left (fun d kv => dict_set d (fst kv) (snd kv)) d2 d1.

(** A dictionary display [{k1: v1, ...}]. *)
Definition dict_of (items : list (string * pyval)) : dict := dict_merge [] items.

(** ** [json.dumps(d, indent=2, default=str)] on a flat dictionary *)

Module Json.

Definition chr (n : N) : string := String (ascii_of_N n) EmptyString.
Definition quote : string := chr 34.
Definition newline : string := chr 10.
Definition backslash : string := chr 92.

Definition hex_digit (n : N) : string :=
  chr (if (n <? 10)%N then 48 + n else 87 + n)%N.

(** One character inside a JSON string, every character outside printable
    ASCII escaped. *)
Definition escape_char (c : ascii) : string :=
  let n := Str.code c in
  if (n =? 34)%N then backslash +:+ quote
  else if (n =? 92)%N then backslash +:+ backslash
  else if (n =? 10)%N then backslash +:+ "n"
  else if (n =? 13)%N then backslash +:+ "r"
  else if (n =? 9)%N then backslash +:+ "t"
  else if (n =? 8)%N then backslash +:+ "b"
  else if (n =? 12)%N then backslash +:+ "f"
  else if ((n <? 32) || (126 <? n))%N then
    backslash +:+ "u00" +:+ hex_digit (n / 16) +:+ hex_digit (n mod 16)
  else String c EmptyString.

Fixpoint escape (s : string) : string :=
  match s with
  | EmptyString => EmptyString
  | String c r => escape_char c +:+ escape r
  end.

Definition of_string (s : string) : string := quote +:+ escape s +:+ quote.

Definition of_float (f : float) : string :=
  match Prim2SF f with
  | S754_nan => "NaN"
  | S754_infinity s => if s then "-Infinity" else "Infinity"
  | _ => PyFloat.repr f
  end.

Definition of_value (v : pyval) : string :=
  match v with
  | PNone => "null"
  | PBool b => if b then "true" else "false"
  | PInt z => Str.of_Z z
  | PFloat f => of_float f
  | PStr s => of_string s
  end.

Fixpoint join (sep : string) (l : list string) : string :=
  match l with
  | [] => EmptyString
  | [x] => x
  | x :: r => x +:+ sep +:+ join sep r
  end.

Definition dumps (d : dict) : string :=
  match d with
  | [] => "{}"
  | _ =>
      "{" +:+ newline +:+
      join ("," +:+ newline)
        (List.map (fun kv => "  " +:+ of_string (fst kv) +:+ ": " +:+ of_value (snd kv)) d)
      +:+ newline +:+ "}"
  end.

End Json.

(** ** The data provider (yfinance), as the tools see it *)

(** A column label of the income statement, a period-end timestamp;
    [date] is [str(ts.date())]. *)
Record Timestamp := { date : string }.

(** A timestamp is always true. *)
Definition timestamp_truthy (_ : Timestamp) : bool := true.

Definition timestamp_eqb (a b : Timestamp) : bool := String.eqb (date a) (date b).

(** The income statement: column labels, and the rows with their label and
    one value per column. *)
Record DataFrame := {
  columns : list Timestamp;
  rows : list (string * list pyval)
}.

(** What [df.loc[row, col]] selects: one cell, or, when a label is repeated,
    several of them. *)
Inductive selection :=
  | Scalar (v : pyval)
  | Series.

Module Df.

(** [df.empty]: an axis of length zero. *)
Definition empty (df : DataFrame) : bool :=
  match columns df, rows df with
  | _ :: _, _ :: _ => false
  | _, _ => true
  end.

(** [df.columns[0]]. *)
Definition first_column (df : DataFrame) : result Timestamp :=
  match columns df with
  | c :: _ => Ok c
  | [] => Raise "index 0 is out of bounds for axis 0 with size 0"
  end.

(** [name in df.index]. *)
Definition in_index (df : DataFrame) (name : string) : bool :=
  existsb (fun r => String.eqb (fst r) name) (rows df).

(** The positions of the columns labelled [col]. *)
Fixpoint positions (col : Timestamp) (cols : list Timestamp) (i : nat) : list nat :=
  match cols with
  | [] => []
  | c :: r => (if timestamp_eqb c col then [i] else []) ++ positions col r (S i)
  end.

(** [df.loc[name, col]]; a cell the row has no value for is NaN. *)
Definition loc (df : DataFrame) (name : string) (col : Timestamp) : result selection :=
  match List.filter (fun r => String.eqb (fst r) name) (rows df), positions col (columns df) 0 with
  | [], _ => Raise ("'" +:+ name +:+ "'")
  | _, [] => Raise ("Timestamp('" +:+ date col +:+ " 00:00:00')")
  | [(_, vals)], [i] => Ok (Scalar (nth i vals (PFloat nan)))
  | _, _ => Ok Series
  end.

End Df.

(** [bool(value)] of a selection: that of the cell; a series has none. *)
Definition selection_truthy (x : selection) : result bool :=
  match x with
  | Scalar v => Ok (Py.truthy v)
  | Series =>
      Raise ("The truth value of a Series is ambiguous. " +:+
             "Use a.empty, a.bool(), a.item(), a.any() or a.all().")
  end.

Definition selection_str (x : selection) : string :=
  match x with
  | Scalar v => Py.str v
  | Series => "Series"
  end.

Definition selection_float (x : selection) : result float :=
  match x with
  | Scalar v => Py.float_ v
  | Series => Raise "cannot convert the series to <class 'float'>"
  end.

(** A ticker object: reading [.info] or [.financials] queries the provider
    and may raise. *)
Record Ticker := {
  info : result (gmap string pyval);
  financials : result DataFrame
}.

(** [yf.Ticker]. *)
Definition yfinance := string -> result Ticker.

(** [info.get(k, dflt)] on the attribute mapping. *)
Definition info_get (m : gmap string pyval) (k : string) (dflt : pyval) : pyval :=
  default dflt (m !! k).

(** [bool(info)]. *)
Definition info_truthy (m : gmap string pyval) : bool := negb (bool_decide (m = ∅)).

(** ** What a tool returns *)

(** The dictionary a tool returns: [{"status": "success", ...payload}] or
    [{"status": "error", "error_message": ...}]. *)
Inductive tool_result (A : Type) :=
  | Success (payload : A)
  | Error (error_message : string).

Arguments Success {A} payload.
Arguments Error {A} error_message.

Definition status {A} (r : tool_result A) : string :=
  match r with
  | Success _ => "success"
  | Error _ => "error"
  end.

(** ** [get_weather] *)

Definition get_weather (city : string) : tool_result string :=
  if String.eqb (Str.lower city) "new york" then
    Success ("The weather in New York is sunny with a temperature of 25 degrees" +:+
             " Celsius (77 degrees Fahrenheit).")
  else
    Error ("Weather information for '" +:+ city +:+ "' is not available.").

(** ** [check_public_trading_status] *)

(** [l.append(x)]. *)
Definition append {A} (l : list A) (x : A) : list A := (l ++ [x])%list.

Section TradingStatus.

Variable yf : yfinance.

(** Common stock symbols for well-known companies; [None] marks a
    private one. *)
Definition symbol_mappings : list (string * option string) :=
  [ ("oracle", Some "ORCL"); ("microsoft", Some "MSFT"); ("apple", Some "AAPL");
    ("google", Some "GOOGL"); ("alphabet", Some "GOOGL"); ("amazon", Some "AMZN");
    ("meta", Some "META"); ("facebook", Some "META"); ("nvidia", Some "NVDA");
    ("tesla", Some "TSLA"); ("salesforce", Some "CRM"); ("servicenow", Some "NOW");
    ("workday", Some "WDAY"); ("adobe", Some "ADBE"); ("intel", Some "INTC");
    ("ibm", Some "IBM"); ("sap", Some "SAP"); ("accenture", Some "ACN");
    ("deloitte", Some "DLX"); ("pwc", None); ("kpmg", None); ("ey", None) ].

(** [symbol_mappings.get(name)]: [None] for a missing name as for a
    private one. *)
Fixpoint mapping_get (m : list (string * option string)) (name : string) : option string :=
  match m with
  | [] => None
  | (k, v) :: r => if String.eqb k name then v else mapping_get r name
  end.

Definition known_private : list string := ["pwc"; "kpmg"; "ey"; "ernst & young"].

(** The first of the guessed symbols the provider knows; an exception on
    one guess moves on to the next. *)
Fixpoint probe (possible_symbols : list string) : option string :=
  match possible_symbols with
  | [] => None
  | test_symbol :: rest =>
      let hit :=
        ticker <- yf test_symbol ;;
        i <- info ticker ;;
        Ok (info_truthy i && bool_decide (is_Some (i !! "symbol"))) in
      match hit with
      | Ok true => Some test_symbol
      | _ => probe rest
      end
  end.

(** Check that the symbol is valid and append the company's entry. *)
Definition check_symbol (company symbol : string) (results : list dict) : list dict :=
  try_except
    (ticker <- yf symbol ;;
     i <- info ticker ;;
     if info_truthy i && (1 <? Z.of_nat (size i)) then
       let company_name := info_get i "longName" (info_get i "shortName" (PStr company)) in
       let exchange := info_get i "exchange" (PStr "Unknown") in
       Ok (append results
             (dict_of [ ("company", PStr company);
                        ("is_public", PBool true);
                        ("symbol", PStr symbol);
                        ("official_name", company_name);
                        ("exchange", exchange);
                        ("status", PStr "Publicly traded") ]))
     else
       Ok (append results
             (dict_of [ ("company", PStr company);
                        ("is_public", PBool false);
                        ("symbol", PNone);
                        ("status", PStr "Symbol exists but no trading data found") ])))
    (fun e =>
       append results
         (dict_of [ ("company", PStr company);
                    ("is_public", PBool false);
                    ("symbol", PStr symbol);
                    ("status", PStr ("Error checking symbol " +:+ symbol +:+ ": " +:+ e)) ])).

(** One turn of the loop over the companies. *)
Definition check_company (results : list dict) (company : string) : list dict :=
  if Str.is_empty company then results
  else
    let company_lower := Str.lower company in
    match mapping_get symbol_mappings company_lower with
    | Some symbol => check_symbol company symbol results
    | None =>
        if existsb (String.eqb company_lower) known_private then
          append results
            (dict_of [ ("company", PStr company);
                       ("is_public", PBool false);
                       ("symbol", PNone);
                       ("status", PStr "Known private company") ])
        else
          let possible_symbols :=
            [ Str.take 4 (Str.upper company);
              Str.take 3 (Str.upper company);
              Str.take 4 (Str.upper (Str.remove " " company)) ] in
          match probe possible_symbols with
          | Some symbol => check_symbol company symbol results
          | None =>
              append results
                (dict_of [ ("company", PStr company);
                           ("is_public", PBool false);
                           ("symbol", PNone);
                           ("status", PStr "No public trading symbol found") ])
          end
    end.

(** [[r for r in results if r["is_public"]]], and its complement when
    [keep] is [false]. *)
Fixpoint select_public (keep : bool) (results : list dict) : result (list dict) :=
  match results with
  | [] => Ok []
  | r :: rest =>
      v <- dict_item r "is_public" ;;
      tl <- select_public keep rest ;;
      Ok (if Bool.eqb (Py.truthy v) keep then r :: tl else tl)
  end.

Definition bytes (l : list N) : string := string_of_list_ascii (List.map ascii_of_N l).

(** The markers of the report, byte for byte as in the source file. *)
Definition chart_mark : string := bytes [195; 176; 197; 184; 226; 128; 156; 203; 134]%N.
Definition lock_mark : string := bytes [195; 176; 197; 184; 226; 128; 157; 226; 128; 153]%N.
Definition bullet : string := bytes [195; 162; 226; 130; 172; 194; 162]%N.

Fixpoint public_lines (l : list dict) (report : string) : result string :=
  match l with
  | [] => Ok report
  | company :: rest =>
      c <- dict_item company "company" ;;
      s <- dict_item company "symbol" ;;
      o <- dict_item company "official_name" ;;
      x <- dict_item company "exchange" ;;
      public_lines rest
        (report +:+ bullet +:+ " " +:+ Py.str c +:+ " (" +:+ Py.str s +:+ ") - " +:+
         Py.str o +:+ " on " +:+ Py.str x +:+ Json.newline)
  end.

Fixpoint private_lines (l : list dict) (report : string) : result string :=
  match l with
  | [] => Ok report
  | company :: rest =>
      c <- dict_item company "company" ;;
      s <- dict_item company "status" ;;
      private_lines rest
        (report +:+ bullet +:+ " " +:+ Py.str c +:+ " - " +:+ Py.str s +:+ Json.newline)
  end.

Record trading_payload := {
  report : string;
  detailed_results : list dict;
  public_count : nat;
  private_count : nat
}.

Definition check_public_trading_status (company_names : string) : tool_result trading_payload :=
  try_except
    (let companies := List.map Str.strip (Str.split "," company_names) in
     let results := fold_left check_company companies [] in
     public_companies <- select_public true results ;;
     private_companies <- select_public false results ;;
     let report := "Trading Status Analysis:" +:+ Json.newline +:+ Json.newline in
     report <-
       match public_companies with
       | [] => Ok report
       | _ =>
           r <- public_lines public_companies
                  (report +:+ chart_mark +:+ " PUBLICLY TRADED COMPANIES:" +:+ Json.newline) ;;
           Ok (r +:+ Json.newline)
       end ;;
     report <-
       match private_companies with
       | [] => Ok report
       | _ =>
           private_lines private_companies
             (report +:+ lock_mark +:+ " NON-PUBLIC/PRIVATE COMPANIES:" +:+ Json.newline)
       end ;;
     Ok (Success {| report := report;
                    detailed_results := results;
                    public_count := length public_companies;
                    private_count := length private_companies |}))
    (fun e => Error ("Unable to check trading status: " +:+ e)).

End TradingStatus.

(** ** [get_company_financial_metrics] *)

Section FinancialMetrics.

Section Helpers.

Variable i : gmap string pyval.
Variable fin : DataFrame.
Variable latest_year : Timestamp.

(** The body of [safe_get_financial], before its [except] clause. *)
Definition safe_get_financial_body (metric_name source : string) : result pyval :=
  if String.eqb source "financials" then
    if Df.in_index fin metric_name then
      value <- Df.loc fin metric_name latest_year ;;
      t <- selection_truthy value ;;
      if t && negb (String.eqb (selection_str value) "nan") then
        f <- selection_float value ;;
        Ok (PFloat f)
      else Ok PNone
    else Ok PNone
  else if String.eqb source "info" then Ok (info_get i metric_name PNone)
  else Ok PNone.

(** Helper function to safely get financial data. *)
Definition safe_get_financial (metric_name source : string) : pyval :=
  try_except (safe_get_financial_body metric_name source) (fun _ => PNone).

(** Extract key financial metrics. *)
Definition extract_metrics (stock_ticker : string) : dict :=
  dict_of
    [ ("company_name", info_get i "longName" (info_get i "shortName" (PStr stock_ticker)));
      ("ticker", PStr (Str.upper stock_ticker));
      ("currency", info_get i "currency" (PStr "USD"));
      ("fiscal_year_end",
         if timestamp_truthy latest_year then PStr (date latest_year) else PNone);
      ("market_cap", info_get i "marketCap" PNone);
      ("enterprise_value", info_get i "enterpriseValue" PNone);
      ("annual_revenue",
         Py.or_ (safe_get_financial "Total Revenue" "financials")
                (info_get i "totalRevenue" PNone));
      ("cost_of_goods_sold", safe_get_financial "Cost Of Revenue" "financials");
      ("gross_profit", safe_get_financial "Gross Profit" "financials");
      ("operating_income", safe_get_financial "Operating Income" "financials");
      ("net_income", safe_get_financial "Net Income" "financials");
      ("interest_income", safe_get_financial "Interest Income" "financials");
      ("interest_expense", safe_get_financial "Interest Expense" "financials");
      ("net_interest_income", safe_get_financial "Net Interest Income" "financials");
      ("total_expenses", safe_get_financial "Total Expenses" "financials");
      ("operating_expenses", safe_get_financial "Operating Expense" "financials");
      ("ebitda", safe_get_financial "EBITDA" "financials");
      ("ebit", safe_get_financial "EBIT" "financials") ].

(** Pre-calculated margins from the provider's attributes, if available:
    [round(info.get(k, 0) * 100, 2) if info.get(k) else None]. *)
Definition yfinance_margin (k : string) : result pyval :=
  if Py.truthy (info_get i k PNone) then
    p <- Py.mul (info_get i k (PInt 0)) (PInt 100) ;;
    Py.round2 p
  else Ok PNone.

Definition yfinance_margins : result dict :=
  g <- yfinance_margin "grossMargins" ;;
  o <- yfinance_margin "operatingMargins" ;;
  p <- yfinance_margin "profitMargins" ;;
  Ok (dict_of [ ("yf_gross_margin_percent", g);
                ("yf_operating_margin_percent", o);
                ("yf_profit_margin_percent", p) ]).

End Helpers.

(** [round((numerator / annual_revenue) * 100, 2)]. *)
Definition margin_percent (numerator annual_revenue : pyval) : result pyval :=
  q <- Py.truediv numerator annual_revenue ;;
  p <- Py.mul q (PInt 100) ;;
  Py.round2 p.

(** [if metrics[source]: calculated_margins[target] = round(...)]. *)
Definition add_margin (metrics : dict) (annual_revenue : pyval)
    (source target : string) (calculated_margins : dict) : result dict :=
  numerator <- dict_item metrics source ;;
  if Py.truthy numerator then
    v <- margin_percent numerator annual_revenue ;;
    Ok (dict_set calculated_margins target v)
  else Ok calculated_margins.

(** Calculate profit margins. *)
Definition calculate_margins (metrics : dict) : result dict :=
  annual_revenue <- dict_item metrics "annual_revenue" ;;
  positive <- (if Py.truthy annual_revenue then Py.gt0 annual_revenue else Ok false) ;;
  if positive then
    m <- add_margin metrics annual_revenue "gross_profit" "gross_profit_margin_percent" [] ;;
    m <- add_margin metrics annual_revenue "operating_income" "operating_profit_margin_percent" m ;;
    m <- add_margin metrics annual_revenue "net_income" "net_profit_margin_percent" m ;;
    add_margin metrics annual_revenue "ebitda" "ebitda_margin_percent" m
  else Ok [].

(** [abs(value) >= bound]. *)
Definition magnitude_ge (value : pyval) (bound : float) : result bool :=
  a <- Py.abs value ;;
  Py.ge a bound.

(** [f"${value/unit:.2f}{suffix}"]. *)
Definition scaled_currency (value : pyval) (unit : float) (suffix : string) : result string :=
  q <- Py.truediv value (PFloat unit) ;;
  t <- Py.format_2f false q ;;
  Ok ("$" +:+ t +:+ suffix).

(** Format large numbers for display. *)
Definition format_currency (value : pyval) : result string :=
  match value with
  | PNone => Ok "N/A"
  | _ =>
      c <- magnitude_ge value 1e12 ;;
      if c then scaled_currency value 1e12 "T"
      else
        c <- magnitude_ge value 1e9 ;;
        if c then scaled_currency value 1e9 "B"
        else
          c <- magnitude_ge value 1e6 ;;
          if c then scaled_currency value 1e6 "M"
          else
            c <- magnitude_ge value 1e3 ;;
            if c then scaled_currency value 1e3 "K"
            else
              t <- Py.format_2f true value ;;
              Ok ("$" +:+ t)
  end.

(** [f"{d.get(k, 'N/A')}%" if d.get(k) else "N/A"]. *)
Definition percent_field (financial_data : dict) (k : string) : string :=
  if Py.truthy (dict_get financial_data k PNone) then
    Py.str (dict_get financial_data k (PStr "N/A")) +:+ "%"
  else "N/A".

(** Create formatted summary. *)
Definition make_summary (financial_data : dict) : result dict :=
  company <- dict_item financial_data "company_name" ;;
  tick <- dict_item financial_data "ticker" ;;
  cap <- dict_item financial_data "market_cap" ;;
  cap <- format_currency cap ;;
  rev <- dict_item financial_data "annual_revenue" ;;
  rev <- format_currency rev ;;
  gp <- dict_item financial_data "gross_profit" ;;
  gp <- format_currency gp ;;
  oi <- dict_item financial_data "operating_income" ;;
  oi <- format_currency oi ;;
  ni <- dict_item financial_data "net_income" ;;
  ni <- format_currency ni ;;
  Ok (dict_of
        [ ("company", company);
          ("ticker", tick);
          ("market_cap", PStr cap);
          ("annual_revenue", PStr rev);
          ("gross_profit", PStr gp);
          ("operating_income", PStr oi);
          ("net_income", PStr ni);
          ("gross_margin", PStr (percent_field financial_data "gross_profit_margin_percent"));
          ("operating_margin",
             PStr (percent_field financial_data "operating_profit_margin_percent"));
          ("net_margin", PStr (percent_field financial_data "net_profit_margin_percent")) ]).

Record metrics_payload := {
  summary : dict;
  detailed_metrics : dict;
  json_data : string;
  fiscal_year : string
}.

Variable yf : yfinance.

(** The statements under [try]. *)
Definition get_company_financial_metrics_body (stock_ticker : string)
    : result (tool_result metrics_payload) :=
  ticker <- yf (Str.upper stock_ticker) ;;
  i <- info ticker ;;
  fin <- financials ticker ;;
  if Df.empty fin || negb (info_truthy i) then
    Ok (Error ("No financial data found for ticker '" +:+ stock_ticker +:+
               "'. Please verify the ticker symbol is correct."))
  else
    latest_year <- Df.first_column fin ;;
    let metrics := extract_metrics i fin latest_year stock_ticker in
    calculated_margins <- calculate_margins metrics ;;
    yfinance_margins <- yfinance_margins i ;;
    let financial_data := dict_merge (dict_merge metrics calculated_margins) yfinance_margins in
    summary <- make_summary financial_data ;;
    Ok (Success {| summary := summary;
                   detailed_metrics := financial_data;
                   json_data := Json.dumps financial_data;
                   fiscal_year :=
                     if timestamp_truthy latest_year then date latest_year else "Unknown" |}).

Definition get_company_financial_metrics (stock_ticker : string) : tool_result metrics_payload :=
  try_except (get_company_financial_metrics_body stock_ticker)
    (fun e => Error ("Unable to retrieve financial data for '" +:+ stock_ticker +:+ "': " +:+ e)).

End FinancialMetrics.

(** ** [get_current_time] *)

Section CurrentTime.

(** [datetime.datetime.now(ZoneInfo(tz)).strftime("%Y-%m-%d %H:%M:%S %Z%z")]:
    the reading of the clock in the zone [tz], which raises when the system
    has no data for the zone. *)
Variable strftime_now : string -> result string.

(** The function has no [try]: an exception of the clock leaves it. *)
Definition get_current_time (city : string) : result (tool_result string) :=
  if String.eqb (Str.lower city) "new york" then
    let tz_identifier := "America/New_York" in
    now <- strftime_now tz_identifier ;;
    Ok (Success ("The current time in " +:+ city +:+ " is " +:+ now))
  else
    Ok (Error ("Sorry, I don't have timezone information for " +:+ city +:+ ".")).

End CurrentTime.

(** ** [find_contracted_companies] *)

Module Contracted.

Record payload := {
  report : string;
  company_searched : string
}.

End Contracted.

Section ContractedCompanies.

(** [genai.Client(...).models.generate_content(model, contents, config).text]
    with the web-search tool configured: the text of the answer ([None]
    when the answer has none), or the exception raised by the client or by
    the call. *)
Variable generate_content : string -> string -> result pyval.

Definition search_prompt (company_name : string) : string :=
  "Find the major contracted companies, business partners, suppliers, and vendors " +:+
  "that work with " +:+ company_name +:+ ". List the company names clearly and focus on " +:+
  "significant business relationships and partnerships. Include companies that " +:+
  "provide services or products to " +:+ company_name +:+
  " or have major contracts with them.".

Definition find_contracted_companies (company_name : string)
    : tool_result Contracted.payload :=
  try_except
    (text <- generate_content "gemini-2.0-flash-exp" (search_prompt company_name) ;;
     Ok (Success
           {| Contracted.report :=
                "Contracted companies for " +:+ company_name +:+ ":" +:+ Json.newline +:+
                Py.str text;
              Contracted.company_searched := company_name |}))
    (fun e =>
       Error ("Unable to search for contracted companies for '" +:+ company_name +:+
              "': " +:+ e)).

End ContractedCompanies.

(** * The REST wrapper ([frontend_app.py])

    The handlers are modelled by what they answer; what they print on the
    way is not part of the model. *)

(** [sub in s] as a test, and [sep.join(l)]. *)
Fixpoint starts_with (sub s : string) : bool :=
  match sub, s with
  | EmptyString, _ => true
  | String a sub', String b s' => Ascii.eqb a b && starts_with sub' s'
  | String _ _, EmptyString => false
  end.

Fixpoint occurs_in (sub s : string) : bool :=
  starts_with sub s ||
  match s with
  | EmptyString => false
  | String _ r => occurs_in sub r
  end.

Fixpoint join (sep : string) (l : list string) : string :=
  match l with
  | [] => EmptyString
  | [x] => x
  | x :: r => x +:+ sep +:+ join sep r
  end.

Module Api.

(** What the statements under [try] can raise: the framework's
    [HTTPException], or any other exception, kept as its message. *)
Inductive exception :=
  | HTTPException (status_code : nat) (detail : string)
  | Exception (message : string).

Inductive attempt (A : Type) :=
  | Done (a : A)
  | Thrown (e : exception).

Arguments Done {A} a.
Arguments Thrown {A} e.

(** What the client gets: the body the handler returns, or the status
    code and the detail of the [HTTPException] that leaves it. *)
Inductive response (A : Type) :=
  | Returned (body : A)
  | Failed (status_code : nat) (detail : string).

Arguments Returned {A} body.
Arguments Failed {A} status_code detail.

(** An exception of the tools' code, inside a handler. *)
Definition of_result {A} (r : result A) : attempt A :=
  match r with
  | Ok a => Done a
  | Raise e => Thrown (Exception e)
  end.

(** An element of [public_companies]: a dictionary, or the bare name when
    the trading check failed. *)
Inductive company_item :=
  | Entry (d : dict)
  | Name (s : string).

Definition is_dict (company : company_item) : bool :=
  match company with
  | Entry _ => true
  | Name _ => false
  end.

Record search_response := {
  company_searched : string;
  contracted_companies_report : string;
  contracted_companies : list string;
  public_companies_count : nat;
  total_companies_found : nat;
  financial_data : list dict;
  trading_status_details : list dict
}.

Definition example_companies : list string :=
  [ "Accenture"; "Deloitte"; "IBM"; "Microsoft"; "Salesforce";
    "ServiceNow"; "Workday"; "SAP"; "Adobe"; "Intel" ].

(** The example companies the report mentions, or a sample set when it
    mentions none. *)
Definition find_companies (report_text : string) : list string :=
  match
    List.filter (fun company => occurs_in (Str.lower company) (Str.lower report_text))
      example_companies
  with
  | [] => ["Accenture"; "Deloitte"; "IBM"; "Microsoft"]
  | found_companies => found_companies
  end.

(** The public companies of the trading result. *)
Fixpoint extract_public (detailed_results : list dict) : result (list company_item) :=
  match detailed_results with
  | [] => Ok []
  | company_data :: rest =>
      if Py.truthy (dict_get company_data "is_public" (PBool false)) then
        name <- dict_item company_data "company" ;;
        symbol <- dict_item company_data "symbol" ;;
        let exchange := dict_get company_data "exchange" (PStr "Unknown") in
        public_companies <- extract_public rest ;;
        Ok (Entry (dict_of [("name", name); ("symbol", symbol); ("exchange", exchange)])
              :: public_companies)
      else extract_public rest
  end.

Definition ticker_map : list (string * string) :=
  [ ("microsoft", "MSFT"); ("accenture", "ACN"); ("ibm", "IBM");
    ("salesforce", "CRM"); ("servicenow", "NOW"); ("workday", "WDAY");
    ("sap", "SAP"); ("adobe", "ADBE"); ("intel", "INTC") ].

Fixpoint ticker_map_get (m : list (string * string)) (k dflt : string) : string :=
  match m with
  | [] => dflt
  | (k', v) :: r => if String.eqb k' k then v else ticker_map_get r k dflt
  end.

(** The ticker and the name of an element of [public_companies]. A
    dictionary without a symbol would be taken for a name, and
    [company.lower()] raise. *)
Definition ticker_of (company : company_item) : result (pyval * pyval) :=
  match company with
  | Entry d =>
      match dict_lookup d "symbol" with
      | Some _ =>
          ticker <- dict_item d "symbol" ;;
          company_name_item <- dict_item d "name" ;;
          Ok (ticker, company_name_item)
      | None => Raise "'dict' object has no attribute 'lower'"
      end
  | Name company =>
      Ok (PStr (ticker_map_get ticker_map (Str.lower company)
                  (Str.upper (Str.take 4 company))),
          PStr company)
  end.

Section Endpoints.

(** [str(e)] of an [HTTPException], defined by the framework. *)
Variable http_exception_str : nat -> string -> string.

Variable generate_content : string -> string -> result pyval.
Variable yf : yfinance.

Definition str_exception (e : exception) : string :=
  match e with
  | HTTPException status_code detail => http_exception_str status_code detail
  | Exception message => message
  end.

(** [try: body except Exception as e: raise HTTPException(500, prefix + str(e))]:
    the handler also catches the [HTTPException]s of the body. *)
Definition internal_error {A} (prefix : string) (body : attempt A) : response A :=
  match body with
  | Done a => Returned a
  | Thrown e => Failed 500 (prefix +:+ str_exception e)
  end.

(** [get_company_financial_metrics(ticker)] on a value of any type: on
    anything but a string, [stock_ticker.upper()] raises under the tool's
    [try]. *)
Definition financial_metrics_of (ticker : pyval) : tool_result metrics_payload :=
  match ticker with
  | PStr stock_ticker => get_company_financial_metrics yf stock_ticker
  | _ =>
      Error ("Unable to retrieve financial data for '" +:+ Py.str ticker +:+ "': '" +:+
             Py.type_name ticker +:+ "' object has no attribute 'upper'")
  end.

(** Step 3: the financial data of the public companies. *)
Fixpoint collect_financial_data (public_companies : list company_item)
    (financial_data : list dict) : result (list dict) :=
  match public_companies with
  | [] => Ok financial_data
  | company :: rest =>
      item <- ticker_of company ;;
      let ticker := fst item in
      let company_name_item := snd item in
      match financial_metrics_of ticker with
      | Success financial_result =>
          collect_financial_data rest
            (append financial_data
               (dict_merge
                  (dict_of [("company_name", company_name_item); ("ticker", ticker)])
                  (detailed_metrics financial_result)))
      | Error _ => collect_financial_data rest financial_data
      end
  end.

(** [len([c for c in public_companies if isinstance(c, dict)] if public_companies else 0)]:
    the conditional is the argument of [len]. *)
Definition count_public (public_companies : list company_item) : result nat :=
  match public_companies with
  | [] => Raise "object of type 'int' has no len()"
  | _ => Ok (length (List.filter is_dict public_companies))
  end.

(** The statements under [try] of [search_company_analysis]. *)
Definition search_company_analysis_body (request_company_name : string)
    : attempt search_response :=
  let company_name := Str.strip request_company_name in
  if Str.is_empty company_name then
    Thrown (HTTPException 400 "Company name cannot be empty")
  else
    match find_contracted_companies generate_content company_name with
    | Error error_message =>
        Thrown (HTTPException 400
                  ("Error finding contracted companies: " +:+ error_message))
    | Success contracted_result =>
        let report_text := Contracted.report contracted_result in
        let found_companies := find_companies report_text in
        let company_names_str := join ", " found_companies in
        let trading_result := check_public_trading_status yf company_names_str in
        of_result
          (public_companies <-
             match trading_result with
             | Error _ => Ok (List.map Name found_companies)
             | Success t => extract_public (detailed_results t)
             end ;;
           financial_data <- collect_financial_data public_companies [] ;;
           public_companies_count <- count_public public_companies ;;
           Ok {| company_searched := company_name;
                 contracted_companies_report := Contracted.report contracted_result;
                 contracted_companies := found_companies;
                 public_companies_count := public_companies_count;
                 total_companies_found := length found_companies;
                 financial_data := financial_data;
                 trading_status_details :=
                   match trading_result with
                   | Success t => detailed_results t
                   | Error _ => []
                   end |})
    end.

(** [POST /api/search]. *)
Definition search_company_analysis (request_company_name : string)
    : response search_response :=
  internal_error "Internal server error: "
    (search_company_analysis_body request_company_name).

(** The three endpoints that call one tool: an error result raises an
    [HTTPException] with status 400 under the handler's [try]. *)
Definition relay {A} (result : tool_result A) : response (tool_result A) :=
  internal_error ""
    (match result with
     | Success _ => Done result
     | Error error_message => Thrown (HTTPException 400 error_message)
     end).

(** [POST /api/financial-metrics]. *)
Definition get_financial_metrics (request_ticker : string)
    : response (tool_result metrics_payload) :=
  relay (get_company_financial_metrics yf request_ticker).

(** [POST /api/trading-status]. *)
Definition check_trading_status (request_company_names : string)
    : response (tool_result trading_payload) :=
  relay (check_public_trading_status yf request_company_names).

(** [POST /api/find-contracted]. *)
Definition find_contracted (request_company_name : string)
    : response (tool_result Contracted.payload) :=
  relay (find_contracted_companies generate_content request_company_name).

End Endpoints.

End Api.

(** * The vocabulary of the specification *)

(** The binding of [k] that a merge takes from [d]: the last one. *)
Fixpoint dict_last (d : dict) (k : string) : option pyval :=
  match d with
  | [] => None
  | (k', v) :: r =>
      match dict_last r k with
      | Some w => Some w
      | None => if String.eqb k' k then Some v else None
      end
  end.

Definition new_york_report : string :=
  "The weather in New York is sunny with a temperature of 25 degrees" +:+
  " Celsius (77 degrees Fahrenheit).".

Definition keys (d : dict) : list string := List.map fst d.

(** The numerator field and the margin field of each derived margin. *)
Definition margin_sources : list (string * string) :=
  [ ("gross_profit", "gross_profit_margin_percent");
    ("operating_income", "operating_profit_margin_percent");
    ("net_income", "net_profit_margin_percent");
    ("ebitda", "ebitda_margin_percent") ].

(** Annual revenue is a number and strictly positive. *)
Definition revenue_positive (annual_revenue : pyval) : Prop :=
  Py.truthy annual_revenue = true /\ Py.gt0 annual_revenue = Ok true.

(** The value of a computation that did not raise. *)
Definition result_value {A} (r : result A) : option A :=
  match r with
  | Ok a => Some a
  | Raise _ => None
  end.

Definition provider_margin_keys : list string :=
  [ "yf_gross_margin_percent"; "yf_operating_margin_percent"; "yf_profit_margin_percent" ].

(** The line items read from the income statement, with the field of the
    record each one fills. *)
Definition line_items : list (string * string) :=
  [ ("annual_revenue", "Total Revenue");
    ("cost_of_goods_sold", "Cost Of Revenue");
    ("gross_profit", "Gross Profit");
    ("operating_income", "Operating Income");
    ("net_income", "Net Income");
    ("interest_income", "Interest Income");
    ("interest_expense", "Interest Expense");
    ("net_interest_income", "Net Interest Income");
    ("total_expenses", "Total Expenses");
    ("operating_expenses", "Operating Expense");
    ("ebitda", "EBITDA");
    ("ebit", "EBIT") ].

(** A provider value that is exactly zero: the integer [0], or the float
    [0.0] or [-0.0]. *)
Definition zero_number (v : pyval) : Prop :=
  v = PInt 0 \/ exists f, v = PFloat f /\ (f =? 0)%float = true.

(** A cell of a numeric income statement: a number (a float, NaN for a
    missing value, an integer or a boolean) or [None]; not a string. *)
Definition numeric_cell (v : pyval) : bool :=
  match v with
  | PStr _ => false
  | _ => true
  end.

Definition numeric_table (fin : DataFrame) : Prop :=
  forallb (fun r => forallb numeric_cell (snd r)) (rows fin) = true.

Definition not_found_message (t : string) : string :=
  "No financial data found for ticker '" +:+ t +:+
  "'. Please verify the ticker symbol is correct.".

Definition retrieval_message (t e : string) : string :=
  "Unable to retrieve financial data for '" +:+ t +:+ "': " +:+ e.

(** The provider's ratios, with the field of the record each one fills. *)
Definition provider_margins : list (string * string) :=
  [ ("grossMargins", "yf_gross_margin_percent");
    ("operatingMargins", "yf_operating_margin_percent");
    ("profitMargins", "yf_profit_margin_percent") ].

(** The suffix and the unit the currency formatter picks for a magnitude
    that reaches the bounds [ge] holds of: trillions first, then billions,
    millions and thousands. *)
Definition currency_bucket (ge : float -> bool) : option (float * string) :=
  if ge 1e12%float then Some (1e12%float, "T")
  else if ge 1e9%float then Some (1e9%float, "B")
  else if ge 1e6%float then Some (1e6%float, "M")
  else if ge 1e3%float then Some (1e3%float, "K")
  else None.

(** The currency fields and the percentage fields of the summary, with the
    field of the record each one renders. *)
Definition currency_fields : list (string * string) :=
  [ ("market_cap", "market_cap"); ("annual_revenue", "annual_revenue");
    ("gross_profit", "gross_profit"); ("operating_income", "operating_income");
    ("net_income", "net_income") ].

Definition percent_fields : list (string * string) :=
  [ ("gross_margin", "gross_profit_margin_percent");
    ("operating_margin", "operating_profit_margin_percent");
    ("net_margin", "net_profit_margin_percent") ].

(** The company names the loop handles: the comma-separated parts of the
    input, stripped, the empty ones skipped. *)
Definition trimmed_names (company_names : string) : list string :=
  List.filter (fun c => negb (Str.is_empty c))
    (List.map Str.strip (Str.split "," company_names)).

(** An entry of the detailed results made for [company]. *)
Definition entry_for (company : string) (entry : dict) : Prop :=
  dict_lookup entry "company" = Some (PStr company) /\
  exists b, dict_lookup entry "is_public" = Some (PBool b).

(** The fields the report reads from an entry: those of a public company,
    or those of a private one. *)
Definition reportable (keep : bool) (entry : dict) : Prop :=
  is_Some (dict_lookup entry "company") /\
  if keep then
    is_Some (dict_lookup entry "symbol") /\
    is_Some (dict_lookup entry "official_name") /\
    is_Some (dict_lookup entry "exchange")
  else is_Some (dict_lookup entry "status").

Definition entry_shape (entry : dict) : Prop :=
  exists b, dict_lookup entry "is_public" = Some (PBool b) /\ reportable b entry.

(** ** The vocabulary of the further properties *)

(** The entry of a known private company. *)
Definition private_entry (company : string) : dict :=
  dict_of [ ("company", PStr company);
            ("is_public", PBool false);
            ("symbol", PNone);
            ("status", PStr "Known private company") ].

(** The symbols tried for a name that is in neither table. *)
Definition possible_symbols (company : string) : list string :=
  [ Str.take 4 (Str.upper company);
    Str.take 3 (Str.upper company);
    Str.take 4 (Str.upper (Str.remove " " company)) ].

(** The entries of the detailed results that are marked public. *)
Definition is_public_entry (entry : dict) : bool :=
  match dict_lookup entry "is_public" with
  | Some v => Py.truthy v
  | None => false
  end.

(** The fields every success record starts with, the derived margin fields
    and the fields of the summary, in the order the code writes them. *)
Definition record_keys : list string :=
  [ "company_name"; "ticker"; "currency"; "fiscal_year_end"; "market_cap";
    "enterprise_value"; "annual_revenue"; "cost_of_goods_sold"; "gross_profit";
    "operating_income"; "net_income"; "interest_income"; "interest_expense";
    "net_interest_income"; "total_expenses"; "operating_expenses"; "ebitda"; "ebit" ].

Definition derived_margin_keys : list string := List.map snd margin_sources.

Definition summary_keys : list string :=
  [ "company"; "ticker"; "market_cap"; "annual_revenue"; "gross_profit";
    "operating_income"; "net_income"; "gross_margin"; "operating_margin"; "net_margin" ].

(** [k in d]. *)
Definition has_key (d : dict) (k : string) : bool :=
  match dict_lookup d k with
  | Some _ => true
  | None => false
  end.

(** The symbols of the table for the ten example companies of the search
    endpoint. *)
Definition example_symbols : list string :=
  [ "ACN"; "DLX"; "IBM"; "MSFT"; "CRM"; "NOW"; "WDAY"; "SAP"; "ADBE"; "INTC" ].

(** A name that [", ".join] and the split of the trading check give back
    unchanged: no comma, no space around it, not empty. *)
Definition plain_name (name : string) : Prop :=
  Str.split "," name = [name] /\ Str.strip name = name /\ Str.is_empty name = false.

(** The element of [public_companies] made from a public entry. *)
Definition item_of (company_data : dict) : Api.company_item :=
  Api.Entry
    (dict_of [ ("name", dict_get company_data "company" PNone);
               ("symbol", dict_get company_data "symbol" PNone);
               ("exchange", dict_get company_data "exchange" (PStr "Unknown")) ]).

(** The report of [find_contracted_companies] for an answer of the model. *)
Definition contracted_report (company_name : string) (text : pyval) : string :=
  "Contracted companies for " +:+ company_name +:+ ":" +:+ Json.newline +:+ Py.str text.

(** The message of the [TypeError] of [len(0)]. *)
Definition no_len_message : string := "object of type 'int' has no len()".

(** The records [search_company_analysis] adds for a public entry: the
    detailed metrics of its symbol, when they can be had. *)
Definition metrics_entries (yf : yfinance) (entry : dict) : list dict :=
  match dict_get entry "symbol" PNone with
  | PStr symbol =>
      match get_company_financial_metrics yf symbol with
      | Success financial_result => [detailed_metrics financial_result]
      | Error _ => []
      end
  | _ => []
  end.

(** A provider that fails on every symbol. *)
Definition provider_down (yf : yfinance) : Prop :=
  forall symbol, exists e, yf symbol = Raise e.

(** * Sample provider answers *)

Definition sample_columns : list Timestamp :=
  [ {| date := "2024-05-31" |}; {| date := "2023-05-31" |} ].

Definition oracle_info : gmap string pyval :=
  list_to_map
    [ ("symbol", PStr "ORCL"); ("longName", PStr "Oracle Corporation");
      ("exchange", PStr "NYQ"); ("currency", PStr "USD");
      ("marketCap", PInt 450000000000); ("grossMargins", PFloat 0.5) ].

Definition oracle_financials : DataFrame :=
  {| columns := sample_columns;
     rows := [ ("Total Revenue", [PFloat 52961000000; PFloat 49954000000]);
               ("Gross Profit", [PFloat 37818000000; PFloat 36387000000]);
               ("Operating Income", [PFloat 15353000000; PFloat 13093000000]);
               ("Net Income", [PFloat 10467000000; PFloat 8503000000]);
               ("Interest Expense", [PFloat nan; PFloat 3505000000]);
               ("EBITDA", [PFloat 21227000000; PFloat 18896000000]) ] |}.

Definition oracle_ticker : Ticker :=
  {| info := Ok oracle_info; financials := Ok oracle_financials |}.

(** A company whose statement has no revenue line, while the provider
    reports a gross-margin ratio. *)
Definition acme_info : gmap string pyval :=
  list_to_map [ ("shortName", PStr "Acme"); ("grossMargins", PFloat 0.5) ].

Definition acme_financials : DataFrame :=
  {| columns := sample_columns;
     rows := [ ("Net Income", [PFloat 5000000; PFloat 4000000]) ] |}.

Definition acme_ticker : Ticker :=
  {| info := Ok acme_info; financials := Ok acme_financials |}.

(** A company whose gross profit is tiny next to its revenue. *)
Definition tiny_info : gmap string pyval :=
  list_to_map [ ("shortName", PStr "Tiny") ].

Definition tiny_financials : DataFrame :=
  {| columns := sample_columns;
     rows := [ ("Total Revenue", [PFloat 1000000000; PFloat 900000000]);
               ("Gross Profit", [PFloat 1; PFloat 1]) ] |}.

Definition tiny_ticker : Ticker :=
  {| info := Ok tiny_info; financials := Ok tiny_financials |}.

(** A company that reports a revenue of zero in its statement. *)
Definition zero_info : gmap string pyval :=
  list_to_map [ ("shortName", PStr "Zero"); ("totalRevenue", PInt 5000) ].

Definition zero_financials : DataFrame :=
  {| columns := sample_columns;
     rows := [ ("Total Revenue", [PFloat 0; PFloat 100]) ] |}.

Definition zero_ticker : Ticker :=
  {| info := Ok zero_info; financials := Ok zero_financials |}.

(** What the provider answers for a symbol it does not know. *)
Definition unknown_ticker : Ticker :=
  {| info := Ok ∅; financials := Ok {| columns := []; rows := [] |} |}.

Definition sample_yf : yfinance := fun symbol =>
  if String.eqb symbol "ORCL" then Ok oracle_ticker
  else if String.eqb symbol "ACME" then Ok acme_ticker
  else if String.eqb symbol "TINY" then Ok tiny_ticker
  else if String.eqb symbol "ZERO" then Ok zero_ticker
  else if String.eqb symbol "DOWN" then Raise "HTTP Error 503: Service Unavailable"
  else Ok unknown_ticker.

Definition payload_of {A} (r : tool_result A) (dflt : A) : A :=
  match r with
  | Success p => p
  | Error _ => dflt
  end.

Definition no_metrics : metrics_payload :=
  {| summary := []; detailed_metrics := []; json_data := ""; fiscal_year := "" |}.

Definition oracle_metrics : metrics_payload :=
  payload_of (get_company_financial_metrics sample_yf "orcl") no_metrics.

Definition acme_metrics : metrics_payload :=
  payload_of (get_company_financial_metrics sample_yf "acme") no_metrics.

Definition tiny_metrics : metrics_payload :=
  payload_of (get_company_financial_metrics sample_yf "tiny") no_metrics.

Definition no_trading : trading_payload :=
  {| report := ""; detailed_results := []; public_count := 0; private_count := 0 |}.

Definition sample_trading : trading_payload :=
  payload_of (check_public_trading_status sample_yf " PWC, Oracle ,, orcl inc,foo") no_trading.

(** An answer of the language model that names one of the example
    companies, a provider that knows another one, and the framework's
    rendering of an [HTTPException]. *)
Definition sample_generate_content : string -> string -> result pyval :=
  fun model contents => Ok (PStr "Its partners include Accenture and PwC.").

Definition ibm_info : gmap string pyval :=
  list_to_map
    [ ("symbol", PStr "IBM"); ("longName", PStr "International Business Machines");
      ("exchange", PStr "NYQ"); ("currency", PStr "USD") ].

Definition ibm_ticker : Ticker :=
  {| info := Ok ibm_info; financials := Ok tiny_financials |}.

Definition sample_market : yfinance := fun symbol =>
  if String.eqb symbol "IBM" then Ok ibm_ticker else sample_yf symbol.

Definition sample_http_exception_str (status_code : nat) (detail : string) : string :=
  Str.of_N (N.of_nat status_code) +:+ ": " +:+ detail.

Definition no_search : Api.search_response :=
  {| Api.company_searched := "";
     Api.contracted_companies_report := "";
     Api.contracted_companies := [];
     Api.public_companies_count := 0;
     Api.total_companies_found := 0;
     Api.financial_data := [];
     Api.trading_status_details := [] |}.

Definition body_of {A} (r : Api.response A) (dflt : A) : A :=
  match r with
  | Api.Returned body => body
  | Api.Failed _ _ => dflt
  end.

Definition sample_search : Api.search_response :=
  body_of (Api.search_company_analysis sample_http_exception_str sample_generate_content
             sample_market " ibm ") no_search.

(** The same provider, except that it fails on a symbol the search endpoint
    never asks for. *)
Definition sample_market_without_oracle : yfinance := fun symbol =>
  if String.eqb symbol "ORCL" then Raise "HTTP Error 404: Not Found" else sample_market symbol.

Definition sample_found_trading : trading_payload :=
  payload_of (check_public_trading_status sample_yf "Accenture, IBM") no_trading.

Definition sample_outage : yfinance := fun symbol => Raise "Connection refused".

(** A company whose gross profit is written as text in the statement. *)
Definition text_info : gmap string pyval :=
  list_to_map [ ("shortName", PStr "Text") ].

Definition text_financials : DataFrame :=
  {| columns := sample_columns;
     rows := [ ("Total Revenue", [PFloat 1000000000; PFloat 900000000]);
               ("Gross Profit", [PStr "0"; PStr "0"]) ] |}.

Definition text_ticker : Ticker :=
  {| info := Ok text_info; financials := Ok text_financials |}.

Definition text_yf : yfinance := fun symbol =>
  if String.eqb symbol "TEXT" then Ok text_ticker else sample_yf symbol.

Definition text_metrics : metrics_payload :=
  payload_of (get_company_financial_metrics text_yf "text") no_metrics.

(** * Properties *)

(** ** The exception monad *)

Lemma bind_Ok {A B} (r : result A) (k : A -> result B) (b : B) :
  bind r k = Ok b <-> exists a, r = Ok a /\ k a = Ok b.
Proof.
  split.
  - destruct r as [a|e]; simpl; intros H; [eauto | discriminate].
  - intros (a & -> & H). exact H.
Qed.

Lemma bind_Raise {A B} (r : result A) (k : A -> result B) (e : string) :
  bind r k = Raise e <-> r = Raise e \/ exists a, r = Ok a /\ k a = Raise e.
Proof.
  split.
  - destruct r as [a|e']; simpl; intros H; [right; eauto | left; congruence].
  - intros [-> | (a & -> & H)]; [reflexivity | exact H].
Qed.

(** Decompose a hypothesis [bind r k = Ok b], outermost bind first. *)
Ltac bind_inv H :=
  let a := fresh "a" in
  let Ha := fresh "Ha" in
  apply bind_Ok in H; destruct H as (a & Ha & H); cbv beta in H.

(** ** Dictionaries *)

Lemma dict_lookup_set (d : dict) (k k' : string) (v : pyval) :
  dict_lookup (dict_set d k v) k' =
  if String.eqb k k' then Some v else dict_lookup d k'.
Proof.
  induction d as [|[k0 v0] r IH]; simpl.
  - reflexivity.
  - destruct (String.eqb k0 k) eqn:E0; simpl.
    + apply String.eqb_eq in E0. subst k0.
      destruct (String.eqb k k'); reflexivity.
    + rewrite IH. destruct (String.eqb k0 k') eqn:E1; [|reflexivity].
      apply String.eqb_eq in E1. subst k'.
      rewrite String.eqb_sym, E0. reflexivity.
Qed.

Lemma dict_lookup_merge (d2 d1 : dict) (k : string) :
  dict_lookup (dict_merge d1 d2) k =
  match dict_last d2 k with
  | Some v => Some v
  | None => dict_lookup d1 k
  end.
Proof.
  unfold dict_merge. revert d1.
  induction d2 as [|[k0 v0] r IH]; intros d1; simpl.
  - reflexivity.
  - rewrite IH. destruct (dict_last r k); [reflexivity|].
    simpl. rewrite dict_lookup_set. destruct (String.eqb k0 k); reflexivity.
Qed.

Lemma dict_item_Ok (d : dict) (k : string) (v : pyval) :
  dict_item d k = Ok v <-> dict_lookup d k = Some v.
Proof.
  unfold dict_item. destruct (dict_lookup d k); split; intros H; congruence.
Qed.

(** ** The weather stub *)

(** C6.  [get_weather] succeeds exactly when the city, lowercased, is
    [new york], always with the same report; for any other city it returns
    an error whose message contains the city as given.  In particular
    [New York] and [new york] give identical success payloads and [Paris]
    gives an error naming [Paris]. *)
Theorem get_weather_new_york_only (city : string) :
  (get_weather city = Success new_york_report <-> Str.lower city = "new york") /\
  (status (get_weather city) = "success" <-> Str.lower city = "new york") /\
  (Str.lower city <> "new york" <->
   get_weather city = Error ("Weather information for '" +:+ city +:+ "' is not available.")) /\
  (forall msg, get_weather city = Error msg -> Str.contains city msg) /\
  get_weather "New York" = get_weather "new york" /\
  get_weather "new york" = Success new_york_report /\
  (exists msg, get_weather "Paris" = Error msg /\ Str.contains "Paris" msg).
Proof.
  unfold get_weather.
  destruct (String.eqb (Str.lower city) "new york") eqn:E.
  - apply String.eqb_eq in E.
    repeat split; try (intros; first [reflexivity | assumption | congruence | discriminate]).
    eexists. split; [reflexivity|].
    exists "Weather information for '", "' is not available.". reflexivity.
  - apply String.eqb_neq in E.
    repeat split; try (intros; first [reflexivity | assumption | congruence | discriminate]).
    + intros msg [= <-]. exists "Weather information for '", "' is not available.". reflexivity.
    + eexists. split; [reflexivity|].
      exists "Weather information for '", "' is not available.". reflexivity.
Qed.

(** ** Dictionaries without repeated keys *)

Lemma dict_lookup_None (d : dict) (k : string) :
  dict_lookup d k = None <-> ~ In k (keys d).
Proof.
  induction d as [|[k0 v0] r IH]; simpl.
  - tauto.
  - destruct (String.eqb k0 k) eqn:E.
    + apply String.eqb_eq in E. split; [discriminate | intros H; destruct H; auto].
    + apply String.eqb_neq in E. rewrite IH. tauto.
Qed.

Lemma keys_dict_set (d : dict) (k : string) (v : pyval) :
  keys (dict_set d k v) =
  match dict_lookup d k with
  | Some _ => keys d
  | None => (keys d ++ [k])%list
  end.
Proof.
  unfold keys.
  induction d as [|[k0 v0] r IH]; simpl.
  - reflexivity.
  - destruct (String.eqb k0 k) eqn:E; simpl.
    + reflexivity.
    + rewrite IH. destruct (dict_lookup r k); reflexivity.
Qed.

Lemma dict_set_NoDup (d : dict) (k : string) (v : pyval) :
  NoDup (keys d) -> NoDup (keys (dict_set d k v)).
Proof.
  intros H. rewrite keys_dict_set.
  destruct (dict_lookup d k) eqn:E; [exact H|].
  apply dict_lookup_None in E.
  apply NoDup_app; repeat split; auto.
  - intros x Hx Hk. apply list_elem_of_In in Hx, Hk. destruct Hk as [<-|[]]. auto.
  - apply NoDup_singleton.
Qed.

Lemma dict_last_lookup (d : dict) (k : string) :
  NoDup (keys d) -> dict_last d k = dict_lookup d k.
Proof.
  induction d as [|[k0 v0] r IH]; simpl; intros H.
  - reflexivity.
  - apply NoDup_cons in H. destruct H as [Hk0 Hr].
    rewrite (IH Hr).
    destruct (String.eqb k0 k) eqn:E.
    + apply String.eqb_eq in E. subst k0.
      assert (dict_lookup r k = None) as ->; [|reflexivity].
      apply dict_lookup_None. intros Hin. apply Hk0. apply list_elem_of_In. exact Hin.
    + destruct (dict_lookup r k); reflexivity.
Qed.

(** Lookup in [{**d1, **d2}] when [d2] has no repeated key. *)
Lemma dict_lookup_merge_NoDup (d1 d2 : dict) (k : string) :
  NoDup (keys d2) ->
  dict_lookup (dict_merge d1 d2) k =
  match dict_lookup d2 k with
  | Some v => Some v
  | None => dict_lookup d1 k
  end.
Proof.
  intros H. rewrite dict_lookup_merge, (dict_last_lookup _ _ H). reflexivity.
Qed.

(** ** Derived margins *)

Lemma add_margin_spec (metrics : dict) (rev : pyval) (src tgt : string) (m m' : dict) :
  add_margin metrics rev src tgt m = Ok m' ->
  NoDup (keys m) ->
  NoDup (keys m') /\
  exists num, dict_lookup metrics src = Some num /\
    (Py.truthy num = true -> exists v, margin_percent num rev = Ok v) /\
    forall k, dict_lookup m' k =
              if String.eqb tgt k && Py.truthy num
              then result_value (margin_percent num rev)
              else dict_lookup m k.
Proof.
  unfold add_margin. intros H Hm.
  bind_inv H. apply dict_item_Ok in Ha.
  destruct (Py.truthy a) eqn:Et.
  - bind_inv H. injection H as <-. split; [apply dict_set_NoDup, Hm|].
    exists a. rewrite Et, Ha0. split; [exact Ha|]. split; [eauto|].
    intros k. rewrite dict_lookup_set, andb_true_r. reflexivity.
  - injection H as <-. split; [exact Hm|].
    exists a. rewrite Et. split; [exact Ha|]. split; [discriminate|].
    intros k. rewrite andb_false_r. reflexivity.
Qed.

Lemma calculate_margins_spec (metrics calc : dict) (rev : pyval) :
  calculate_margins metrics = Ok calc ->
  dict_lookup metrics "annual_revenue" = Some rev ->
  NoDup (keys calc) /\
  (forall k, ~ In k (List.map snd margin_sources) -> dict_lookup calc k = None) /\
  (~ revenue_positive rev -> calc = []) /\
  (revenue_positive rev ->
   forall src tgt, In (src, tgt) margin_sources ->
     exists num, dict_lookup metrics src = Some num /\
       (Py.truthy num = true -> exists v, margin_percent num rev = Ok v) /\
       dict_lookup calc tgt =
         if Py.truthy num then result_value (margin_percent num rev) else None).
Proof.
  unfold calculate_margins. intros H Hrev.
  bind_inv H. apply dict_item_Ok in Ha. rewrite Hrev in Ha. injection Ha as <-.
  bind_inv H.
  destruct a.
  - assert (revenue_positive rev) as Hpos
      by (split; destruct (Py.truthy rev); congruence).
    bind_inv H. bind_inv H. bind_inv H.
    apply add_margin_spec in Ha0; [|apply NoDup_nil_2].
    destruct Ha0 as (N1 & n1 & L1 & V1 & E1).
    apply add_margin_spec in Ha1; [|exact N1].
    destruct Ha1 as (N2 & n2 & L2 & V2 & E2).
    apply add_margin_spec in Ha2; [|exact N2].
    destruct Ha2 as (N3 & n3 & L3 & V3 & E3).
    apply add_margin_spec in H; [|exact N3].
    destruct H as (N4 & n4 & L4 & V4 & E4).
    split; [exact N4|]. split; [|split; [tauto|]].
    + intros k Hk. simpl in Hk.
      rewrite E4, E3, E2, E1.
      repeat match goal with
      | |- context [String.eqb ?a k] =>
          let E := fresh "E" in
          destruct (String.eqb a k) eqn:E;
          [apply String.eqb_eq in E; exfalso; apply Hk; rewrite <- E; tauto | cbn [andb]]
      end.
      reflexivity.
    + intros _ src tgt Hin. simpl in Hin.
      destruct Hin as [[= <- <-]|[[= <- <-]|[[= <- <-]|[[= <- <-]|[]]]]].
      * exists n1. repeat split; [exact L1 | exact V1 |].
        rewrite E4, E3, E2, E1. simpl. reflexivity.
      * exists n2. repeat split; [exact L2 | exact V2 |].
        rewrite E4, E3, E2, E1. simpl. reflexivity.
      * exists n3. repeat split; [exact L3 | exact V3 |].
        rewrite E4, E3, E2, E1. simpl. reflexivity.
      * exists n4. repeat split; [exact L4 | exact V4 |].
        rewrite E4, E3, E2, E1. simpl. reflexivity.
  - injection H as <-.
    assert (~ revenue_positive rev) as Hneg.
    { intros [Ht Hg]. rewrite Ht in Ha. congruence. }
    split; [apply NoDup_nil_2|]. split; [reflexivity|]. split; [reflexivity|].
    intros Hpos. contradiction.
Qed.

(** ** The success record of [get_company_financial_metrics] *)

Lemma yfinance_margins_inv (i : gmap string pyval) (yfm : dict) :
  yfinance_margins i = Ok yfm ->
  exists g o p,
    yfinance_margin i "grossMargins" = Ok g /\
    yfinance_margin i "operatingMargins" = Ok o /\
    yfinance_margin i "profitMargins" = Ok p /\
    yfm = [ ("yf_gross_margin_percent", g);
            ("yf_operating_margin_percent", o);
            ("yf_profit_margin_percent", p) ].
Proof.
  unfold yfinance_margins. intros H.
  bind_inv H. bind_inv H. bind_inv H. injection H as <-.
  exists a, a0, a1. repeat split; assumption.
Qed.

Section MetricsFacts.

Variable yf : yfinance.

(** What a success result was computed from. *)
Lemma metrics_success_inv (t : string) (p : metrics_payload) :
  get_company_financial_metrics yf t = Success p ->
  exists tk i fin ly calc yfm,
    yf (Str.upper t) = Ok tk /\ info tk = Ok i /\ financials tk = Ok fin /\
    Df.empty fin = false /\ info_truthy i = true /\
    Df.first_column fin = Ok ly /\
    calculate_margins (extract_metrics i fin ly t) = Ok calc /\
    yfinance_margins i = Ok yfm /\
    detailed_metrics p = dict_merge (dict_merge (extract_metrics i fin ly t) calc) yfm /\
    make_summary (detailed_metrics p) = Ok (summary p) /\
    json_data p = Json.dumps (detailed_metrics p) /\
    fiscal_year p = date ly.
Proof.
  unfold get_company_financial_metrics, try_except. intros H.
  destruct (get_company_financial_metrics_body yf t) as [r|e] eqn:B; [subst r | discriminate].
  unfold get_company_financial_metrics_body in B.
  bind_inv B. bind_inv B. bind_inv B.
  destruct (Df.empty a1) eqn:Ee; [discriminate|].
  destruct (info_truthy a0) eqn:Ei; [|discriminate].
  cbn [orb negb] in B.
  bind_inv B. bind_inv B. bind_inv B. bind_inv B.
  injection B as <-. cbn [summary detailed_metrics json_data fiscal_year].
  exists a, a0, a1, a2, a3, a4. repeat split; assumption.
Qed.

Section Record.

Variable i : gmap string pyval.
Variable fin : DataFrame.
Variable ly : Timestamp.
Variable t : string.

Let metrics := extract_metrics i fin ly t.

(** The fields of the extracted record, in order. *)
Lemma extract_metrics_fields :
  metrics =
  [ ("company_name", info_get i "longName" (info_get i "shortName" (PStr t)));
    ("ticker", PStr (Str.upper t));
    ("currency", info_get i "currency" (PStr "USD"));
    ("fiscal_year_end", PStr (date ly));
    ("market_cap", info_get i "marketCap" PNone);
    ("enterprise_value", info_get i "enterpriseValue" PNone);
    ("annual_revenue",
       Py.or_ (safe_get_financial i fin ly "Total Revenue" "financials")
              (info_get i "totalRevenue" PNone));
    ("cost_of_goods_sold", safe_get_financial i fin ly "Cost Of Revenue" "financials");
    ("gross_profit", safe_get_financial i fin ly "Gross Profit" "financials");
    ("operating_income", safe_get_financial i fin ly "Operating Income" "financials");
    ("net_income", safe_get_financial i fin ly "Net Income" "financials");
    ("interest_income", safe_get_financial i fin ly "Interest Income" "financials");
    ("interest_expense", safe_get_financial i fin ly "Interest Expense" "financials");
    ("net_interest_income", safe_get_financial i fin ly "Net Interest Income" "financials");
    ("total_expenses", safe_get_financial i fin ly "Total Expenses" "financials");
    ("operating_expenses", safe_get_financial i fin ly "Operating Expense" "financials");
    ("ebitda", safe_get_financial i fin ly "EBITDA" "financials");
    ("ebit", safe_get_financial i fin ly "EBIT" "financials") ].
Proof. reflexivity. Qed.

Variable calc yfm : dict.
Hypothesis Hcalc : calculate_margins metrics = Ok calc.
Hypothesis Hyfm : yfinance_margins i = Ok yfm.

Let financial_data := dict_merge (dict_merge metrics calc) yfm.

Lemma yfm_NoDup : NoDup (keys yfm).
Proof.
  destruct (yfinance_margins_inv _ _ Hyfm) as (g & o & p & _ & _ & _ & ->).
  cbn. repeat constructor; rewrite ?list_elem_of_In; simpl; intuition discriminate.
Qed.

Lemma calc_NoDup : NoDup (keys calc).
Proof.
  eapply calculate_margins_spec; [exact Hcalc | rewrite extract_metrics_fields; reflexivity].
Qed.

(** A derived margin field of the record is the one that was calculated. *)
Lemma financial_data_margin (tgt : string) :
  In tgt (List.map snd margin_sources) ->
  dict_lookup financial_data tgt = dict_lookup calc tgt.
Proof.
  intros Hin. unfold financial_data.
  rewrite (dict_lookup_merge_NoDup _ _ _ yfm_NoDup).
  rewrite (dict_lookup_merge_NoDup _ _ _ calc_NoDup).
  destruct (yfinance_margins_inv _ _ Hyfm) as (g & o & p & _ & _ & _ & ->).
  rewrite extract_metrics_fields.
  simpl in Hin.
  destruct Hin as [<-|[<-|[<-|[<-|[]]]]]; cbn;
    match goal with |- context [dict_lookup calc ?k] => destruct (dict_lookup calc k) end;
    reflexivity.
Qed.

(** A field of the extracted record is unchanged in the final record. *)
Lemma financial_data_metric (k : string) (v : pyval) :
  dict_lookup metrics k = Some v ->
  dict_lookup financial_data k = Some v.
Proof.
  intros Hk. unfold financial_data.
  rewrite (dict_lookup_merge_NoDup _ _ _ yfm_NoDup).
  rewrite (dict_lookup_merge_NoDup _ _ _ calc_NoDup).
  assert (dict_lookup calc k = None) as ->.
  { eapply calculate_margins_spec; [exact Hcalc | rewrite extract_metrics_fields; reflexivity |].
    rewrite extract_metrics_fields in Hk. simpl. intros Hin.
    destruct Hin as [<-|[<-|[<-|[<-|[]]]]]; cbn in Hk; discriminate. }
  rewrite Hk.
  destruct (yfinance_margins_inv _ _ Hyfm) as (g & o & p & _ & _ & _ & ->).
  match goal with
  | |- context [dict_lookup (?a :: ?b) k] => destruct (dict_lookup (a :: b) k) eqn:E
  end; [|reflexivity].
  exfalso. rewrite extract_metrics_fields in Hk.
  cbn [dict_lookup] in E.
  repeat match type of E with
  | (if String.eqb ?a k then _ else _) = _ =>
      let Ek := fresh "Ek" in
      destruct (String.eqb a k) eqn:Ek;
      [apply String.eqb_eq in Ek; subst k; cbn in Hk; discriminate|]
  end.
  discriminate.
Qed.

(** A provider-supplied margin field of the record. *)
Lemma financial_data_provider (k : string) :
  In k provider_margin_keys ->
  dict_lookup financial_data k = dict_lookup yfm k /\ exists v, dict_lookup yfm k = Some v.
Proof.
  intros Hin. unfold financial_data.
  rewrite (dict_lookup_merge_NoDup _ _ _ yfm_NoDup).
  destruct (yfinance_margins_inv _ _ Hyfm) as (g & o & p & _ & _ & _ & ->).
  simpl in Hin.
  destruct Hin as [<-|[<-|[<-|[]]]]; cbn; eauto.
Qed.

End Record.

End MetricsFacts.

(** ** Conversion of an integer to a float

    [binary_normalize], the rounding of an integer to the nearest float, is
    followed through its two shifts to show that its result on a non-zero
    integer is an infinity or a valid finite float, hence never zero. *)

Lemma digits2_size (p : positive) : digits2_pos p = Pos.size p.
Proof. induction p; simpl; congruence. Qed.

Lemma Zdigits2_log2 (p : positive) : Zdigits2 (Zpos p) = Z.log2 (Zpos p) + 1.
Proof.
  simpl. rewrite digits2_size. destruct p; simpl; rewrite ?Pos2Z.inj_succ; lia.
Qed.

Lemma shr_1_m (r : shr_record) : 0 <= shr_m r -> shr_m (shr_1 r) = shr_m r / 2.
Proof.
  destruct r as [m b s]. simpl. intros H.
  rewrite <- Z.div2_div.
  destruct m as [|[p|p|]|p]; simpl; try reflexivity; lia.
Qed.

Lemma iter_shr_m (n : positive) (r : shr_record) :
  0 <= shr_m r -> shr_m (SpecFloat.iter_pos shr_1 n r) = shr_m r / 2 ^ Zpos n.
Proof.
  revert r. induction n as [n IH|n IH|]; intros r H; simpl SpecFloat.iter_pos.
  - assert (0 <= shr_m (shr_1 r)) as H1 by (rewrite shr_1_m by exact H; apply Z.div_pos; lia).
    assert (0 <= shr_m (SpecFloat.iter_pos shr_1 n (shr_1 r))) as H2
      by (rewrite IH by exact H1; apply Z.div_pos; lia).
    rewrite IH by exact H2. rewrite IH by exact H1. rewrite shr_1_m by exact H.
    rewrite !Z.div_div by lia. f_equal.
    replace (Z.pos n~1) with (2 * Z.pos n + 1) by reflexivity.
    rewrite Z.pow_add_r, Z.pow_twice_r by lia.
    change (2 ^ 1) with 2. ring.
  - assert (0 <= shr_m (SpecFloat.iter_pos shr_1 n r)) as H2
      by (rewrite IH by exact H; apply Z.div_pos; lia).
    rewrite IH by exact H2. rewrite IH by exact H.
    rewrite !Z.div_div by lia. f_equal.
    replace (Z.pos n~0) with (2 * Z.pos n) by reflexivity.
    rewrite Z.pow_twice_r. reflexivity.
  - rewrite shr_1_m by exact H. reflexivity.
Qed.

(** The binary logarithm of a quotient by a power of two. *)
Lemma log2_div_pow2 (a n : Z) : 0 < a -> 0 <= n -> n <= Z.log2 a ->
  Z.log2 (a / 2 ^ n) = Z.log2 a - n.
Proof.
  intros Ha Hn Hl. rewrite <- Z.shiftr_div_pow2 by exact Hn.
  rewrite Z.log2_shiftr by exact Ha. lia.
Qed.

Lemma div_pow2_pos (a n : Z) : 0 < a -> 0 <= n -> n <= Z.log2 a -> 0 < a / 2 ^ n.
Proof.
  intros Ha Hn Hl.
  apply Z.div_str_pos. split; [apply Z.pow_pos_nonneg; lia|].
  apply Z.le_trans with (2 ^ Z.log2 a).
  - apply Z.pow_le_mono_r; lia.
  - apply Z.log2_spec. exact Ha.
Qed.

Lemma shr_spec (r : shr_record) (e n : Z) :
  0 <= shr_m r -> 0 <= n ->
  shr_m (fst (shr r e n)) = shr_m r / 2 ^ n /\ snd (shr r e n) = e + n.
Proof.
  intros Hr Hn. unfold shr. destruct n as [|p|p]; simpl fst; simpl snd.
  - rewrite Z.div_1_r. lia.
  - split; [apply iter_shr_m, Hr | reflexivity].
  - lia.
Qed.

Lemma shr_m_of_loc (m : Z) (l : location) : shr_m (shr_record_of_loc m l) = m.
Proof. destruct l as [|[]]; reflexivity. Qed.

Lemma round_nearest_even_bounds (m : Z) (l : location) :
  m <= round_nearest_even m l <= m + 1.
Proof.
  unfold round_nearest_even. destruct l as [|[]]; try lia.
  destruct (Z.even m); lia.
Qed.

Lemma fexp_normal (e : Z) : emin <= e - prec -> fexp prec emax e = e - prec.
Proof. unfold fexp, SpecFloat.emin, prec, emax. lia. Qed.

(** Rounding a mantissa of at least [prec] digits gives an infinity or a
    valid finite float. *)
Lemma binary_round_aux_valid (s : bool) (m : positive) (ex : Z) (lx : location) :
  prec <= Zdigits2 (Zpos m) -> emin <= ex ->
  binary_round_aux prec emax s (Zpos m) ex lx = S754_infinity s \/
  exists m' e', binary_round_aux prec emax s (Zpos m) ex lx = S754_finite s m' e' /\
                bounded prec emax m' e' = true.
Proof.
  intros Hd He. unfold binary_round_aux, shr_fexp.
  rewrite Zdigits2_log2 in *.
  set (l := Z.log2 (Zpos m)) in *.
  rewrite fexp_normal by (unfold prec, SpecFloat.emin, emax in *; lia).
  pose proof (shr_spec (shr_record_of_loc (Zpos m) lx) ex (l + 1 + ex - prec - ex)) as H1.
  rewrite shr_m_of_loc in H1.
  destruct (shr (shr_record_of_loc (Zpos m) lx) ex (l + 1 + ex - prec - ex)) as [mrs' e'].
  simpl fst in H1; simpl snd in H1.
  destruct H1 as [Hm1 He']; [lia | unfold prec in *; lia |].
  pose proof (round_nearest_even_bounds (shr_m mrs') (loc_of_shr_record mrs')) as Hr.
  set (m2 := round_nearest_even (shr_m mrs') (loc_of_shr_record mrs')) in *.
  assert (Z.log2 (shr_m mrs') = 52) as Hl1.
  { rewrite Hm1, log2_div_pow2; unfold prec in *; lia. }
  assert (0 < shr_m mrs') as Hp1.
  { rewrite Hm1. apply div_pow2_pos; unfold prec in *; lia. }
  assert (2 ^ 52 <= shr_m mrs' < 2 ^ 53) as Hb1.
  { pose proof (Z.log2_spec _ Hp1) as Hs. rewrite Hl1 in Hs. exact Hs. }
  assert (52 <= Z.log2 m2 <= 53) as Hl2.
  { split.
    - apply Z.log2_le_pow2; lia.
    - rewrite <- (Z.log2_pow2 53) by lia. apply Z.log2_le_mono. lia. }
  clearbody m2.
  destruct m2 as [|p2|p2]; try lia.
  rewrite Zdigits2_log2.
  rewrite fexp_normal by (unfold prec, SpecFloat.emin, emax in *; lia).
  pose proof (shr_spec (shr_record_of_loc (Zpos p2) loc_Exact) e'
                (Z.log2 (Zpos p2) + 1 + e' - prec - e')) as H2.
  rewrite shr_m_of_loc in H2.
  destruct (shr (shr_record_of_loc (Zpos p2) loc_Exact) e'
              (Z.log2 (Zpos p2) + 1 + e' - prec - e')) as [mrs'' e''].
  simpl fst in H2; simpl snd in H2.
  destruct H2 as [Hm2 He'']; [lia | unfold prec in *; lia |].
  assert (Z.log2 (shr_m mrs'') = 52) as Hl3.
  { rewrite Hm2, log2_div_pow2; unfold prec in *; lia. }
  assert (0 < shr_m mrs'') as Hp3.
  { rewrite Hm2. apply div_pow2_pos; unfold prec in *; lia. }
  destruct (shr_m mrs'') as [|m''|m'']; try lia.
  destruct (e'' <=? emax - prec) eqn:Ee; [right | left; reflexivity].
  exists m'', e''. split; [reflexivity|].
  unfold bounded, canonical_mantissa.
  change (Zpos (digits2_pos m'')) with (Zdigits2 (Zpos m'')).
  rewrite Zdigits2_log2, Hl3, Ee.
  rewrite fexp_normal by (unfold prec, SpecFloat.emin, emax in *; lia).
  rewrite andb_true_r. apply Z.eqb_eq. unfold prec. lia.
Qed.

Lemma iter_xO_pow2 (m k : positive) : Zpos (Pos.iter xO m k) = Zpos m * 2 ^ Zpos k.
Proof.
  change (Pos.iter xO m k) with (Zpower.shift_pos k m).
  rewrite Zpower.shift_pos_correct.
  change (Z.pow_pos 2 k) with (2 ^ Zpos k). ring.
Qed.

(** The float nearest to a non-zero integer is an infinity or a valid
    finite float. *)
Lemma binary_normalize_int_valid (z : Z) :
  z <> 0 ->
  let r := binary_normalize prec emax z 0 false in
  (exists s, r = S754_infinity s) \/
  exists s m e, r = S754_finite s m e /\ bounded prec emax m e = true.
Proof.
  intros Hz r. subst r.
  assert (forall s m,
            (exists s', binary_round prec emax s m 0 = S754_infinity s') \/
            exists s' m' e', binary_round prec emax s m 0 = S754_finite s' m' e' /\
                             bounded prec emax m' e' = true) as H.
  { intros s m. unfold binary_round, shl_align.
    pose proof (Zdigits2_log2 m) as Hd. simpl Zdigits2 in Hd.
    pose proof (Z.log2_nonneg (Zpos m)) as Hn.
    rewrite Z.add_0_r, Hd.
    rewrite fexp_normal by (unfold prec, SpecFloat.emin, emax in *; lia).
    destruct (Z.log2 (Zpos m) + 1 - prec - 0) as [|k|k] eqn:Ek.
    - destruct (binary_round_aux_valid s m 0 loc_Exact) as [-> | (m' & e' & -> & Hb)];
        [rewrite Zdigits2_log2; unfold prec in *; lia
        | unfold SpecFloat.emin, prec, emax; lia | eauto | right; eauto].
    - destruct (binary_round_aux_valid s m 0 loc_Exact) as [-> | (m' & e' & -> & Hb)];
        [rewrite Zdigits2_log2; unfold prec in *; lia
        | unfold SpecFloat.emin, prec, emax; lia | eauto | right; eauto].
    - destruct (binary_round_aux_valid s (Pos.iter xO m k)
                  (Z.log2 (Zpos m) + 1 - prec) loc_Exact) as [-> | (m' & e' & -> & Hb)];
        [| unfold SpecFloat.emin, prec, emax in *; lia | eauto | right; eauto].
      rewrite Zdigits2_log2, iter_xO_pow2, Z.log2_mul_pow2 by lia.
      unfold prec in *. lia. }
  destruct z as [|m|m]; [congruence | apply H | apply H].
Qed.

Lemma of_Z_nonzero (z : Z) : z <> 0 -> (PyFloat.of_Z z =? 0)%float = false.
Proof.
  intros Hz. unfold PyFloat.of_Z.
  destruct (binary_normalize_int_valid z Hz) as [(s & ->) | (s & m & e & -> & Hb)].
  - destruct s; reflexivity.
  - rewrite FloatAxioms.eqb_spec, Prim2SF_SF2Prim by exact Hb.
    change (Prim2SF 0) with (S754_zero false). destruct s; reflexivity.
Qed.

(** ** The extraction helper *)

Lemma repr_nan (f : float) : is_nan f = true -> PyFloat.repr f = "nan".
Proof.
  intros H. unfold PyFloat.repr, Prim2SF. rewrite H. reflexivity.
Qed.

Section Extraction.

Variable i : gmap string pyval.
Variable fin : DataFrame.
Variable ly : Timestamp.

Lemma loc_in_index (name : string) (x : selection) :
  Df.loc fin name ly = Ok x -> Df.in_index fin name = true.
Proof.
  unfold Df.loc, Df.in_index. intros H.
  destruct (List.filter _ (rows fin)) as [|r l] eqn:F; [discriminate|].
  apply existsb_exists. exists r.
  assert (In r (List.filter (fun r => String.eqb (fst r) name) (rows fin))) as Hin
    by (rewrite F; left; reflexivity).
  apply filter_In in Hin. exact Hin.
Qed.

Lemma loc_numeric_cell (name : string) (v : pyval) :
  numeric_table fin -> Df.loc fin name ly = Ok (Scalar v) -> numeric_cell v = true.
Proof.
  unfold Df.loc. intros Ht H.
  destruct (List.filter _ (rows fin)) as [|[l vals] rest] eqn:F; [discriminate|].
  destruct (Df.positions ly (columns fin) 0) as [|n [|n' ns]];
    destruct rest; cbn in H; try discriminate.
  injection H as <-.
  assert (In (l, vals) (rows fin)) as Hin.
  { assert (In (l, vals) (List.filter (fun r => String.eqb (fst r) name) (rows fin))) as Hf
      by (rewrite F; left; reflexivity).
    apply filter_In in Hf. apply Hf. }
  destruct (nth_in_or_default n vals (PFloat nan)) as [Hn| ->]; [|reflexivity].
  unfold numeric_table in Ht. rewrite forallb_forall in Ht.
  specialize (Ht _ Hin). cbn in Ht. rewrite forallb_forall in Ht. exact (Ht _ Hn).
Qed.

(** The helper on a value the statement holds once. *)
Lemma safe_get_financial_scalar (name : string) (v : pyval) :
  Df.loc fin name ly = Ok (Scalar v) ->
  safe_get_financial i fin ly name "financials" =
  if Py.truthy v && negb (String.eqb (Py.str v) "nan")
  then match Py.float_ v with
       | Ok f => PFloat f
       | Raise _ => PNone
       end
  else PNone.
Proof.
  intros H. unfold safe_get_financial, safe_get_financial_body.
  rewrite (loc_in_index _ _ H), H. cbn.
  destruct (Py.truthy v && negb (String.eqb (Py.str v) "nan")); [|reflexivity].
  destruct (Py.float_ v); reflexivity.
Qed.

(** The helper returns [None] or a float. *)
Lemma safe_get_financial_cases (name : string) :
  safe_get_financial i fin ly name "financials" = PNone \/
  exists f, safe_get_financial i fin ly name "financials" = PFloat f.
Proof.
  unfold safe_get_financial, safe_get_financial_body. cbn.
  destruct (Df.in_index fin name); [|left; reflexivity].
  destruct (Df.loc fin name ly) as [x|e]; [|left; reflexivity]. cbn.
  destruct (selection_truthy x) as [b|e]; [|left; reflexivity]. cbn.
  destruct (b && negb (String.eqb (selection_str x) "nan")); [|left; reflexivity].
  destruct (selection_float x) as [f|e]; cbn; eauto.
Qed.

(** On a numeric statement, a value the helper returns is not zero. *)
Lemma safe_get_financial_truthy (name : string) :
  numeric_table fin ->
  safe_get_financial i fin ly name "financials" <> PNone ->
  Py.truthy (safe_get_financial i fin ly name "financials") = true.
Proof.
  intros Ht.
  destruct (Df.loc fin name ly) as [[v|]|e] eqn:L.
  - rewrite (safe_get_financial_scalar _ _ L).
    pose proof (loc_numeric_cell _ _ Ht L) as Hc.
    destruct v as [|b|z|f|s]; try discriminate Hc; cbn [Py.truthy Py.str Py.float_].
    + cbn. congruence.
    + destruct b; cbn; [intros _; vm_compute; reflexivity | congruence].
    + destruct (negb (z =? 0)) eqn:Ez; cbn [andb]; [|congruence].
      destruct (negb (String.eqb (Str.of_Z z) "nan")); [|congruence].
      unfold Py.float_of_int.
      destruct (is_infinity (PyFloat.of_Z z)); [congruence|].
      intros _. cbn. rewrite of_Z_nonzero; [reflexivity|].
      apply negb_true_iff, Z.eqb_neq in Ez. exact Ez.
    + destruct (negb (f =? 0)%float) eqn:Ez; cbn [andb]; [|congruence].
      destruct (negb (String.eqb (PyFloat.repr f) "nan")); [|congruence].
      intros _. exact Ez.
  - unfold safe_get_financial, safe_get_financial_body. cbn.
    rewrite L. destruct (Df.in_index fin name); cbn; congruence.
  - unfold safe_get_financial, safe_get_financial_body. cbn.
    rewrite L. destruct (Df.in_index fin name); cbn; congruence.
Qed.

End Extraction.

Lemma extract_metrics_line_item (i : gmap string pyval) (fin : DataFrame) (ly : Timestamp)
    (t field item : string) :
  In (field, item) line_items ->
  field <> "annual_revenue" ->
  dict_lookup (extract_metrics i fin ly t) field =
  Some (safe_get_financial i fin ly item "financials").
Proof.
  intros Hin Hne. rewrite extract_metrics_fields. simpl in Hin.
  repeat (destruct Hin as [[= <- <-]|Hin]; [first [congruence | reflexivity]|]).
  destruct Hin.
Qed.

Lemma safe_get_financial_missing (i : gmap string pyval) (fin : DataFrame) (ly : Timestamp)
    (item : string) :
  Df.in_index fin item = false ->
  safe_get_financial i fin ly item "financials" = PNone.
Proof.
  intros H. unfold safe_get_financial, safe_get_financial_body. cbn. rewrite H. reflexivity.
Qed.

(** C5.  For every line item of the enumerated list, the extraction helper
    returns [None] when the item's key is missing from the statement's
    index, when its value cannot be converted to a number, and when its
    value prints as [nan] (in particular when it is the float NaN); an
    exception raised inside the helper also ends in [None].  Apart from
    annual revenue, which has a fallback, the field of the record is the
    helper's value, so it is null in all these cases. *)
Theorem safe_get_financial_absent (i : gmap string pyval) (fin : DataFrame) (ly : Timestamp)
    (field item : string) :
  In (field, item) line_items ->
  let value := safe_get_financial i fin ly item "financials" in
  (Df.in_index fin item = false -> value = PNone) /\
  (forall x e, Df.loc fin item ly = Ok x -> selection_float x = Raise e -> value = PNone) /\
  (forall x, Df.loc fin item ly = Ok x -> selection_str x = "nan" -> value = PNone) /\
  (forall f, Df.loc fin item ly = Ok (Scalar (PFloat f)) -> is_nan f = true -> value = PNone) /\
  (forall e, safe_get_financial_body i fin ly item "financials" = Raise e -> value = PNone) /\
  (forall t, field <> "annual_revenue" ->
     dict_lookup (extract_metrics i fin ly t) field = Some value).
Proof.
  intros Hin value. subst value.
  assert (forall x, Df.loc fin item ly = Ok x -> selection_str x = "nan" ->
                    safe_get_financial i fin ly item "financials" = PNone) as Hnan.
  { intros [v|] L Hs.
    - rewrite (safe_get_financial_scalar _ _ _ _ _ L). cbn in Hs. rewrite Hs.
      cbn. rewrite andb_false_r. reflexivity.
    - unfold safe_get_financial, safe_get_financial_body. cbn.
      rewrite L. destruct (Df.in_index fin item); reflexivity. }
  repeat split.
  - apply safe_get_financial_missing.
  - intros [v|] e L Hf.
    + rewrite (safe_get_financial_scalar _ _ _ _ _ L). cbn in Hf. rewrite Hf.
      destruct (_ && _); reflexivity.
    + unfold safe_get_financial, safe_get_financial_body. cbn.
      rewrite L. destruct (Df.in_index fin item); reflexivity.
  - exact Hnan.
  - intros f L Hf. apply (Hnan _ L). cbn. apply repr_nan, Hf.
  - intros e He. unfold safe_get_financial. rewrite He. reflexivity.
  - intros t Hne. apply extract_metrics_line_item; assumption.
Qed.

(** C9.  A line item whose provider value is exactly zero is returned as
    [None] by the extraction helper, exactly as a line item that the
    statement does not have; the field of the record it fills is null, and
    for [Total Revenue] the annual revenue of the record is the fallback
    read from the attribute mapping. *)
Theorem zero_line_item_is_dropped (i : gmap string pyval) (fin : DataFrame) (ly : Timestamp)
    (item : string) (v : pyval) :
  Df.loc fin item ly = Ok (Scalar v) ->
  zero_number v ->
  safe_get_financial i fin ly item "financials" = PNone /\
  (forall fin', Df.in_index fin' item = false ->
     safe_get_financial i fin ly item "financials" =
     safe_get_financial i fin' ly item "financials") /\
  (forall field t, In (field, item) line_items -> field <> "annual_revenue" ->
     dict_lookup (extract_metrics i fin ly t) field = Some PNone) /\
  (item = "Total Revenue" ->
   forall t, dict_lookup (extract_metrics i fin ly t) "annual_revenue" =
             Some (info_get i "totalRevenue" PNone)).
Proof.
  intros L Hz.
  assert (safe_get_financial i fin ly item "financials" = PNone) as Hnone.
  { rewrite (safe_get_financial_scalar _ _ _ _ _ L).
    destruct Hz as [-> | (f & -> & Hf)]; cbn; [reflexivity|].
    rewrite Hf. reflexivity. }
  repeat split.
  - exact Hnone.
  - intros fin' H'. rewrite Hnone, (safe_get_financial_missing _ _ _ _ H'). reflexivity.
  - intros field t Hin Hne. rewrite (extract_metrics_line_item _ _ _ _ _ _ Hin Hne), Hnone.
    reflexivity.
  - intros -> t. rewrite extract_metrics_fields. cbn [dict_lookup String.eqb Ascii.eqb Bool.eqb].
    rewrite Hnone. reflexivity.
Qed.

(** ** Errors of [get_company_financial_metrics] *)

Lemma info_truthy_empty (i : gmap string pyval) : info_truthy i = false <-> i = ∅.
Proof.
  unfold info_truthy. rewrite negb_false_iff. apply bool_decide_eq_true.
Qed.

Section Errors.

Variable yf : yfinance.

(** The only error the statements under [try] return is the not-found one. *)
Lemma body_error (t msg : string) :
  get_company_financial_metrics_body yf t = Ok (Error msg) -> msg = not_found_message t.
Proof.
  unfold get_company_financial_metrics_body. intros B.
  bind_inv B. bind_inv B. bind_inv B.
  destruct (Df.empty a1 || negb (info_truthy a0)).
  - injection B as <-. reflexivity.
  - bind_inv B. bind_inv B. bind_inv B. bind_inv B. discriminate.
Qed.

Lemma body_not_found (t : string) (tk : Ticker) (i : gmap string pyval) (fin : DataFrame) :
  yf (Str.upper t) = Ok tk -> info tk = Ok i -> financials tk = Ok fin ->
  Df.empty fin = true \/ i = ∅ ->
  get_company_financial_metrics_body yf t = Ok (Error (not_found_message t)).
Proof.
  intros Hy Hi Hf Hempty. unfold get_company_financial_metrics_body.
  rewrite Hy. cbn. rewrite Hi. cbn. rewrite Hf. cbn.
  assert (Df.empty fin || negb (info_truthy i) = true) as ->; [|reflexivity].
  destruct Hempty as [-> | Hi0]; [reflexivity|].
  apply info_truthy_empty in Hi0. rewrite Hi0. apply orb_true_r.
Qed.

(** C4.  When the provider answers with an empty income-statement table or
    an empty attribute mapping, the result is the not-found error; an
    exception raised anywhere under [try] becomes an error result carrying
    its message; and whatever the provider does, the call returns a result
    whose status is [success] or [error], an error message always
    containing the ticker as it was given. *)
Theorem financial_metrics_errors (t : string) :
  (forall tk i fin,
     yf (Str.upper t) = Ok tk -> info tk = Ok i -> financials tk = Ok fin ->
     Df.empty fin = true \/ i = ∅ ->
     get_company_financial_metrics yf t = Error (not_found_message t)) /\
  (forall e, get_company_financial_metrics_body yf t = Raise e ->
     get_company_financial_metrics yf t = Error (retrieval_message t e)) /\
  (forall msg, get_company_financial_metrics yf t = Error msg ->
     status (get_company_financial_metrics yf t) = "error" /\ Str.contains t msg) /\
  ((exists p, get_company_financial_metrics yf t = Success p) \/
   (exists msg, get_company_financial_metrics yf t = Error msg)).
Proof.
  unfold get_company_financial_metrics, try_except.
  repeat split.
  - intros tk i fin Hy Hi Hf He. rewrite (body_not_found _ _ _ _ Hy Hi Hf He). reflexivity.
  - intros e ->. reflexivity.
  - rewrite H. reflexivity.
  - destruct (get_company_financial_metrics_body yf t) as [[p|m]|e] eqn:B.
    + discriminate.
    + injection H as <-. rewrite (body_error _ _ B).
      exists "No financial data found for ticker '",
             "'. Please verify the ticker symbol is correct.". reflexivity.
    + injection H as <-.
      exists "Unable to retrieve financial data for '", ("': " +:+ e). reflexivity.
  - destruct (get_company_financial_metrics_body yf t) as [[p|m]|e]; eauto.
Qed.

(** C8.  The provider is queried with the uppercased ticker only (two
    providers that agree on it give the same result), and on success the
    [ticker] field of the metrics record, like that of the summary, is the
    uppercased input. *)
Theorem ticker_is_uppercased (t : string) :
  (forall yf', yf' (Str.upper t) = yf (Str.upper t) ->
     get_company_financial_metrics yf' t = get_company_financial_metrics yf t) /\
  (forall p, get_company_financial_metrics yf t = Success p ->
     dict_lookup (detailed_metrics p) "ticker" = Some (PStr (Str.upper t)) /\
     dict_lookup (summary p) "ticker" = Some (PStr (Str.upper t))).
Proof.
  split.
  - intros yf' H. unfold get_company_financial_metrics, get_company_financial_metrics_body.
    rewrite H. reflexivity.
  - intros p H.
    destruct (metrics_success_inv _ _ _ H)
      as (tk & i & fin & ly & calc & yfm & _ & _ & _ & _ & _ & _ & Hc & Hy & Hd & Hs & _).
    assert (dict_lookup (detailed_metrics p) "ticker" = Some (PStr (Str.upper t))) as Ht.
    { rewrite Hd. apply (financial_data_metric i fin ly t calc yfm Hc Hy).
      rewrite extract_metrics_fields. reflexivity. }
    split; [exact Ht|].
    unfold make_summary in Hs.
    bind_inv Hs. bind_inv Hs. apply dict_item_Ok in Ha0. rewrite Ht in Ha0. injection Ha0 as <-.
    repeat bind_inv Hs. injection Hs as <-. reflexivity.
Qed.

End Errors.

(** ** Presence of the margin fields *)

Lemma float_positive_nonzero (f : float) : (0 <? f)%float = true -> (f =? 0)%float = false.
Proof.
  rewrite FloatAxioms.ltb_spec, FloatAxioms.eqb_spec.
  destruct (Prim2SF f) as [s|s| |s m e]; cbn; try discriminate; try reflexivity.
  all: destruct s; cbn; intros; reflexivity.
Qed.

(** A value that compares greater than zero is true. *)
Lemma gt0_truthy (v : pyval) : Py.gt0 v = Ok true -> Py.truthy v = true.
Proof.
  destruct v as [|b|z|f|s]; cbn; try discriminate.
  - destruct b; cbn; [reflexivity | discriminate].
  - intros [= H]. apply Z.ltb_lt in H. apply negb_true_iff, Z.eqb_neq. lia.
  - intros [= H]. rewrite (float_positive_nonzero _ H). reflexivity.
Qed.

Lemma revenue_positive_iff (rev : pyval) :
  revenue_positive rev <-> rev <> PNone /\ Py.gt0 rev = Ok true.
Proof.
  unfold revenue_positive. split.
  - intros [Ht Hg]. split; [|exact Hg]. intros ->. discriminate.
  - intros [_ Hg]. split; [apply gt0_truthy, Hg | exact Hg].
Qed.

(** On two floats the percentage is the IEEE quotient, times 100, rounded
    to two decimals. *)
Lemma margin_percent_floats (n r : float) :
  (r =? 0)%float = false ->
  margin_percent (PFloat n) (PFloat r) = Ok (PFloat (PyFloat.round2 (n / r * 100))).
Proof.
  intros H. unfold margin_percent, Py.truediv. cbn [Py.as_number Py.to_float bind].
  rewrite H. cbn [bind].
  unfold Py.mul. cbn [Py.as_number Py.to_float bind].
  assert (Py.float_of_int 100 = Ok 100%float) as -> by (vm_compute; reflexivity).
  reflexivity.
Qed.

Section Margins.

Variable yf : yfinance.

(** Each derived margin of a success record: present, with the rounded
    percentage as its value, when annual revenue is positive and the
    numerator field is true; absent otherwise. *)
Lemma derived_margin_lookup (t : string) (p : metrics_payload) (src tgt : string) :
  get_company_financial_metrics yf t = Success p ->
  In (src, tgt) margin_sources ->
  exists rev num,
    dict_lookup (detailed_metrics p) "annual_revenue" = Some rev /\
    dict_lookup (detailed_metrics p) src = Some num /\
    ((revenue_positive rev /\ Py.truthy num = true /\
      exists v, margin_percent num rev = Ok v /\
                dict_lookup (detailed_metrics p) tgt = Some v) \/
     (~ (revenue_positive rev /\ Py.truthy num = true) /\
      dict_lookup (detailed_metrics p) tgt = None)).
Proof.
  intros H Hin.
  destruct (metrics_success_inv _ _ _ H)
    as (tk & i & fin & ly & calc & yfm & _ & _ & _ & _ & _ & _ & Hc & Hy & Hd & _).
  assert (exists rev, dict_lookup (extract_metrics i fin ly t) "annual_revenue" = Some rev)
    as [rev Hrev] by (rewrite extract_metrics_fields; cbn; eauto).
  assert (exists num, dict_lookup (extract_metrics i fin ly t) src = Some num) as [num Hnum].
  { rewrite extract_metrics_fields. simpl in Hin.
    destruct Hin as [[= <- <-]|[[= <- <-]|[[= <- <-]|[[= <- <-]|[]]]]]; cbn; eauto. }
  assert (In tgt (List.map snd margin_sources)) as Htgt
    by (apply (in_map snd) in Hin; exact Hin).
  exists rev, num. rewrite Hd.
  rewrite (financial_data_metric i fin ly t calc yfm Hc Hy _ _ Hrev).
  rewrite (financial_data_metric i fin ly t calc yfm Hc Hy _ _ Hnum).
  rewrite (financial_data_margin i fin ly t calc yfm Hc Hy _ Htgt).
  split; [reflexivity|]. split; [reflexivity|].
  destruct (calculate_margins_spec _ _ _ Hc Hrev) as (_ & _ & Hneg & Hpos).
  destruct (Py.truthy rev) eqn:Et; [destruct (Py.gt0 rev) as [[|]|e] eqn:Eg|].
  - assert (revenue_positive rev) as Hp by (split; assumption).
    destruct (Hpos Hp _ _ Hin) as (num' & Hnum' & Hv & Hl).
    rewrite Hnum in Hnum'. injection Hnum' as <-.
    destruct (Py.truthy num) eqn:En.
    + left. destruct (Hv eq_refl) as [v Hm]. rewrite Hm in Hl.
      repeat split; eauto.
    + right. split; [|exact Hl]. intros [_ ?]. discriminate.
  - assert (~ revenue_positive rev) as Hn by (intros [_ ?]; congruence).
    right. rewrite (Hneg Hn). split; [tauto | reflexivity].
  - assert (~ revenue_positive rev) as Hn by (intros [_ ?]; congruence).
    right. rewrite (Hneg Hn). split; [tauto | reflexivity].
  - assert (~ revenue_positive rev) as Hn by (intros [? _]; congruence).
    right. rewrite (Hneg Hn). split; [tauto | reflexivity].
Qed.

(** On a numeric statement the numerator fields of the record are null or
    true. *)
Lemma numerator_truthy (t : string) (p : metrics_payload) (tk : Ticker) (fin : DataFrame)
    (src tgt : string) (num : pyval) :
  get_company_financial_metrics yf t = Success p ->
  yf (Str.upper t) = Ok tk -> financials tk = Ok fin -> numeric_table fin ->
  In (src, tgt) margin_sources ->
  dict_lookup (detailed_metrics p) src = Some num ->
  num <> PNone -> Py.truthy num = true.
Proof.
  intros H Hy Hf Ht Hin Hnum Hne.
  destruct (metrics_success_inv _ _ _ H)
    as (tk' & i & fin' & ly & calc & yfm & Hy' & _ & Hf' & _ & _ & _ & Hc & Hm & Hd & _).
  rewrite Hy in Hy'. injection Hy' as <-. rewrite Hf in Hf'. injection Hf' as <-.
  assert (exists item, dict_lookup (extract_metrics i fin ly t) src =
                       Some (safe_get_financial i fin ly item "financials")) as [item Hitem].
  { rewrite extract_metrics_fields. simpl in Hin.
    destruct Hin as [[= <- <-]|[[= <- <-]|[[= <- <-]|[[= <- <-]|[]]]]]; cbn; eauto. }
  rewrite Hd, (financial_data_metric i fin ly t calc yfm Hc Hm _ _ Hitem) in Hnum.
  injection Hnum as <-.
  apply safe_get_financial_truthy; assumption.
Qed.

End Margins.

Lemma yfinance_margin_not_null (i : gmap string pyval) (ratio : string) (v : pyval) :
  yfinance_margin i ratio = Ok v ->
  (v <> PNone <-> Py.truthy (info_get i ratio PNone) = true).
Proof.
  unfold yfinance_margin. destruct (Py.truthy (info_get i ratio PNone)).
  - intros H. bind_inv H. unfold Py.round2 in H.
    destruct (Py.as_number a) as [[z|f]|]; try discriminate; injection H as <-;
      split; intros; [reflexivity | discriminate | reflexivity | discriminate].
  - intros [= <-]. split; [congruence | discriminate].
Qed.

Section MarginClaims.

Variable yf : yfinance.

(** C2, as amended.  On a success result, each of the four derived margins
    (gross profit, operating income, net income, EBITDA) is a field of the
    record exactly when annual revenue is present and strictly positive and
    the numerator field is present and not zero, and its value is then
    [round(numerator / revenue * 100, 2)]; otherwise the record has no such
    key.  A numerator field is null or a float, and on a numeric income
    statement (no cell is text) it is never zero: there the margin is a
    field exactly when revenue is positive and the numerator is present. *)
Theorem derived_margins_exact (t : string) (p : metrics_payload) (src tgt : string) :
  get_company_financial_metrics yf t = Success p ->
  In (src, tgt) margin_sources ->
  exists rev num,
    dict_lookup (detailed_metrics p) "annual_revenue" = Some rev /\
    dict_lookup (detailed_metrics p) src = Some num /\
    (num = PNone \/ exists f, num = PFloat f) /\
    (((rev <> PNone /\ Py.gt0 rev = Ok true /\ num <> PNone /\ ~ zero_number num) /\
      exists v, margin_percent num rev = Ok v /\
                dict_lookup (detailed_metrics p) tgt = Some v) \/
     (~ (rev <> PNone /\ Py.gt0 rev = Ok true /\ num <> PNone /\ ~ zero_number num) /\
      dict_lookup (detailed_metrics p) tgt = None)) /\
    (forall tk fin,
       yf (Str.upper t) = Ok tk -> financials tk = Ok fin -> numeric_table fin ->
       ~ zero_number num).
Proof.
  intros H Hin.
  destruct (derived_margin_lookup yf _ _ _ _ H Hin) as (rev & num & Hrev & Hnum & Hcases).
  exists rev, num. split; [exact Hrev|]. split; [exact Hnum|].
  assert (num = PNone \/ exists f, num = PFloat f) as Hshape.
  { destruct (metrics_success_inv _ _ _ H)
      as (tk & i & fin & ly & calc & yfm & _ & _ & _ & _ & _ & _ & Hc & Hm & Hd & _).
    assert (exists item, dict_lookup (extract_metrics i fin ly t) src =
                         Some (safe_get_financial i fin ly item "financials"))
      as [item Hitem].
    { rewrite extract_metrics_fields. simpl in Hin.
      destruct Hin as [[= <- <-]|[[= <- <-]|[[= <- <-]|[[= <- <-]|[]]]]]; cbn; eauto. }
    rewrite Hd, (financial_data_metric i fin ly t calc yfm Hc Hm _ _ Hitem) in Hnum.
    injection Hnum as <-. apply safe_get_financial_cases. }
  assert (Py.truthy num = true <-> num <> PNone /\ ~ zero_number num) as Htruthy.
  { destruct Hshape as [->|[f ->]]; cbn.
    - split; [discriminate | intros [Hn _]; contradiction].
    - split.
      + intros Hf. split; [discriminate|].
        intros [Hz|(f' & [= <-] & Hz)]; [discriminate|].
        rewrite Hz in Hf. discriminate.
      + intros [_ Hz]. destruct (f =? 0)%float eqn:E; [|reflexivity].
        exfalso. apply Hz. right. exists f. split; [reflexivity | exact E]. }
  split; [exact Hshape|]. split.
  - destruct Hcases as [(Hp & Hn & v & Hv & Hl) | (Hnot & Hl)].
    + left. apply revenue_positive_iff in Hp. destruct Hp as [Hr Hg].
      apply Htruthy in Hn. destruct Hn as [Hn Hz].
      split; [|eauto]. repeat split; assumption.
    + right. split; [|exact Hl]. intros (Hr & Hg & Hn & Hz). apply Hnot. split.
      * apply revenue_positive_iff. split; assumption.
      * apply Htruthy. split; assumption.
  - intros tk fin Hy Hf Ht Hz.
    assert (num <> PNone) as Hn.
    { destruct Hz as [->|(f & -> & _)]; discriminate. }
    pose proof (numerator_truthy yf _ _ _ _ _ _ _ H Hy Hf Ht Hin Hnum Hn) as Htr.
    apply Htruthy in Htr. destruct Htr as [_ Hnz]. exact (Hnz Hz).
Qed.

(** C1, as amended.  On a success result, no derived margin is a field of
    the record unless annual revenue is present and strictly positive, and
    on a numeric income statement a derived margin is a field exactly when
    annual revenue is present and positive and its numerator field is
    present.  The provider-supplied margins are fields of every success
    record, whatever the revenue: each is non-null exactly when the
    provider's ratio is true. *)
Theorem margin_fields_presence (t : string) (p : metrics_payload) (tk : Ticker)
    (i : gmap string pyval) (fin : DataFrame) :
  get_company_financial_metrics yf t = Success p ->
  yf (Str.upper t) = Ok tk -> info tk = Ok i -> financials tk = Ok fin ->
  (exists rev,
     dict_lookup (detailed_metrics p) "annual_revenue" = Some rev /\
     (~ (rev <> PNone /\ Py.gt0 rev = Ok true) ->
      forall src tgt, In (src, tgt) margin_sources ->
        dict_lookup (detailed_metrics p) tgt = None) /\
     (numeric_table fin ->
      forall src tgt, In (src, tgt) margin_sources ->
        exists num, dict_lookup (detailed_metrics p) src = Some num /\
          (is_Some (dict_lookup (detailed_metrics p) tgt) <->
           (rev <> PNone /\ Py.gt0 rev = Ok true) /\ num <> PNone))) /\
  (forall ratio key, In (ratio, key) provider_margins ->
     exists v, dict_lookup (detailed_metrics p) key = Some v /\
       (v <> PNone <-> Py.truthy (info_get i ratio PNone) = true)).
Proof.
  intros H Hy Hi Hf. split.
  - destruct (derived_margin_lookup yf _ _ _ _ H (or_introl eq_refl))
      as (rev & _ & Hrev & _).
    exists rev. split; [exact Hrev|]. split.
    + intros Hn src tgt Hin.
      destruct (derived_margin_lookup yf _ _ _ _ H Hin) as (rev' & num & Hrev' & _ & Hc).
      rewrite Hrev in Hrev'. injection Hrev' as <-.
      destruct Hc as [(Hp & _) | (_ & Hl)]; [|exact Hl].
      apply revenue_positive_iff in Hp. contradiction.
    + intros Ht src tgt Hin.
      destruct (derived_margin_lookup yf _ _ _ _ H Hin) as (rev' & num & Hrev' & Hnum & Hc).
      rewrite Hrev in Hrev'. injection Hrev' as <-.
      exists num. split; [exact Hnum|].
      rewrite revenue_positive_iff in Hc.
      destruct Hc as [(Hp & Hn & v & _ & Hl) | (Hnot & Hl)]; rewrite Hl.
      * split; [intros _ | eauto]. split; [exact Hp|]. intros ->. discriminate.
      * split; [intros [? ?]; discriminate|]. intros [Hp Hn]. exfalso. apply Hnot.
        split; [exact Hp|].
        exact (numerator_truthy yf _ _ _ _ _ _ _ H Hy Hf Ht Hin Hnum Hn).
  - intros ratio key Hin.
    destruct (metrics_success_inv _ _ _ H)
      as (tk' & i' & fin' & ly & calc & yfm & Hy' & Hi' & _ & _ & _ & _ & Hc & Hm & Hd & _).
    rewrite Hy in Hy'. injection Hy' as <-. rewrite Hi in Hi'. injection Hi' as <-.
    assert (In key provider_margin_keys) as Hk.
    { simpl in Hin. destruct Hin as [[= <- <-]|[[= <- <-]|[[= <- <-]|[]]]]; simpl; tauto. }
    destruct (financial_data_provider i fin' ly t calc yfm Hm key Hk) as (Hl & _).
    rewrite Hd, Hl.
    destruct (yfinance_margins_inv _ _ Hm) as (g & o & q & Hg & Ho & Hq & ->).
    simpl in Hin.
    destruct Hin as [[= <- <-]|[[= <- <-]|[[= <- <-]|[]]]]; cbn; eexists; (split; [reflexivity|]).
    + apply yfinance_margin_not_null, Hg.
    + apply yfinance_margin_not_null, Ho.
    + apply yfinance_margin_not_null, Hq.
Qed.

End MarginClaims.

(** ** The formatted summary *)

Lemma int_ge_float_bounds (z : Z) :
  Py.int_ge_float z 1e12 = (10 ^ 12 <=? z) /\
  Py.int_ge_float z 1e9 = (10 ^ 9 <=? z) /\
  Py.int_ge_float z 1e6 = (10 ^ 6 <=? z) /\
  Py.int_ge_float z 1e3 = (10 ^ 3 <=? z).
Proof.
  unfold Py.int_ge_float.
  repeat split;
    match goal with
    | |- context [Prim2SF ?c] =>
        let r := eval vm_compute in (Prim2SF c) in change (Prim2SF c) with r
    end;
    cbv beta iota;
    match goal with
    | |- (?a * 2 ^ ?e1 <=? z * 2 ^ ?e2) = (?b <=? z) =>
        let a' := eval vm_compute in (a * 2 ^ e1) in
        let e' := eval vm_compute in (2 ^ e2) in
        let b' := eval vm_compute in b in
        change ((a' <=? z * e') = (b' <=? z))
    end;
    match goal with
    | |- (?x <=? ?y) = (?u <=? ?w) =>
        destruct (Z.leb_spec x y), (Z.leb_spec u w); try reflexivity; lia
    end.
Qed.

Lemma format_currency_float (f : float) :
  format_currency (PFloat f) =
  Ok (match currency_bucket (fun c => (c <=? PrimFloat.abs f)%float) with
      | Some (unit, suffix) => "$" +:+ PyFloat.format_2f false (f / unit) +:+ suffix
      | None => "$" +:+ PyFloat.format_2f true f
      end).
Proof.
  unfold format_currency, currency_bucket, magnitude_ge, scaled_currency. cbn.
  destruct (1e12 <=? PrimFloat.abs f)%float; [reflexivity|].
  destruct (1e9 <=? PrimFloat.abs f)%float; [reflexivity|].
  destruct (1e6 <=? PrimFloat.abs f)%float; [reflexivity|].
  destruct (1e3 <=? PrimFloat.abs f)%float; reflexivity.
Qed.

Lemma format_currency_int (z : Z) :
  format_currency (PInt z) =
  match currency_bucket (fun c => Py.int_ge_float (Z.abs z) c) with
  | Some (unit, suffix) => scaled_currency (PInt z) unit suffix
  | None => t <- Py.format_2f true (PInt z) ;; Ok ("$" +:+ t)
  end.
Proof.
  unfold format_currency, currency_bucket, magnitude_ge. cbn.
  destruct (Py.int_ge_float (Z.abs z) 1e12); [reflexivity|].
  destruct (Py.int_ge_float (Z.abs z) 1e9); [reflexivity|].
  destruct (Py.int_ge_float (Z.abs z) 1e6); [reflexivity|].
  destruct (Py.int_ge_float (Z.abs z) 1e3); reflexivity.
Qed.

Lemma percent_field_lookup (fd : dict) (k : string) :
  percent_field fd k =
  match dict_lookup fd k with
  | Some v => if Py.truthy v then Py.str v +:+ "%" else "N/A"
  | None => "N/A"
  end.
Proof.
  unfold percent_field, dict_get. destruct (dict_lookup fd k); reflexivity.
Qed.

Lemma make_summary_inv (fd s : dict) :
  make_summary fd = Ok s ->
  (forall field key, In (field, key) currency_fields ->
     exists v text, dict_lookup fd key = Some v /\ format_currency v = Ok text /\
                    dict_lookup s field = Some (PStr text)) /\
  (forall field key, In (field, key) percent_fields ->
     dict_lookup s field = Some (PStr (percent_field fd key))).
Proof.
  unfold make_summary. intros H.
  repeat bind_inv H. injection H as <-.
  repeat match goal with
  | Hx : dict_item _ _ = Ok _ |- _ => apply dict_item_Ok in Hx
  end.
  split; intros field key Hin; simpl in Hin.
  - destruct Hin as [[= <- <-]|[[= <- <-]|[[= <- <-]|[[= <- <-]|[[= <- <-]|[]]]]]];
      eexists _, _; (split; [eassumption|]); (split; [eassumption|]); reflexivity.
  - destruct Hin as [[= <- <-]|[[= <- <-]|[[= <- <-]|[]]]]; reflexivity.
Qed.

(** C3, as amended.  The currency formatter renders [None] as [N/A] and
    picks the rendering of a number by its magnitude: at least 1e12 gives
    the value in trillions with two decimals and the suffix [T], at least
    1e9 the suffix [B], at least 1e6 [M], at least 1e3 [K], and anything
    else the value itself with two decimals and thousands separators; so
    1e12 gets [T], 999999999999 gets [B] and -2500000 gets [M].  In the summary of a success
    result each currency field is the formatter's rendering of its record
    field, and each percentage field is the margin's text followed by [%]
    when the margin is a field of the record and is not zero, and [N/A]
    when it is absent or zero. *)
Theorem summary_rendering :
  format_currency PNone = Ok "N/A" /\
  (forall f : float,
     format_currency (PFloat f) =
     Ok (match currency_bucket (fun c => (c <=? PrimFloat.abs f)%float) with
         | Some (unit, suffix) => "$" +:+ PyFloat.format_2f false (f / unit) +:+ suffix
         | None => "$" +:+ PyFloat.format_2f true f
         end)) /\
  (forall z : Z,
     format_currency (PInt z) =
     match currency_bucket (fun c => Py.int_ge_float (Z.abs z) c) with
     | Some (unit, suffix) => scaled_currency (PInt z) unit suffix
     | None => t <- Py.format_2f true (PInt z) ;; Ok ("$" +:+ t)
     end) /\
  (forall z : Z,
     Py.int_ge_float z 1e12 = (10 ^ 12 <=? z) /\
     Py.int_ge_float z 1e9 = (10 ^ 9 <=? z) /\
     Py.int_ge_float z 1e6 = (10 ^ 6 <=? z) /\
     Py.int_ge_float z 1e3 = (10 ^ 3 <=? z)) /\
  format_currency (PFloat 1e12) = Ok "$1.00T" /\
  format_currency (PFloat 999999999999) = Ok "$1000.00B" /\
  format_currency (PInt 1000000000000) = Ok "$1.00T" /\
  format_currency (PInt 999999999999) = Ok "$1000.00B" /\
  format_currency (PFloat (-2500000)) = Ok "$-2.50M" /\
  (forall (yf : yfinance) (t : string) (p : metrics_payload),
     get_company_financial_metrics yf t = Success p ->
     (forall field key, In (field, key) currency_fields ->
        exists v text,
          dict_lookup (detailed_metrics p) key = Some v /\
          format_currency v = Ok text /\
          dict_lookup (summary p) field = Some (PStr text)) /\
     (forall field key, In (field, key) percent_fields ->
        dict_lookup (summary p) field =
        Some (PStr match dict_lookup (detailed_metrics p) key with
                   | Some v => if Py.truthy v then Py.str v +:+ "%" else "N/A"
                   | None => "N/A"
                   end))).
Proof.
  split; [reflexivity|].
  split; [exact format_currency_float|].
  split; [exact format_currency_int|].
  split; [exact int_ge_float_bounds|].
  do 5 (split; [vm_compute; reflexivity|]).
  intros yf t p H.
  destruct (metrics_success_inv _ _ _ H)
    as (_ & _ & _ & _ & _ & _ & _ & _ & _ & _ & _ & _ & _ & _ & _ & Hs & _).
  destruct (make_summary_inv _ _ Hs) as [Hc Hp].
  split; [exact Hc|].
  intros field key Hin. rewrite (Hp _ _ Hin), percent_field_lookup. reflexivity.
Qed.

(** ** The tools on the sample answers *)

Lemma oracle_success : get_company_financial_metrics sample_yf "orcl" = Success oracle_metrics.
Proof. vm_compute. reflexivity. Qed.

Lemma acme_success : get_company_financial_metrics sample_yf "acme" = Success acme_metrics.
Proof. vm_compute. reflexivity. Qed.

Lemma tiny_success : get_company_financial_metrics sample_yf "tiny" = Success tiny_metrics.
Proof. vm_compute. reflexivity. Qed.

(** C3, counterexample.  A gross profit of 1 on a revenue of a billion
    gives a gross margin of [0.0]: the margin is a field of the record, yet
    the summary renders it as [N/A], not as [0.0%]. *)
Lemma zero_margin_renders_as_absent :
  get_company_financial_metrics sample_yf "tiny" = Success tiny_metrics /\
  dict_lookup (detailed_metrics tiny_metrics) "gross_profit_margin_percent" = Some (PFloat 0) /\
  Py.str (PFloat 0) +:+ "%" = "0.0%" /\
  dict_lookup (summary tiny_metrics) "gross_margin" = Some (PStr "N/A").
Proof. vm_compute. repeat split; reflexivity. Qed.

(** [summary_rendering] on the Oracle sample: two margins of the summary. *)
Lemma summary_rendering_witness :
  dict_lookup (summary oracle_metrics) "gross_margin" = Some (PStr "71.41%") /\
  dict_lookup (summary oracle_metrics) "net_margin" = Some (PStr "19.76%").
Proof.
  destruct summary_rendering as (_ & _ & _ & _ & _ & _ & _ & _ & _ & H).
  destruct (H sample_yf "orcl" oracle_metrics oracle_success) as [_ Hp].
  rewrite (Hp "gross_margin" "gross_profit_margin_percent" (or_introl eq_refl)).
  rewrite (Hp "net_margin" "net_profit_margin_percent" (or_intror (or_intror (or_introl eq_refl)))).
  vm_compute. split; reflexivity.
Defined.

(** C1, counterexample.  The statement of this company has no revenue line
    and the attribute mapping no revenue either, so annual revenue is
    absent from the success record; the record nevertheless holds the
    provider-supplied gross margin, 50.0. *)
Lemma provider_margin_without_revenue :
  get_company_financial_metrics sample_yf "acme" = Success acme_metrics /\
  dict_lookup (detailed_metrics acme_metrics) "annual_revenue" = Some PNone /\
  dict_lookup (detailed_metrics acme_metrics) "yf_gross_margin_percent" = Some (PFloat 50).
Proof. vm_compute. repeat split; reflexivity. Qed.

Lemma oracle_numeric_table : numeric_table oracle_financials.
Proof. reflexivity. Qed.

(** [margin_fields_presence] on the sample without revenue. *)
Lemma margin_fields_presence_witness :
  (exists rev,
     dict_lookup (detailed_metrics acme_metrics) "annual_revenue" = Some rev /\
     (~ (rev <> PNone /\ Py.gt0 rev = Ok true) ->
      forall src tgt, In (src, tgt) margin_sources ->
        dict_lookup (detailed_metrics acme_metrics) tgt = None) /\
     (numeric_table acme_financials ->
      forall src tgt, In (src, tgt) margin_sources ->
        exists num, dict_lookup (detailed_metrics acme_metrics) src = Some num /\
          (is_Some (dict_lookup (detailed_metrics acme_metrics) tgt) <->
           (rev <> PNone /\ Py.gt0 rev = Ok true) /\ num <> PNone))) /\
  (forall ratio key, In (ratio, key) provider_margins ->
     exists v, dict_lookup (detailed_metrics acme_metrics) key = Some v /\
       (v <> PNone <-> Py.truthy (info_get acme_info ratio PNone) = true)).
Proof.
  apply (margin_fields_presence sample_yf "acme" acme_metrics acme_ticker acme_info
           acme_financials acme_success); reflexivity.
Defined.

Lemma text_success : get_company_financial_metrics text_yf "text" = Success text_metrics.
Proof. vm_compute. reflexivity. Qed.

(** A gross profit written as the text [0] in the statement: [float] reads
    it as [0.0], so the numerator field is present, the revenue is positive,
    and the record has no gross margin. *)
Lemma zero_numerator_has_no_margin :
  get_company_financial_metrics text_yf "text" = Success text_metrics /\
  dict_lookup (detailed_metrics text_metrics) "annual_revenue" = Some (PFloat 1000000000) /\
  Py.gt0 (PFloat 1000000000) = Ok true /\
  dict_lookup (detailed_metrics text_metrics) "gross_profit" = Some (PFloat 0) /\
  dict_lookup (detailed_metrics text_metrics) "gross_profit_margin_percent" = None.
Proof. vm_compute. repeat split; reflexivity. Qed.

(** [derived_margins_exact] on the Oracle sample, for the gross margin. *)
Lemma derived_margins_exact_witness :
  exists rev num,
    dict_lookup (detailed_metrics oracle_metrics) "annual_revenue" = Some rev /\
    dict_lookup (detailed_metrics oracle_metrics) "gross_profit" = Some num /\
    (num = PNone \/ exists f, num = PFloat f) /\
    (((rev <> PNone /\ Py.gt0 rev = Ok true /\ num <> PNone /\ ~ zero_number num) /\
      exists v, margin_percent num rev = Ok v /\
                dict_lookup (detailed_metrics oracle_metrics) "gross_profit_margin_percent"
                = Some v) \/
     (~ (rev <> PNone /\ Py.gt0 rev = Ok true /\ num <> PNone /\ ~ zero_number num) /\
      dict_lookup (detailed_metrics oracle_metrics) "gross_profit_margin_percent" = None)) /\
    (forall tk fin,
       sample_yf (Str.upper "orcl") = Ok tk -> financials tk = Ok fin -> numeric_table fin ->
       ~ zero_number num).
Proof.
  apply (derived_margins_exact sample_yf "orcl" oracle_metrics
           "gross_profit" "gross_profit_margin_percent" oracle_success (or_introl eq_refl)).
Defined.

(** The gross margin of the Oracle sample is 71.41. *)
Lemma oracle_gross_margin :
  dict_lookup (detailed_metrics oracle_metrics) "gross_profit_margin_percent" =
  Some (PFloat (PyFloat.of_decimal false 7141 (-2))) /\
  margin_percent (PFloat 37818000000) (PFloat 52961000000) =
  Ok (PFloat (PyFloat.of_decimal false 7141 (-2))).
Proof. vm_compute. split; reflexivity. Qed.

(** [financial_metrics_errors] on an unknown ticker and on a provider failure. *)
Lemma financial_metrics_errors_witness :
  get_company_financial_metrics sample_yf "ZZZZ" = Error (not_found_message "ZZZZ") /\
  get_company_financial_metrics sample_yf "down" =
  Error (retrieval_message "down" "HTTP Error 503: Service Unavailable").
Proof.
  split.
  - apply (proj1 (financial_metrics_errors sample_yf "ZZZZ") unknown_ticker ∅
             {| columns := []; rows := [] |}); try reflexivity.
    left. reflexivity.
  - apply (proj1 (proj2 (financial_metrics_errors sample_yf "down"))). reflexivity.
Defined.

(** [ticker_is_uppercased] on the Oracle sample, asked for in lower case. *)
Lemma ticker_is_uppercased_witness :
  dict_lookup (detailed_metrics oracle_metrics) "ticker" = Some (PStr "ORCL") /\
  dict_lookup (summary oracle_metrics) "ticker" = Some (PStr "ORCL").
Proof.
  apply (proj2 (ticker_is_uppercased sample_yf "orcl") oracle_metrics oracle_success).
Defined.

(** [safe_get_financial_absent] on a line item the Oracle sample lacks and on
    one whose latest value is NaN. *)
Lemma safe_get_financial_absent_witness :
  safe_get_financial oracle_info oracle_financials {| date := "2024-05-31" |}
    "Interest Income" "financials" = PNone /\
  safe_get_financial oracle_info oracle_financials {| date := "2024-05-31" |}
    "Interest Expense" "financials" = PNone.
Proof.
  split.
  - apply (safe_get_financial_absent oracle_info oracle_financials {| date := "2024-05-31" |}
             "interest_income" "Interest Income"); [simpl; tauto | reflexivity].
  - refine (proj1 (proj2 (proj2 (proj2
             (safe_get_financial_absent oracle_info oracle_financials
                {| date := "2024-05-31" |} "interest_expense" "Interest Expense" _))))
             nan _ _); [simpl; tauto | reflexivity | reflexivity].
Defined.

(** [zero_line_item_is_dropped] on the sample that reports a revenue of zero. *)
Lemma zero_line_item_is_dropped_witness :
  safe_get_financial zero_info zero_financials {| date := "2024-05-31" |}
    "Total Revenue" "financials" = PNone /\
  dict_lookup (extract_metrics zero_info zero_financials {| date := "2024-05-31" |} "zero")
    "annual_revenue" = Some (PInt 5000).
Proof.
  assert (zero_number (PFloat 0)) as Hz by (right; exists 0%float; split; reflexivity).
  destruct (zero_line_item_is_dropped zero_info zero_financials {| date := "2024-05-31" |}
              "Total Revenue" (PFloat 0) eq_refl Hz) as (H1 & _ & _ & H2).
  split; [exact H1 | exact (H2 eq_refl "zero")].
Defined.

(** [get_weather_new_york_only] on an upper-case spelling and on another city. *)
Lemma get_weather_new_york_only_witness :
  get_weather "NEW YORK" = Success new_york_report /\
  Str.contains "Paris" "Weather information for 'Paris' is not available.".
Proof.
  split.
  - apply (proj1 (get_weather_new_york_only "NEW YORK")). reflexivity.
  - apply (proj1 (proj2 (proj2 (proj2 (get_weather_new_york_only "Paris"))))). reflexivity.
Defined.

(** ** The trading-status check *)

Section TradingFacts.

Variable yf : yfinance.

Lemma check_symbol_appends (company symbol : string) (results : list dict) :
  exists entry,
    check_symbol yf company symbol results = append results entry /\
    entry_for company entry.
Proof.
  unfold check_symbol, try_except.
  destruct (yf symbol) as [tk|e]; cbn.
  - destruct (info tk) as [i|e]; cbn.
    + destruct (info_truthy i && (1 <? Z.of_nat (size i)));
        eexists; (split; [reflexivity|]); split; cbn; eauto.
    + eexists; (split; [reflexivity|]); split; cbn; eauto.
  - eexists; (split; [reflexivity|]); split; cbn; eauto.
Qed.

(** One turn of the loop appends exactly one entry for a non-empty name and
    nothing for an empty one. *)
Lemma check_company_appends (results : list dict) (company : string) :
  if Str.is_empty company then check_company yf results company = results
  else exists entry,
         check_company yf results company = append results entry /\
         entry_for company entry.
Proof.
  unfold check_company.
  destruct (Str.is_empty company); [reflexivity|].
  destruct (mapping_get symbol_mappings (Str.lower company)) as [symbol|].
  - apply check_symbol_appends.
  - destruct (existsb _ known_private).
    + eexists; (split; [reflexivity|]); split; cbn; eauto.
    + destruct (probe yf _) as [symbol|].
      * apply check_symbol_appends.
      * eexists; (split; [reflexivity|]); split; cbn; eauto.
Qed.

Lemma loop_entries (companies : list string) (results : list dict) :
  exists entries,
    fold_left (check_company yf) companies results = (results ++ entries)%list /\
    Forall2 entry_for (List.filter (fun c => negb (Str.is_empty c)) companies) entries.
Proof.
  revert results.
  induction companies as [|c cs IH]; intros results; simpl.
  - exists []. split; [symmetry; apply app_nil_r | constructor].
  - pose proof (check_company_appends results c) as Hc.
    destruct (Str.is_empty c); simpl.
    + rewrite Hc. apply IH.
    + destruct Hc as (entry & -> & He).
      destruct (IH (append results entry)) as (entries & -> & Hes).
      exists (entry :: entries). split.
      * unfold append. rewrite <- app_assoc. reflexivity.
      * constructor; assumption.
Qed.

Lemma select_public_lengths (results pub priv : list dict) :
  select_public true results = Ok pub ->
  select_public false results = Ok priv ->
  (length pub + length priv)%nat = length results.
Proof.
  revert pub priv.
  induction results as [|r rs IH]; intros pub priv Hp Hq; simpl in Hp, Hq.
  - injection Hp as <-. injection Hq as <-. reflexivity.
  - bind_inv Hp. bind_inv Hp. injection Hp as <-.
    bind_inv Hq. bind_inv Hq. injection Hq as <-.
    rewrite Ha in Ha1. injection Ha1 as <-.
    specialize (IH _ _ Ha0 Ha2).
    destruct (Py.truthy a); simpl; lia.
Qed.

(** C10.  On a success result, the detailed results hold exactly one entry
    for each non-empty trimmed name of the comma-separated input, in order;
    every entry has a boolean [is_public] field; and the public and private
    counts add up to the number of entries. *)
Theorem trading_status_entries (company_names : string) (p : trading_payload) :
  check_public_trading_status yf company_names = Success p ->
  Forall2 entry_for (trimmed_names company_names) (detailed_results p) /\
  length (detailed_results p) = length (trimmed_names company_names) /\
  Forall (fun entry => exists b, dict_lookup entry "is_public" = Some (PBool b))
    (detailed_results p) /\
  (public_count p + private_count p)%nat = length (detailed_results p).
Proof.
  unfold check_public_trading_status, try_except. intros H.
  match type of H with
  | match ?body with _ => _ end = _ => destruct body as [r|e] eqn:B; [subst r | discriminate]
  end.
  bind_inv B. bind_inv B. bind_inv B. bind_inv B.
  injection B as <-. cbn [detailed_results public_count private_count].
  destruct (loop_entries (List.map Str.strip (Str.split "," company_names)) [])
    as (entries & He & Hall).
  simpl in He. rewrite He in *.
  assert (Forall2 entry_for (trimmed_names company_names) entries) as Hf by exact Hall.
  split; [exact Hf|]. split; [symmetry; exact (Forall2_length _ _ _ Hf)|]. split.
  - clear -Hf. induction Hf as [|c e cs es [_ Hb] _ IH]; constructor; assumption.
  - exact (select_public_lengths _ _ _ Ha Ha0).
Qed.

Lemma check_symbol_shape (company symbol : string) (results : list dict) :
  Forall entry_shape results ->
  Forall entry_shape (check_symbol yf company symbol results).
Proof.
  intros Hr. unfold check_symbol, try_except, append.
  destruct (yf symbol) as [tk|e]; cbn; [destruct (info tk) as [i|e]; cbn|];
    [destruct (info_truthy i && (1 <? Z.of_nat (size i)))| |];
    (apply Forall_app; split; [exact Hr|]); constructor; try constructor;
    eexists; (split; [reflexivity|]); cbn; repeat split; eauto.
Qed.

Lemma check_company_shape (results : list dict) (company : string) :
  Forall entry_shape results ->
  Forall entry_shape (check_company yf results company).
Proof.
  intros Hr. unfold check_company.
  destruct (Str.is_empty company); [exact Hr|].
  destruct (mapping_get symbol_mappings (Str.lower company)) as [symbol|];
    [apply check_symbol_shape, Hr|].
  destruct (existsb _ known_private);
    [|destruct (probe yf _) as [symbol|]; [apply check_symbol_shape, Hr|]];
    unfold append; (apply Forall_app; split; [exact Hr|]); constructor; try constructor;
    eexists; (split; [reflexivity|]); cbn; repeat split; eauto.
Qed.

Lemma loop_shape (companies : list string) (results : list dict) :
  Forall entry_shape results ->
  Forall entry_shape (fold_left (check_company yf) companies results).
Proof.
  revert results.
  induction companies as [|c cs IH]; intros results Hr; simpl; [exact Hr|].
  apply IH, check_company_shape, Hr.
Qed.

Lemma select_public_shape (keep : bool) (results : list dict) :
  Forall entry_shape results ->
  exists l, select_public keep results = Ok l /\ Forall (reportable keep) l.
Proof.
  induction 1 as [|r rs (b & Hb & Hr) _ (l & Hl & Hf)]; simpl.
  - exists []. split; [reflexivity | constructor].
  - unfold dict_item. rewrite Hb. cbn. rewrite Hl. cbn.
    destruct b, keep; cbn; eexists; (split; [reflexivity|]);
      first [exact Hf | constructor; assumption].
Qed.

Lemma public_lines_Ok (l : list dict) (text : string) :
  Forall (reportable true) l -> exists r, public_lines l text = Ok r.
Proof.
  intros H. revert text.
  induction H as [|e es (Hc & Hs & Ho & Hx) _ IH]; intros text; simpl; [eauto|].
  unfold dict_item.
  destruct Hc as [c ->], Hs as [s ->], Ho as [o ->], Hx as [x ->]. cbn. apply IH.
Qed.

Lemma private_lines_Ok (l : list dict) (text : string) :
  Forall (reportable false) l -> exists r, private_lines l text = Ok r.
Proof.
  intros H. revert text.
  induction H as [|e es (Hc & Hs) _ IH]; intros text; simpl; [eauto|].
  unfold dict_item.
  destruct Hc as [c ->], Hs as [s ->]. cbn. apply IH.
Qed.

(** The check never fails: no statement outside the inner [try] blocks
    raises. *)
Lemma trading_status_succeeds (company_names : string) :
  exists p, check_public_trading_status yf company_names = Success p.
Proof.
  unfold check_public_trading_status, try_except.
  pose proof (loop_shape (List.map Str.strip (Str.split "," company_names)) []
                (Forall_nil_2 _)) as Hs.
  destruct (select_public_shape true _ Hs) as (pub & -> & Hpub).
  destruct (select_public_shape false _ Hs) as (priv & -> & Hpriv).
  cbn [bind].
  assert (exists r1,
            match pub with
            | [] => Ok ("Trading Status Analysis:" +:+ Json.newline +:+ Json.newline)
            | _ :: _ =>
                r <- public_lines pub
                       (("Trading Status Analysis:" +:+ Json.newline +:+ Json.newline) +:+
                        chart_mark +:+ " PUBLICLY TRADED COMPANIES:" +:+ Json.newline) ;;
                Ok (r +:+ Json.newline)
            end = Ok r1) as [r1 ->].
  { destruct pub; [eauto|].
    match goal with
    | |- context [public_lines ?l ?r] => destruct (public_lines_Ok l r Hpub) as [x ->]
    end.
    cbn [bind]. eauto. }
  cbn [bind].
  assert (exists r2,
            match priv with
            | [] => Ok r1
            | _ :: _ =>
                private_lines priv
                  (r1 +:+ lock_mark +:+ " NON-PUBLIC/PRIVATE COMPANIES:" +:+ Json.newline)
            end = Ok r2) as [r2 ->].
  { destruct priv; [eauto|]. apply private_lines_Ok, Hpriv. }
  cbn [bind]. eauto.
Qed.

End TradingFacts.

Lemma sample_trading_success :
  check_public_trading_status sample_yf " PWC, Oracle ,, orcl inc,foo" = Success sample_trading.
Proof. vm_compute. reflexivity. Qed.

(** [trading_status_entries] on a sample input with an empty part. *)
Lemma trading_status_entries_witness :
  Forall2 entry_for ["PWC"; "Oracle"; "orcl inc"; "foo"] (detailed_results sample_trading) /\
  length (detailed_results sample_trading) = 4%nat /\
  Forall (fun entry => exists b, dict_lookup entry "is_public" = Some (PBool b))
    (detailed_results sample_trading) /\
  (public_count sample_trading + private_count sample_trading)%nat =
  length (detailed_results sample_trading).
Proof.
  exact (trading_status_entries sample_yf " PWC, Oracle ,, orcl inc,foo" sample_trading
           sample_trading_success).
Defined.

(** The counts and the statuses of that sample. *)
Lemma sample_trading_counts :
  public_count sample_trading = 2%nat /\ private_count sample_trading = 2%nat /\
  List.map (fun e => dict_lookup e "status") (detailed_results sample_trading) =
  [ Some (PStr "Known private company"); Some (PStr "Publicly traded");
    Some (PStr "Publicly traded"); Some (PStr "No public trading symbol found") ].
Proof. vm_compute. repeat split; reflexivity. Qed.

(** * Further properties *)

(** ** More on the trading-status check *)

Lemma split_nonempty (sep : ascii) (s : string) : Str.split sep s <> [].
Proof.
  destruct s as [|c r]; simpl; [discriminate|].
  destruct (Ascii.eqb c sep); [discriminate|].
  destruct (Str.split sep r); discriminate.
Qed.

Lemma split_app (sep : ascii) (a b : string) :
  Str.split sep (a +:+ String sep b) = (Str.split sep a ++ Str.split sep b)%list.
Proof.
  induction a as [|c r IH]; simpl.
  - rewrite Ascii.eqb_refl. reflexivity.
  - rewrite IH. destruct (Ascii.eqb c sep); [reflexivity|].
    pose proof (split_nonempty sep r) as Hn.
    destruct (Str.split sep r); [contradiction | reflexivity].
Qed.

Section TradingMore.

Variable yf : yfinance.

Lemma check_symbol_app (company symbol : string) (results : list dict) :
  check_symbol yf company symbol results =
  (results ++ check_symbol yf company symbol [])%list.
Proof.
  unfold check_symbol, try_except, append.
  destruct (yf symbol) as [tk|e]; cbn; [destruct (info tk) as [i|e]; cbn|];
    [destruct (info_truthy i && (1 <? Z.of_nat (size i)))| |]; reflexivity.
Qed.

Lemma check_company_app (results : list dict) (company : string) :
  check_company yf results company = (results ++ check_company yf [] company)%list.
Proof.
  unfold check_company.
  destruct (Str.is_empty company); [symmetry; apply app_nil_r|].
  destruct (mapping_get symbol_mappings (Str.lower company)) as [symbol|];
    [apply check_symbol_app|].
  destruct (existsb _ known_private); [reflexivity|].
  destruct (probe yf _) as [symbol|]; [apply check_symbol_app | reflexivity].
Qed.

Lemma loop_flat_map (companies : list string) (results : list dict) :
  fold_left (check_company yf) companies results =
  (results ++ flat_map (check_company yf []) companies)%list.
Proof.
  revert results.
  induction companies as [|c cs IH]; intros results; simpl.
  - symmetry. apply app_nil_r.
  - rewrite IH, (check_company_app results c), <- app_assoc. reflexivity.
Qed.

Lemma select_public_app (keep : bool) (l1 l2 r1 r2 : list dict) :
  select_public keep l1 = Ok r1 ->
  select_public keep l2 = Ok r2 ->
  select_public keep (l1 ++ l2) = Ok (r1 ++ r2)%list.
Proof.
  revert r1.
  induction l1 as [|e es IH]; intros r1 H1 H2; simpl in *.
  - injection H1 as <-. exact H2.
  - bind_inv H1. bind_inv H1. injection H1 as <-.
    rewrite Ha. cbn [bind]. rewrite (IH _ Ha0 H2). cbn [bind].
    destruct (Bool.eqb (Py.truthy a) keep); reflexivity.
Qed.

Lemma trading_success_inv (company_names : string) (p : trading_payload) :
  check_public_trading_status yf company_names = Success p ->
  detailed_results p =
    flat_map (check_company yf []) (List.map Str.strip (Str.split "," company_names)) /\
  exists pub priv,
    select_public true (detailed_results p) = Ok pub /\
    select_public false (detailed_results p) = Ok priv /\
    public_count p = length pub /\ private_count p = length priv.
Proof.
  unfold check_public_trading_status, try_except. intros H.
  match type of H with
  | match ?body with _ => _ end = _ => destruct body as [r|e] eqn:B; [subst r | discriminate]
  end.
  bind_inv B. bind_inv B. bind_inv B. bind_inv B.
  injection B as <-. cbn [detailed_results public_count private_count].
  rewrite loop_flat_map in *. simpl app in *.
  split; [reflexivity|]. exists a, a0. auto.
Qed.


Lemma select_public_filter (results l : list dict) :
  select_public true results = Ok l -> l = List.filter is_public_entry results.
Proof.
  revert l.
  induction results as [|r rs IH]; intros l H; simpl in H.
  - injection H as <-. reflexivity.
  - bind_inv H. bind_inv H. injection H as <-.
    apply dict_item_Ok in Ha. simpl. unfold is_public_entry at 1. rewrite Ha.
    rewrite (IH _ Ha0). destruct (Py.truthy a); reflexivity.
Qed.

Lemma probe_In (symbols : list string) (symbol : string) :
  probe yf symbols = Some symbol -> In symbol symbols.
Proof.
  induction symbols as [|s r IH]; simpl; [discriminate|].
  destruct (yf s) as [tk|e]; cbn; [destruct (info tk) as [i|e]; cbn|]; auto.
  destruct (info_truthy i && bool_decide (is_Some (i !! "symbol"))); auto.
  intros [= <-]. auto.
Qed.

(** X1.  The trading-status check never returns the error result, whatever
    the provider does: the handler around the whole function is never
    reached.  The detailed results are the entries of the trimmed names, each
    name being handled on its own, in order; the public count is the number
    of entries marked public, and the two counts add up to the number of
    entries. *)
Theorem trading_status_never_fails (company_names : string) :
  exists p,
    check_public_trading_status yf company_names = Success p /\
    detailed_results p =
      flat_map (check_company yf []) (List.map Str.strip (Str.split "," company_names)) /\
    public_count p = length (List.filter is_public_entry (detailed_results p)) /\
    (public_count p + private_count p)%nat = length (detailed_results p).
Proof.
  destruct (trading_status_succeeds yf company_names) as [p Hp].
  exists p. split; [exact Hp|].
  destruct (trading_success_inv _ _ Hp) as (Hd & pub & priv & Hpub & Hpriv & Hc & Hc').
  split; [exact Hd|]. split.
  - rewrite Hc. f_equal. apply select_public_filter, Hpub.
  - rewrite Hc, Hc'. apply (select_public_lengths _ _ _ Hpub Hpriv).
Qed.

(** X2.  Checking two lists of names written one after the other, with a
    comma between them, gives the detailed results of the first followed by
    those of the second, and the sums of their counts. *)
Theorem trading_status_concatenates (a b : string) :
  exists pa pb p,
    check_public_trading_status yf a = Success pa /\
    check_public_trading_status yf b = Success pb /\
    check_public_trading_status yf (a +:+ "," +:+ b) = Success p /\
    detailed_results p = (detailed_results pa ++ detailed_results pb)%list /\
    public_count p = (public_count pa + public_count pb)%nat /\
    private_count p = (private_count pa + private_count pb)%nat.
Proof.
  destruct (trading_status_succeeds yf a) as [pa Ha].
  destruct (trading_status_succeeds yf b) as [pb Hb].
  destruct (trading_status_succeeds yf (a +:+ "," +:+ b)) as [p Hp].
  exists pa, pb, p. repeat (split; [assumption|]).
  destruct (trading_success_inv _ _ Ha) as (Da & pub1 & priv1 & Hpub1 & Hpriv1 & C1 & C1').
  destruct (trading_success_inv _ _ Hb) as (Db & pub2 & priv2 & Hpub2 & Hpriv2 & C2 & C2').
  destruct (trading_success_inv _ _ Hp) as (Dp & pub & priv & Hpub & Hpriv & C & C').
  assert (detailed_results p = (detailed_results pa ++ detailed_results pb)%list) as E.
  { rewrite Dp, Da, Db.
    change (a +:+ "," +:+ b) with (a +:+ String "," b).
    rewrite split_app, map_app, flat_map_app. reflexivity. }
  split; [exact E|].
  rewrite E in Hpub, Hpriv.
  rewrite (select_public_app _ _ _ _ _ Hpub1 Hpub2) in Hpub.
  rewrite (select_public_app _ _ _ _ _ Hpriv1 Hpriv2) in Hpriv.
  injection Hpub as <-. injection Hpriv as <-.
  rewrite C, C', C1, C1', C2, C2', !length_app. split; reflexivity.
Qed.

(** X3.  A name of the input that is, in any letter case, one of the four
    known private names (pwc, kpmg, ey, ernst & young) gets the entry
    "Known private company", not public and without a symbol, whatever the
    provider answers. *)
Theorem known_private_company (company_names company : string) :
  In company (trimmed_names company_names) ->
  In (Str.lower company) known_private ->
  exists p,
    check_public_trading_status yf company_names = Success p /\
    In (private_entry company) (detailed_results p).
Proof.
  intros Hin Hpriv.
  destruct (trading_status_succeeds yf company_names) as [p Hp].
  exists p. split; [exact Hp|].
  destruct (trading_success_inv _ _ Hp) as (-> & _).
  unfold trimmed_names in Hin. apply filter_In in Hin. destruct Hin as [Hin Hne].
  apply in_flat_map. exists company. split; [exact Hin|].
  unfold check_company.
  destruct (Str.is_empty company); [discriminate|].
  simpl in Hpriv.
  destruct Hpriv as [<-|[<-|[<-|[<-|[]]]]]; left; reflexivity.
Qed.

(** A public entry was confirmed by the provider, for the symbol of the
    table or for one of the guesses. *)
Lemma check_company_public (company : string) (entry : dict) :
  In entry (check_company yf [] company) ->
  is_public_entry entry = true ->
  Str.is_empty company = false /\
  exists symbol tk i,
    yf symbol = Ok tk /\ info tk = Ok i /\ (1 < size i)%nat /\
    entry = dict_of [ ("company", PStr company);
                      ("is_public", PBool true);
                      ("symbol", PStr symbol);
                      ("official_name",
                         info_get i "longName" (info_get i "shortName" (PStr company)));
                      ("exchange", info_get i "exchange" (PStr "Unknown"));
                      ("status", PStr "Publicly traded") ] /\
    match mapping_get symbol_mappings (Str.lower company) with
    | Some s => symbol = s
    | None => In symbol (possible_symbols company)
    end.
Proof.
  intros He Hpub.
  assert (forall symbol,
            In entry (check_symbol yf company symbol []) ->
            exists tk i,
              yf symbol = Ok tk /\ info tk = Ok i /\ (1 < size i)%nat /\
              entry = dict_of [ ("company", PStr company);
                                ("is_public", PBool true);
                                ("symbol", PStr symbol);
                                ("official_name",
                                   info_get i "longName"
                                     (info_get i "shortName" (PStr company)));
                                ("exchange", info_get i "exchange" (PStr "Unknown"));
                                ("status", PStr "Publicly traded") ]) as Hsym.
  { intros symbol Hs. unfold check_symbol, try_except, append in Hs.
    destruct (yf symbol) as [tk|e]; cbn in Hs;
      [destruct (info tk) as [i|e] eqn:Ei; cbn in Hs|];
      [destruct (info_truthy i && (1 <? Z.of_nat (size i))) eqn:Eb| |];
      destruct Hs as [<-|[]]; try discriminate Hpub.
    exists tk, i. apply andb_true_iff in Eb. destruct Eb as [_ Eb].
    apply Z.ltb_lt in Eb. repeat split; try reflexivity; try assumption. lia. }
  unfold check_company in He.
  destruct (Str.is_empty company) eqn:Ee; [destruct He|].
  split; [reflexivity|].
  destruct (mapping_get symbol_mappings (Str.lower company)) as [symbol|] eqn:Em.
  - destruct (Hsym _ He) as (tk & i & H1 & H2 & H3 & H4).
    exists symbol, tk, i. repeat split; auto.
  - destruct (existsb _ known_private).
    + destruct He as [<-|[]]. discriminate Hpub.
    + destruct (probe yf _) as [symbol|] eqn:Epr.
      * destruct (Hsym _ He) as (tk & i & H1 & H2 & H3 & H4).
        exists symbol, tk, i. apply probe_In in Epr. repeat split; auto.
      * destruct He as [<-|[]]. discriminate Hpub.
Qed.

(** X4.  An entry of a success result is marked public only if the
    provider returned, for the entry's symbol, an attribute mapping with
    more than one key; the symbol is the one of the table when the
    lower-cased name is in the table, and otherwise one of the three guesses
    made from the name; the official name is the provider's long name, else
    its short name, else the name as given, and the exchange is the
    provider's, else "Unknown". *)
Theorem public_entry_is_confirmed (company_names : string) (p : trading_payload)
    (entry : dict) :
  check_public_trading_status yf company_names = Success p ->
  In entry (detailed_results p) ->
  is_public_entry entry = true ->
  exists company symbol tk i,
    In company (trimmed_names company_names) /\
    yf symbol = Ok tk /\ info tk = Ok i /\ (1 < size i)%nat /\
    entry = dict_of [ ("company", PStr company);
                      ("is_public", PBool true);
                      ("symbol", PStr symbol);
                      ("official_name",
                         info_get i "longName" (info_get i "shortName" (PStr company)));
                      ("exchange", info_get i "exchange" (PStr "Unknown"));
                      ("status", PStr "Publicly traded") ] /\
    match mapping_get symbol_mappings (Str.lower company) with
    | Some s => symbol = s
    | None => In symbol (possible_symbols company)
    end.
Proof.
  intros Hp Hin Hpub.
  destruct (trading_success_inv _ _ Hp) as (Hd & _).
  rewrite Hd in Hin. apply in_flat_map in Hin. destruct Hin as (company & Hc & He).
  destruct (check_company_public company entry He Hpub)
    as (Ee & symbol & tk & i & H1 & H2 & H3 & H4 & H5).
  exists company, symbol, tk, i.
  split; [|repeat split; assumption].
  unfold trimmed_names. apply filter_In. rewrite Ee. split; [exact Hc | reflexivity].
Qed.

End TradingMore.

(** ** Keys of a merged dictionary *)

Lemma dict_merge_cons (d1 d2 : dict) (k : string) (v : pyval) :
  dict_merge d1 ((k, v) :: d2) = dict_merge (dict_set d1 k v) d2.
Proof. reflexivity. Qed.

Lemma dict_merge_NoDup (d1 d2 : dict) :
  NoDup (keys d1) -> NoDup (keys (dict_merge d1 d2)).
Proof.
  revert d1. induction d2 as [|[k v] r IH]; intros d1 H; [exact H|].
  rewrite dict_merge_cons. apply IH, dict_set_NoDup, H.
Qed.

(** Merging fresh keys appends them. *)
Lemma dict_merge_fresh (d1 d2 : dict) :
  NoDup (keys d2) ->
  (forall k, In k (keys d2) -> ~ In k (keys d1)) ->
  dict_merge d1 d2 = (d1 ++ d2)%list.
Proof.
  revert d1. induction d2 as [|[k v] r IH]; intros d1 Hn Hd.
  - symmetry. apply app_nil_r.
  - rewrite dict_merge_cons.
    apply NoDup_cons in Hn. destruct Hn as [Hk Hr].
    assert (dict_set d1 k v = (d1 ++ [(k, v)])%list) as ->.
    { assert (~ In k (keys d1)) as Hf by (apply Hd; left; reflexivity).
      clear -Hf. induction d1 as [|[k0 v0] d IH]; simpl; [reflexivity|].
      destruct (String.eqb k0 k) eqn:E.
      - apply String.eqb_eq in E. exfalso. apply Hf. left. exact E.
      - rewrite IH; [reflexivity|]. intros H. apply Hf. right. exact H. }
    rewrite IH; [rewrite <- app_assoc; reflexivity | exact Hr |].
    intros k' Hk' Hin. unfold keys in Hin. rewrite map_app in Hin.
    apply in_app_or in Hin. destruct Hin as [Hin|[<-|[]]].
    + apply (Hd k'); [right; exact Hk' | exact Hin].
    + apply Hk. apply list_elem_of_In. exact Hk'.
Qed.

Lemma add_margin_cases (metrics : dict) (rev : pyval) (src tgt : string) (m m' : dict) :
  add_margin metrics rev src tgt m = Ok m' ->
  m' = m \/ exists v, m' = dict_set m tgt v.
Proof.
  unfold add_margin. intros H. bind_inv H.
  destruct (Py.truthy a).
  - bind_inv H. injection H as <-. eauto.
  - injection H as <-. auto.
Qed.

(** The derived margins are written in a fixed order. *)
Lemma calculate_margins_keys (metrics calc : dict) :
  calculate_margins metrics = Ok calc ->
  keys calc = List.filter (has_key calc) derived_margin_keys.
Proof.
  unfold calculate_margins. intros H.
  bind_inv H. bind_inv H.
  destruct a0; [|injection H as <-; reflexivity].
  bind_inv H. bind_inv H. bind_inv H.
  apply add_margin_cases in Ha1, Ha2, Ha3, H.
  destruct Ha1 as [->|[v1 ->]], Ha2 as [->|[v2 ->]], Ha3 as [->|[v3 ->]], H as [->|[v4 ->]];
    reflexivity.
Qed.

Section Layout.

Variable yf : yfinance.

Lemma detailed_metrics_layout (t : string) (p : metrics_payload) :
  get_company_financial_metrics yf t = Success p ->
  exists metrics calc yfm,
    detailed_metrics p = (metrics ++ calc ++ yfm)%list /\
    keys metrics = record_keys /\
    keys calc = List.filter (has_key (detailed_metrics p)) derived_margin_keys /\
    keys yfm = provider_margin_keys.
Proof.
  intros H.
  destruct (metrics_success_inv yf t p H)
    as (tk & i & fin & ly & calc & yfm & _ & _ & _ & _ & _ & _ & Hc & Hy & Hd & _).
  pose proof (calc_NoDup i fin ly t calc Hc) as Nc.
  assert (NoDup (keys yfm)) as Ny.
  { destruct (yfinance_margins_inv _ _ Hy) as (g & o & q & _ & _ & _ & ->).
    cbn. repeat constructor; rewrite ?list_elem_of_In; simpl; intuition discriminate. }
  pose proof (calculate_margins_keys _ _ Hc) as Kc.
  assert (forall k, In k (keys calc) -> In k derived_margin_keys) as Sc.
  { intros k Hk. rewrite Kc in Hk. apply filter_In in Hk. tauto. }
  assert (keys yfm = provider_margin_keys) as Ky.
  { destruct (yfinance_margins_inv _ _ Hy) as (g & o & q & _ & _ & _ & ->). reflexivity. }
  assert (keys (extract_metrics i fin ly t) = record_keys) as Km
    by (rewrite extract_metrics_fields; reflexivity).
  assert (dict_merge (extract_metrics i fin ly t) calc =
          (extract_metrics i fin ly t ++ calc)%list) as E1.
  { apply dict_merge_fresh; [exact Nc|].
    intros k Hk. apply Sc in Hk. rewrite Km. simpl in Hk. simpl.
    intuition (subst; discriminate). }
  assert (detailed_metrics p = (extract_metrics i fin ly t ++ calc ++ yfm)%list) as E2.
  { rewrite Hd, E1, app_assoc. apply dict_merge_fresh; [exact Ny|].
    intros k Hk. rewrite Ky in Hk. unfold keys. rewrite map_app.
    intros Hin. apply in_app_or in Hin. destruct Hin as [Hin|Hin].
    - fold (keys (extract_metrics i fin ly t)) in Hin. rewrite Km in Hin.
      simpl in Hk, Hin. intuition (subst; discriminate).
    - apply Sc in Hin. simpl in Hk, Hin. intuition (subst; discriminate). }
  exists (extract_metrics i fin ly t), calc, yfm.
  split; [exact E2|]. split; [exact Km|]. split; [|exact Ky].
  rewrite Kc. apply filter_ext_in. intros k Hk.
  unfold has_key. rewrite Hd.
  rewrite (financial_data_margin i fin ly t calc yfm Hc Hy k Hk). reflexivity.
Qed.

(** X5.  The record of a success result of [get_company_financial_metrics]
    has its fields in a fixed order: the eighteen fields read from the
    provider, then those of the four derived margins that are present, in
    the order gross, operating, net, EBITDA, then the three
    provider-supplied margins; no field is repeated, so the record has
    between 21 and 25 fields.  The summary has its ten fields, and the
    [fiscal_year_end] field of the record is the fiscal year returned
    beside it. *)
Theorem success_record_layout (t : string) (p : metrics_payload) :
  get_company_financial_metrics yf t = Success p ->
  keys (detailed_metrics p) =
    (record_keys ++ List.filter (has_key (detailed_metrics p)) derived_margin_keys ++
     provider_margin_keys)%list /\
  NoDup (keys (detailed_metrics p)) /\
  (21 <= length (detailed_metrics p) <= 25)%nat /\
  keys (summary p) = summary_keys /\
  dict_lookup (detailed_metrics p) "fiscal_year_end" = Some (PStr (fiscal_year p)).
Proof.
  intros H.
  destruct (detailed_metrics_layout t p H) as (metrics & calc & yfm & E & Km & Kc & Ky).
  destruct (metrics_success_inv yf t p H)
    as (tk & i & fin & ly & calc' & yfm' & _ & _ & _ & _ & _ & _ & Hc & Hy & Hd & Hs & _ & Hf).
  assert (keys (detailed_metrics p) =
          (record_keys ++ List.filter (has_key (detailed_metrics p)) derived_margin_keys ++
           provider_margin_keys)%list) as K.
  { rewrite E at 1. unfold keys. rewrite !map_app.
    fold (keys metrics) (keys calc) (keys yfm). rewrite Km, Kc, Ky. reflexivity. }
  split; [exact K|]. split; [|split].
  - rewrite Hd. apply dict_merge_NoDup, dict_merge_NoDup.
    rewrite extract_metrics_fields. cbn.
    repeat constructor; rewrite ?list_elem_of_In; simpl; intuition discriminate.
  - assert (length (detailed_metrics p) = length (keys (detailed_metrics p))) as ->
      by (unfold keys; rewrite length_map; reflexivity).
    rewrite K, !length_app.
    pose proof (filter_length_le (has_key (detailed_metrics p)) derived_margin_keys) as Hl.
    change (length derived_margin_keys) with 4%nat in Hl.
    change (length record_keys) with 18%nat.
    change (length provider_margin_keys) with 3%nat. lia.
  - split.
    + unfold make_summary in Hs. repeat bind_inv Hs. injection Hs as <-. reflexivity.
    + rewrite Hd, Hf.
      apply (financial_data_metric i fin ly t calc' yfm' Hc Hy).
      rewrite extract_metrics_fields. reflexivity.
Qed.

End Layout.

(** X6.  [get_current_time] knows a city exactly when [get_weather] does.
    For another city it returns the error result, whose message names the
    city, whatever the clock does.  For New York, in any letter case, the
    report writes the city as it was given, followed by the clock's reading
    for America/New_York; the function has no handler, so an exception of
    the clock leaves it. *)
Theorem time_and_weather_agree (strftime_now : string -> result string) (city : string) :
  match get_current_time strftime_now city with
  | Ok (Success report) =>
      status (get_weather city) = "success" /\
      exists now, strftime_now "America/New_York" = Ok now /\
                  report = "The current time in " +:+ city +:+ " is " +:+ now
  | Ok (Error error_message) =>
      status (get_weather city) = "error" /\
      error_message = "Sorry, I don't have timezone information for " +:+ city +:+ "."
  | Raise e =>
      status (get_weather city) = "success" /\ strftime_now "America/New_York" = Raise e
  end.
Proof.
  unfold get_current_time, get_weather.
  destruct (String.eqb (Str.lower city) "new york").
  - destruct (strftime_now "America/New_York") as [now|e]; cbn; eauto.
  - cbn. auto.
Qed.

(** ** Substrings and joins *)

Lemma lower_app (a b : string) : Str.lower (a +:+ b) = Str.lower a +:+ Str.lower b.
Proof.
  unfold Str.lower. induction a as [|c r IH]; simpl; [reflexivity|]. rewrite IH. reflexivity.
Qed.

Lemma starts_with_app (sub s post : string) :
  starts_with sub s = true -> starts_with sub (s +:+ post) = true.
Proof.
  revert s. induction sub as [|a sub IH]; intros s H; [reflexivity|].
  destruct s as [|b s]; simpl in *; [discriminate|].
  apply andb_true_iff in H. destruct H as [-> H]. apply IH, H.
Qed.

Lemma occurs_in_app_r (sub s post : string) :
  occurs_in sub s = true -> occurs_in sub (s +:+ post) = true.
Proof.
  induction s as [|c r IH]; simpl; intros H.
  - rewrite orb_false_r in H. destruct sub; [|discriminate].
    destruct post; reflexivity.
  - apply orb_true_iff in H. destruct H as [H|H].
    + change (String c (r +:+ post)) with (String c r +:+ post).
      rewrite (starts_with_app sub (String c r) post H). reflexivity.
    + rewrite (IH H). apply orb_true_r.
Qed.

Lemma occurs_in_app_l (sub pre s : string) :
  occurs_in sub s = true -> occurs_in sub (pre +:+ s) = true.
Proof.
  intros H. induction pre as [|c r IH]; simpl; [exact H|].
  rewrite IH. apply orb_true_r.
Qed.

Lemma split_space (s : string) :
  List.map Str.strip (Str.split "," (String " " s)) = List.map Str.strip (Str.split "," s).
Proof.
  pose proof (split_nonempty "," s) as Hn.
  change (Str.split "," (String " " s)) with
    (match Str.split "," s with
     | w :: ws => String " " w :: ws
     | [] => [String " " EmptyString]
     end).
  destruct (Str.split "," s) as [|w ws]; [contradiction | reflexivity].
Qed.

(** Splitting what [", ".join] made of plain names gives the names back. *)
Lemma names_of_join (l : list string) :
  l <> [] -> Forall plain_name l ->
  List.map Str.strip (Str.split "," (join ", " l)) = l.
Proof.
  intros Hne H. induction H as [|x r (Hs & Ht & _) Hr IH]; [contradiction|].
  destruct r as [|y r].
  - simpl. rewrite Hs. simpl. rewrite Ht. reflexivity.
  - assert (y :: r <> []) as Hyr by discriminate.
    specialize (IH Hyr). clear Hyr.
    set (J := join ", " (y :: r)) in *.
    change (join ", " (x :: y :: r)) with (x +:+ String "," (String " " J)).
    rewrite split_app, Hs, map_app, split_space, IH.
    simpl. rewrite Ht. reflexivity.
Qed.

(** ** The companies the search endpoint finds *)

Lemma filter_sublist {A} (f : A -> bool) (l : list A) : List.filter f l `sublist_of` l.
Proof.
  induction l as [|x l IH]; simpl; [constructor|].
  destruct (f x); constructor; exact IH.
Qed.

Lemma find_companies_cases (report_text : string) :
  let mentioned :=
    List.filter (fun company => occurs_in (Str.lower company) (Str.lower report_text))
      Api.example_companies in
  (mentioned = [] /\
   Api.find_companies report_text = ["Accenture"; "Deloitte"; "IBM"; "Microsoft"]) \/
  (mentioned <> [] /\ Api.find_companies report_text = mentioned).
Proof.
  unfold Api.find_companies. cbv zeta.
  destruct (List.filter _ Api.example_companies); [left | right]; split; congruence.
Qed.

Lemma find_companies_In (report_text company : string) :
  In company (Api.find_companies report_text) -> In company Api.example_companies.
Proof.
  destruct (find_companies_cases report_text) as [[_ ->]|[_ ->]].
  - simpl. tauto.
  - intros H. apply filter_In in H. tauto.
Qed.

Lemma find_companies_nonempty (report_text : string) : Api.find_companies report_text <> [].
Proof.
  destruct (find_companies_cases report_text) as [[_ ->]|[H ->]]; [discriminate | exact H].
Qed.

(** Each example company is a plain name of the symbol table. *)
Lemma example_company_facts (company : string) :
  In company Api.example_companies ->
  plain_name company /\
  exists symbol,
    mapping_get symbol_mappings (Str.lower company) = Some symbol /\
    In symbol example_symbols /\ Str.upper symbol = symbol.
Proof.
  simpl. intros H.
  repeat (destruct H as [<-|H];
          [split; [repeat split; reflexivity |
                   eexists; split; [reflexivity | split; [simpl; tauto | reflexivity]]]|]).
  contradiction.
Qed.

Lemma found_names (report_text : string) :
  List.map Str.strip (Str.split "," (join ", " (Api.find_companies report_text))) =
  Api.find_companies report_text.
Proof.
  apply names_of_join; [apply find_companies_nonempty|].
  apply List.Forall_forall. intros c Hc.
  apply find_companies_In, example_company_facts in Hc. tauto.
Qed.

(** ** The public companies and their financial data *)

Lemma extract_public_spec (results : list dict) :
  Forall entry_shape results ->
  Api.extract_public results =
  Ok (List.map item_of (List.filter is_public_entry results)).
Proof.
  induction 1 as [|e es (b & Hb & Hr) _ IH]; [reflexivity|].
  cbn [Api.extract_public List.filter]. unfold is_public_entry at 1, dict_get at 1.
  rewrite Hb. cbn [Py.truthy].
  destruct b; [|exact IH].
  destruct Hr as ([c Hc] & [s Hs] & _).
  unfold dict_item. rewrite Hc, Hs. cbn [bind]. rewrite IH. cbn [bind List.map].
  unfold item_of, dict_get. rewrite Hc, Hs. reflexivity.
Qed.

Lemma count_public_spec (pubs : list dict) :
  Api.count_public (List.map item_of pubs) =
  match pubs with
  | [] => Raise no_len_message
  | _ => Ok (length pubs)
  end.
Proof.
  destruct pubs as [|e es]; [reflexivity|].
  unfold Api.count_public. cbn [List.map]. f_equal.
  change (item_of e :: List.map item_of es) with (List.map item_of (e :: es)).
  generalize (e :: es). intros l.
  induction l as [|x l IH]; simpl; [reflexivity|]. rewrite IH. reflexivity.
Qed.

Section FinancialData.

Variable yf : yfinance.

(** The two fields the endpoint writes before the detailed metrics are
    those the detailed metrics start with. *)
Lemma financial_entry_is_record (t : string) (m : metrics_payload) (name ticker : pyval) :
  get_company_financial_metrics yf t = Success m ->
  dict_merge (dict_of [("company_name", name); ("ticker", ticker)]) (detailed_metrics m) =
  detailed_metrics m.
Proof.
  intros H.
  destruct (detailed_metrics_layout yf t m H) as (metrics & calc & yfm & E & Km & _ & _).
  destruct (metrics_success_inv yf t m H)
    as (tk & i & fin & ly & calc' & yfm' & _ & _ & _ & _ & _ & _ & _ & _ & Hd & _).
  assert (NoDup (keys (detailed_metrics m))) as Hn.
  { rewrite Hd. apply dict_merge_NoDup, dict_merge_NoDup.
    rewrite extract_metrics_fields. cbn.
    repeat constructor; rewrite ?list_elem_of_In; simpl; intuition discriminate. }
  destruct metrics as [|[k1 v1] [|[k2 v2] rest]]; try discriminate Km.
  injection Km as -> -> _.
  rewrite E in *. simpl app in *.
  set (tl := (rest ++ calc ++ yfm)%list) in *.
  change (dict_merge (dict_of [("company_name", name); ("ticker", ticker)])
            (("company_name", v1) :: ("ticker", v2) :: tl))
    with (dict_merge [("company_name", v1); ("ticker", v2)] tl).
  simpl in Hn. apply NoDup_cons in Hn. destruct Hn as [H1 Hn].
  apply NoDup_cons in Hn. destruct Hn as [H2 Hn].
  rewrite dict_merge_fresh; [reflexivity | exact Hn |].
  intros k Hk [<-|[<-|[]]].
  - apply H1. right. apply list_elem_of_In. exact Hk.
  - apply H2. apply list_elem_of_In. exact Hk.
Qed.

Lemma collect_financial_data_spec (pubs financial_data : list dict) :
  Api.collect_financial_data yf (List.map item_of pubs) financial_data =
  Ok (financial_data ++ flat_map (metrics_entries yf) pubs)%list.
Proof.
  revert financial_data.
  induction pubs as [|e es IH]; intros financial_data.
  - simpl. rewrite app_nil_r. reflexivity.
  - cbn [List.map Api.collect_financial_data flat_map].
    change (Api.ticker_of (item_of e))
      with (Ok (dict_get e "symbol" PNone, dict_get e "company" PNone) : result _).
    cbn [bind fst snd]. unfold metrics_entries at 1.
    destruct (dict_get e "symbol" PNone) as [| | | |symbol]; cbn [Api.financial_metrics_of];
      try (rewrite IH; reflexivity).
    destruct (get_company_financial_metrics yf symbol) as [m|msg] eqn:Em;
      [|rewrite IH; reflexivity].
    rewrite (financial_entry_is_record _ _ _ _ Em), IH.
    unfold append. rewrite <- app_assoc. reflexivity.
Qed.

End FinancialData.

Section SearchEndpoint.

Variable http_exception_str : nat -> string -> string.
Variable generate_content : string -> string -> result pyval.
Variable yf : yfinance.

Let search := Api.search_company_analysis http_exception_str generate_content yf.

Lemma results_shape (company_names : string) (p : trading_payload) :
  check_public_trading_status yf company_names = Success p ->
  Forall entry_shape (detailed_results p).
Proof.
  intros H. destruct (trading_success_inv _ _ _ H) as (-> & _).
  pose proof (loop_shape yf (List.map Str.strip (Str.split "," company_names)) []
                (Forall_nil_2 _)) as Hs.
  rewrite loop_flat_map in Hs. exact Hs.
Qed.

(** What the endpoint answers once the name is not blank and the model
    has answered. *)
Lemma search_outcome (request : string) (text : pyval) :
  Str.is_empty (Str.strip request) = false ->
  generate_content "gemini-2.0-flash-exp" (search_prompt (Str.strip request)) = Ok text ->
  exists p,
    check_public_trading_status yf
      (join ", " (Api.find_companies (contracted_report (Str.strip request) text))) =
      Success p /\
    search request =
    match List.filter is_public_entry (detailed_results p) with
    | [] => Api.Failed 500 ("Internal server error: " +:+ no_len_message)
    | pubs =>
        Api.Returned
          {| Api.company_searched := Str.strip request;
             Api.contracted_companies_report := contracted_report (Str.strip request) text;
             Api.contracted_companies :=
               Api.find_companies (contracted_report (Str.strip request) text);
             Api.public_companies_count := length pubs;
             Api.total_companies_found :=
               length (Api.find_companies (contracted_report (Str.strip request) text));
             Api.financial_data := flat_map (metrics_entries yf) pubs;
             Api.trading_status_details := detailed_results p |}
    end.
Proof.
  intros He Ht.
  destruct (trading_status_succeeds yf
              (join ", " (Api.find_companies (contracted_report (Str.strip request) text))))
    as [p Hp].
  exists p. split; [exact Hp|].
  unfold search, Api.search_company_analysis, Api.search_company_analysis_body.
  cbv zeta. rewrite He.
  unfold find_contracted_companies, try_except. rewrite Ht. cbn [bind Contracted.report].
  fold (contracted_report (Str.strip request) text).
  rewrite Hp.
  rewrite (extract_public_spec _ (results_shape _ _ Hp)). cbn [bind].
  rewrite collect_financial_data_spec. cbn [bind app].
  rewrite count_public_spec.
  destruct (List.filter is_public_entry (detailed_results p)); reflexivity.
Qed.

Lemma search_returned_inv (request : string) (r : Api.search_response) :
  search request = Api.Returned r ->
  exists text p,
    Str.is_empty (Str.strip request) = false /\
    generate_content "gemini-2.0-flash-exp" (search_prompt (Str.strip request)) = Ok text /\
    check_public_trading_status yf
      (join ", " (Api.find_companies (contracted_report (Str.strip request) text))) =
      Success p /\
    List.filter is_public_entry (detailed_results p) <> [] /\
    r = {| Api.company_searched := Str.strip request;
           Api.contracted_companies_report := contracted_report (Str.strip request) text;
           Api.contracted_companies :=
             Api.find_companies (contracted_report (Str.strip request) text);
           Api.public_companies_count :=
             length (List.filter is_public_entry (detailed_results p));
           Api.total_companies_found :=
             length (Api.find_companies (contracted_report (Str.strip request) text));
           Api.financial_data :=
             flat_map (metrics_entries yf) (List.filter is_public_entry (detailed_results p));
           Api.trading_status_details := detailed_results p |}.
Proof.
  intros H.
  destruct (Str.is_empty (Str.strip request)) eqn:He.
  { unfold search, Api.search_company_analysis, Api.search_company_analysis_body in H.
    cbv zeta in H. rewrite He in H. discriminate. }
  destruct (generate_content "gemini-2.0-flash-exp" (search_prompt (Str.strip request)))
    as [text|e] eqn:Ht.
  2:{ unfold search, Api.search_company_analysis, Api.search_company_analysis_body in H.
      cbv zeta in H. rewrite He in H.
      unfold find_contracted_companies, try_except in H. rewrite Ht in H. discriminate. }
  destruct (search_outcome request text He Ht) as (p & Hp & Hs).
  exists text, p. repeat (split; [assumption || reflexivity|]).
  rewrite Hs in H.
  destruct (List.filter is_public_entry (detailed_results p)); [discriminate|].
  injection H as <-. split; [discriminate | reflexivity].
Qed.

End SearchEndpoint.

(** ** The providers the checks depend on *)

Lemma check_symbol_ext (yf1 yf2 : yfinance) (company symbol : string) (results : list dict) :
  yf1 symbol = yf2 symbol ->
  check_symbol yf1 company symbol results = check_symbol yf2 company symbol results.
Proof. intros H. unfold check_symbol. rewrite H. reflexivity. Qed.

Lemma trading_status_ext (yf1 yf2 : yfinance) (company_names : string) :
  (forall company,
     In company (List.map Str.strip (Str.split "," company_names)) ->
     check_company yf1 [] company = check_company yf2 [] company) ->
  check_public_trading_status yf1 company_names =
  check_public_trading_status yf2 company_names.
Proof.
  intros H. unfold check_public_trading_status.
  rewrite !loop_flat_map.
  assert (flat_map (check_company yf1 [])
            (List.map Str.strip (Str.split "," company_names)) =
          flat_map (check_company yf2 [])
            (List.map Str.strip (Str.split "," company_names))) as ->; [|reflexivity].
  induction (List.map Str.strip (Str.split "," company_names)) as [|c cs IH];
    [reflexivity|].
  simpl. rewrite (H c), IH; [reflexivity | | left; reflexivity].
  intros c' Hc'. apply H. right. exact Hc'.
Qed.

Lemma financial_metrics_ext (yf1 yf2 : yfinance) (t : string) :
  yf1 (Str.upper t) = yf2 (Str.upper t) ->
  get_company_financial_metrics yf1 t = get_company_financial_metrics yf2 t.
Proof.
  intros H. unfold get_company_financial_metrics, get_company_financial_metrics_body.
  rewrite H. reflexivity.
Qed.

(** An example company is checked against the symbol of the table. *)
Lemma check_example_company (yf : yfinance) (company : string) :
  In company Api.example_companies ->
  exists symbol,
    mapping_get symbol_mappings (Str.lower company) = Some symbol /\
    In symbol example_symbols /\ Str.upper symbol = symbol /\
    check_company yf [] company = check_symbol yf company symbol [].
Proof.
  intros Hin.
  destruct (example_company_facts company Hin) as ((_ & _ & He) & symbol & Hm & Hs & Hu).
  exists symbol. repeat (split; [assumption|]).
  unfold check_company. rewrite He, Hm. reflexivity.
Qed.

Section SearchProperties.

Variable http_exception_str : nat -> string -> string.
Variable generate_content : string -> string -> result pyval.
Variable yf : yfinance.

Let search := Api.search_company_analysis http_exception_str generate_content yf.

(** X7.  The failures of [POST /api/search].  Every exception raised under
    the handler's [try], the two [HTTPException]s with status 400 included,
    is caught by its [except Exception] and leaves as status 500.  A blank
    company name gives 500 with the text of the 400 exception "Company name
    cannot be empty"; a failure of the language model gives 500 with the
    text of the 400 exception that carries the tool's message; and once the
    model has answered, the only failure left is the [TypeError] of
    [len(0)], which happens when the trading check finds no public
    company. *)
Theorem search_failures (request : string) :
  if Str.is_empty (Str.strip request) then
    search request =
    Api.Failed 500
      ("Internal server error: " +:+ http_exception_str 400 "Company name cannot be empty")
  else
    match generate_content "gemini-2.0-flash-exp" (search_prompt (Str.strip request)) with
    | Raise e =>
        search request =
        Api.Failed 500
          ("Internal server error: " +:+
           http_exception_str 400
             ("Error finding contracted companies: " +:+
              "Unable to search for contracted companies for '" +:+ Str.strip request +:+
              "': " +:+ e))
    | Ok text =>
        forall status_code detail,
          search request = Api.Failed status_code detail ->
          status_code = 500%nat /\
          detail = "Internal server error: " +:+ no_len_message /\
          exists p,
            check_public_trading_status yf
              (join ", " (Api.find_companies (contracted_report (Str.strip request) text))) =
              Success p /\
            public_count p = 0%nat
    end.
Proof.
  destruct (Str.is_empty (Str.strip request)) eqn:He.
  { unfold search, Api.search_company_analysis, Api.search_company_analysis_body.
    cbv zeta. rewrite He. reflexivity. }
  destruct (generate_content "gemini-2.0-flash-exp" (search_prompt (Str.strip request)))
    as [text|e] eqn:Ht.
  2:{ unfold search, Api.search_company_analysis, Api.search_company_analysis_body.
      cbv zeta. rewrite He.
      unfold find_contracted_companies, try_except. rewrite Ht. reflexivity. }
  intros status_code detail H.
  destruct (search_outcome http_exception_str generate_content yf request text He Ht)
    as (p & Hp & Hs).
  fold search in Hs. rewrite Hs in H.
  destruct (trading_success_inv _ _ _ Hp) as (_ & pub & priv & Hpub & _ & Hc & _).
  apply select_public_filter in Hpub.
  destruct (List.filter is_public_entry (detailed_results p)) eqn:Ef; [|discriminate].
  injection H as <- <-. repeat split.
  exists p. split; [exact Hp|]. rewrite Hc, Hpub. reflexivity.
Qed.

(** X8.  Once the name is not blank and the model has answered,
    [POST /api/search] succeeds exactly when at least one of the companies
    found is publicly traded: with no public company the count is taken as
    [len(0)], and the answer is status 500 with the message of that
    [TypeError]; otherwise the count of the response is the public count of
    the trading check. *)
Theorem search_needs_a_public_company (request : string) (text : pyval)
    (p : trading_payload) :
  Str.is_empty (Str.strip request) = false ->
  generate_content "gemini-2.0-flash-exp" (search_prompt (Str.strip request)) = Ok text ->
  check_public_trading_status yf
    (join ", " (Api.find_companies (contracted_report (Str.strip request) text))) =
    Success p ->
  if (public_count p =? 0)%nat then
    search request = Api.Failed 500 ("Internal server error: " +:+ no_len_message)
  else
    exists r, search request = Api.Returned r /\
              Api.public_companies_count r = public_count p.
Proof.
  intros He Ht Hp.
  destruct (search_outcome http_exception_str generate_content yf request text He Ht)
    as (p' & Hp' & Hs).
  rewrite Hp in Hp'. injection Hp' as <-.
  destruct (trading_success_inv _ _ _ Hp) as (_ & pub & priv & Hpub & _ & Hc & _).
  apply select_public_filter in Hpub. subst pub.
  fold search in Hs. rewrite Hs, Hc.
  destruct (List.filter is_public_entry (detailed_results p)) as [|e es]; [reflexivity|].
  cbn [length Nat.eqb]. eexists. split; reflexivity.
Qed.

(** X9.  In a response of [POST /api/search] the company searched is the
    trimmed input; the contracted companies are those computed from the
    report of the response, always between one and ten of the ten example
    companies, in the order of that list; and since the report starts with
    the name searched for, an example company whose lower-cased name occurs
    in the lower-cased input is always among them. *)
Theorem search_contracted_companies (request : string) (r : Api.search_response) :
  search request = Api.Returned r ->
  Api.company_searched r = Str.strip request /\
  Api.contracted_companies r = Api.find_companies (Api.contracted_companies_report r) /\
  Api.contracted_companies r `sublist_of` Api.example_companies /\
  Api.total_companies_found r = length (Api.contracted_companies r) /\
  (1 <= Api.total_companies_found r <= 10)%nat /\
  forall company,
    In company Api.example_companies ->
    occurs_in (Str.lower company) (Str.lower (Str.strip request)) = true ->
    In company (Api.contracted_companies r).
Proof.
  intros H.
  destruct (search_returned_inv http_exception_str generate_content yf request r H)
    as (text & p & He & Ht & Hp & Hne & ->).
  cbn [Api.company_searched Api.contracted_companies Api.contracted_companies_report
       Api.total_companies_found].
  set (report_text := contracted_report (Str.strip request) text).
  assert (Api.find_companies report_text `sublist_of` Api.example_companies) as Hsub.
  { destruct (find_companies_cases report_text) as [[_ ->]|[_ ->]].
    - unfold Api.example_companies. do 4 apply sublist_skip. apply sublist_nil_l.
    - apply filter_sublist. }
  repeat (split; [reflexivity || exact Hsub|]). split.
  - pose proof (find_companies_nonempty report_text) as Hn.
    apply sublist_length in Hsub. change (length Api.example_companies) with 10%nat in Hsub.
    destruct (Api.find_companies report_text); [contradiction | simpl in *; lia].
  - intros company Hin Hocc.
    assert (In company
              (List.filter
                 (fun company => occurs_in (Str.lower company) (Str.lower report_text))
                 Api.example_companies)) as Hf.
    { apply filter_In. split; [exact Hin|].
      unfold report_text, contracted_report. rewrite !lower_app.
      apply occurs_in_app_l, occurs_in_app_r, Hocc. }
    destruct (find_companies_cases report_text) as [[E _]|[_ ->]]; [|exact Hf].
    cbv zeta in E. rewrite E in Hf. destruct Hf.
Qed.

(** Each of the found companies has exactly one entry. *)
Lemma found_entries (report_text : string) (p : trading_payload) :
  check_public_trading_status yf (join ", " (Api.find_companies report_text)) = Success p ->
  Forall2 entry_for (Api.find_companies report_text) (detailed_results p).
Proof.
  intros Hp.
  destruct (trading_success_inv _ _ _ Hp) as (Hd & _).
  rewrite found_names in Hd.
  destruct (loop_entries yf (Api.find_companies report_text) []) as (entries & He & Hall).
  rewrite loop_flat_map in He. simpl in He. rewrite Hd, He.
  assert (forall c, In c (Api.find_companies report_text) -> Str.is_empty c = false) as Hc.
  { intros c Hin. apply find_companies_In, example_company_facts in Hin.
    destruct Hin as ((_ & _ & Hin) & _). exact Hin. }
  assert (List.filter (fun c => negb (Str.is_empty c)) (Api.find_companies report_text) =
          Api.find_companies report_text) as E.
  { clear -Hc. induction (Api.find_companies report_text) as [|c cs IH]; [reflexivity|].
    simpl. rewrite (Hc c (or_introl eq_refl)). simpl. f_equal. apply IH.
    intros c' Hc'. apply Hc. right. exact Hc'. }
  rewrite E in Hall. exact Hall.
Qed.

(** X10.  In a response of [POST /api/search] the trading details hold one
    entry for each contracted company, in order; the public count is the
    number of entries marked public, at least one and at most the number of
    companies found; and there are at most that many financial records. *)
Theorem search_counts (request : string) (r : Api.search_response) :
  search request = Api.Returned r ->
  Forall2 entry_for (Api.contracted_companies r) (Api.trading_status_details r) /\
  length (Api.trading_status_details r) = Api.total_companies_found r /\
  Api.public_companies_count r =
    length (List.filter is_public_entry (Api.trading_status_details r)) /\
  (length (Api.financial_data r) <= Api.public_companies_count r)%nat /\
  (1 <= Api.public_companies_count r <= Api.total_companies_found r)%nat.
Proof.
  intros H.
  destruct (search_returned_inv http_exception_str generate_content yf request r H)
    as (text & p & He & Ht & Hp & Hne & ->).
  cbn [Api.contracted_companies Api.trading_status_details Api.total_companies_found
       Api.public_companies_count Api.financial_data].
  pose proof (found_entries _ _ Hp) as Hf.
  pose proof (Forall2_length _ _ _ Hf) as Hl.
  split; [exact Hf|]. split; [symmetry; exact Hl|]. split; [reflexivity|].
  split.
  - clear. induction (List.filter is_public_entry (detailed_results p)) as [|e es IH];
      [apply Nat.le_refl|].
    simpl. rewrite length_app.
    assert (length (metrics_entries yf e) <= 1)%nat; [|lia].
    unfold metrics_entries.
    destruct (dict_get e "symbol" PNone); simpl; try lia.
    destruct (get_company_financial_metrics yf s); simpl; lia.
  - pose proof (filter_length_le is_public_entry (detailed_results p)) as Hle.
    destruct (List.filter is_public_entry (detailed_results p)); [contradiction|].
    simpl in *. lia.
Qed.

(** X11.  In a response of [POST /api/search] the financial data are, in
    order, the detailed metrics of the public entries whose symbol
    [get_company_financial_metrics] succeeds on.  Each record is exactly the
    tool's record for the table symbol of one of the contracted companies:
    the [company_name] and [ticker] the handler writes first are always
    overwritten by the tool's. *)
Theorem search_financial_data (request : string) (r : Api.search_response) :
  search request = Api.Returned r ->
  Api.financial_data r =
    flat_map (metrics_entries yf)
      (List.filter is_public_entry (Api.trading_status_details r)) /\
  forall record,
    In record (Api.financial_data r) ->
    exists entry company symbol m,
      In entry (Api.trading_status_details r) /\
      In company (Api.contracted_companies r) /\
      dict_lookup entry "company" = Some (PStr company) /\
      dict_lookup entry "is_public" = Some (PBool true) /\
      dict_lookup entry "symbol" = Some (PStr symbol) /\
      mapping_get symbol_mappings (Str.lower company) = Some symbol /\
      get_company_financial_metrics yf symbol = Success m /\
      record = detailed_metrics m.
Proof.
  intros H.
  destruct (search_returned_inv http_exception_str generate_content yf request r H)
    as (text & p & He & Ht & Hp & Hne & ->).
  cbn [Api.contracted_companies Api.trading_status_details Api.financial_data].
  split; [reflexivity|].
  intros record Hin.
  apply in_flat_map in Hin. destruct Hin as (entry & Hentry & Hrec).
  apply filter_In in Hentry. destruct Hentry as [Hentry Hpub].
  destruct (trading_success_inv _ _ _ Hp) as (Hd & _).
  rewrite found_names in Hd.
  pose proof Hentry as Hentry'.
  rewrite Hd in Hentry'. apply in_flat_map in Hentry'.
  destruct Hentry' as (company & Hc & Hchk).
  destruct (check_company_public yf company entry Hchk Hpub)
    as (_ & symbol & tk & i & _ & _ & _ & -> & Hm).
  pose proof (find_companies_In _ _ Hc) as Hex.
  destruct (example_company_facts company Hex) as (_ & s & Hs & _).
  rewrite Hs in Hm. subst symbol.
  unfold metrics_entries in Hrec.
  change (dict_get _ "symbol" PNone) with (PStr s) in Hrec. cbv beta iota in Hrec.
  destruct (get_company_financial_metrics yf s) as [m|msg] eqn:Em;
    simpl in Hrec; [|destruct Hrec].
  destruct Hrec as [<-|[]].
  eexists _, company, s, m. split; [exact Hentry|]. split; [exact Hc|].
  repeat split; assumption || reflexivity.
Qed.

(** X12.  The three endpoints that wrap one tool return the tool's success
    result unchanged.  Their status 400 never reaches the client: the
    [HTTPException] raised for an error result is caught by the handler's
    own [except Exception] and leaves as status 500, whose detail is the
    text of that exception.  [POST /api/trading-status] always returns a
    success result. *)
Theorem tool_endpoints_relay (request : string) :
  match get_company_financial_metrics yf request with
  | Success p =>
      Api.get_financial_metrics http_exception_str yf request = Api.Returned (Success p)
  | Error error_message =>
      Api.get_financial_metrics http_exception_str yf request =
      Api.Failed 500 (http_exception_str 400 error_message)
  end /\
  match find_contracted_companies generate_content request with
  | Success p =>
      Api.find_contracted http_exception_str generate_content request =
      Api.Returned (Success p)
  | Error error_message =>
      Api.find_contracted http_exception_str generate_content request =
      Api.Failed 500 (http_exception_str 400 error_message)
  end /\
  exists p,
    check_public_trading_status yf request = Success p /\
    Api.check_trading_status http_exception_str yf request = Api.Returned (Success p).
Proof.
  split; [|split].
  - unfold Api.get_financial_metrics, Api.relay.
    destruct (get_company_financial_metrics yf request); reflexivity.
  - unfold Api.find_contracted, Api.relay.
    destruct (find_contracted_companies generate_content request); reflexivity.
  - destruct (trading_status_succeeds yf request) as [p Hp].
    exists p. split; [exact Hp|].
    unfold Api.check_trading_status, Api.relay. rewrite Hp. reflexivity.
Qed.

End SearchProperties.

(** X13.  [POST /api/search] asks the provider about the ten symbols of the
    example companies only (ACN, DLX, IBM, MSFT, CRM, NOW, WDAY, SAP, ADBE,
    INTC): two providers that agree on these ten give the same answer to
    every request, whatever the language model says. *)
Theorem search_asks_for_ten_symbols (http_exception_str : nat -> string -> string)
    (generate_content : string -> string -> result pyval) (yf1 yf2 : yfinance)
    (request : string) :
  (forall symbol, In symbol example_symbols -> yf1 symbol = yf2 symbol) ->
  Api.search_company_analysis http_exception_str generate_content yf1 request =
  Api.search_company_analysis http_exception_str generate_content yf2 request.
Proof.
  intros Hyf.
  destruct (Str.is_empty (Str.strip request)) eqn:He.
  { unfold Api.search_company_analysis, Api.search_company_analysis_body.
    cbv zeta. rewrite He. reflexivity. }
  destruct (generate_content "gemini-2.0-flash-exp" (search_prompt (Str.strip request)))
    as [text|e] eqn:Ht.
  2:{ unfold Api.search_company_analysis, Api.search_company_analysis_body.
      cbv zeta. rewrite He.
      unfold find_contracted_companies, try_except. rewrite Ht. reflexivity. }
  destruct (search_outcome http_exception_str generate_content yf1 request text He Ht)
    as (p & Hp & ->).
  destruct (search_outcome http_exception_str generate_content yf2 request text He Ht)
    as (p2 & Hp2 & ->).
  set (report_text := contracted_report (Str.strip request) text) in *.
  assert (p2 = p) as ->.
  { rewrite (trading_status_ext yf1 yf2) in Hp; [congruence|].
    rewrite found_names. intros company Hc.
    destruct (check_example_company yf1 company (find_companies_In _ _ Hc))
      as (s & Hm & Hs & _ & ->).
    destruct (check_example_company yf2 company (find_companies_In _ _ Hc))
      as (s' & Hm' & _ & _ & ->).
    rewrite Hm in Hm'. injection Hm' as <-.
    apply check_symbol_ext, Hyf, Hs. }
  assert (forall entry,
            In entry (List.filter is_public_entry (detailed_results p)) ->
            metrics_entries yf1 entry = metrics_entries yf2 entry) as Hext.
  { intros entry Hentry. apply filter_In in Hentry. destruct Hentry as [Hentry Hpub].
    destruct (trading_success_inv _ _ _ Hp) as (Hd & _).
    rewrite found_names in Hd. rewrite Hd in Hentry.
    apply in_flat_map in Hentry. destruct Hentry as (company & Hc & Hchk).
    destruct (check_company_public yf1 company entry Hchk Hpub)
      as (_ & symbol & tk & i & _ & _ & _ & -> & Hm).
    destruct (example_company_facts company (find_companies_In _ _ Hc))
      as (_ & s & Hs & Hin & Hu).
    rewrite Hs in Hm. subst symbol.
    unfold metrics_entries.
    change (dict_get _ "symbol" PNone) with (PStr s). cbv beta iota.
    rewrite (financial_metrics_ext yf1 yf2 s); [reflexivity|].
    rewrite Hu. apply Hyf, Hin. }
  destruct (List.filter is_public_entry (detailed_results p)) as [|e es]; [reflexivity|].
  do 2 f_equal.
  generalize dependent (e :: es). intros l Hl.
  induction l as [|x l IH]; [reflexivity|].
  simpl. rewrite (Hl x (or_introl eq_refl)), IH; [reflexivity|].
  intros y Hy. apply Hl. right. exact Hy.
Qed.

(** ** The report of the trading-status check *)

Lemma string_app_assoc (a b c : string) : (a +:+ b) +:+ c = a +:+ b +:+ c.
Proof.
  induction a as [|x a IH]; [reflexivity|].
  change (String x ((a +:+ b) +:+ c) = String x (a +:+ b +:+ c)). f_equal. exact IH.
Qed.

Lemma string_app_empty (s : string) : s +:+ "" = s.
Proof.
  induction s as [|x s IH]; [reflexivity|].
  change (String x (s +:+ "") = String x s). f_equal. exact IH.
Qed.

Lemma starts_with_refl (s post : string) : starts_with s (s +:+ post) = true.
Proof. induction s as [|c s IH]; simpl; [reflexivity|]. rewrite Ascii.eqb_refl. exact IH. Qed.

(** A string occurs in whatever is written around it. *)
Lemma occurs_in_middle (s pre post : string) : occurs_in s (pre +:+ s +:+ post) = true.
Proof.
  apply occurs_in_app_l.
  destruct (s +:+ post) eqn:E; simpl; rewrite <- E, starts_with_refl; reflexivity.
Qed.

Section Report.

Variable yf : yfinance.

(** A loop that writes the lines of a section keeps what was written
    before, and writes the company of each entry. *)
Lemma public_lines_mention (l : list dict) (text r : string) :
  public_lines l text = Ok r ->
  exists written,
    r = text +:+ written /\
    forall entry company,
      In entry l -> dict_lookup entry "company" = Some (PStr company) ->
      occurs_in company written = true.
Proof.
  revert text r.
  induction l as [|e es IH]; intros text r H; simpl in H.
  - injection H as <-. exists "". split; [|intros ? ? []].
    symmetry. apply string_app_empty.
  - bind_inv H. bind_inv H. bind_inv H. bind_inv H.
    apply dict_item_Ok in Ha.
    destruct (IH _ _ H) as (written & -> & Hw).
    eexists. split; [rewrite string_app_assoc; reflexivity|].
    intros entry company [<-|Hin] Hc.
    + rewrite Ha in Hc. injection Hc as ->. cbn [Py.str].
      rewrite !string_app_assoc.
      apply (occurs_in_middle company (bullet +:+ " ")).
    + rewrite !string_app_assoc.
      repeat apply occurs_in_app_l. exact (Hw entry company Hin Hc).
Qed.

Lemma private_lines_mention (l : list dict) (text r : string) :
  private_lines l text = Ok r ->
  exists written,
    r = text +:+ written /\
    forall entry company,
      In entry l -> dict_lookup entry "company" = Some (PStr company) ->
      occurs_in company written = true.
Proof.
  revert text r.
  induction l as [|e es IH]; intros text r H; simpl in H.
  - injection H as <-. exists "". split; [|intros ? ? []].
    symmetry. apply string_app_empty.
  - bind_inv H. bind_inv H.
    apply dict_item_Ok in Ha.
    destruct (IH _ _ H) as (written & -> & Hw).
    eexists. split; [rewrite string_app_assoc; reflexivity|].
    intros entry company [<-|Hin] Hc.
    + rewrite Ha in Hc. injection Hc as ->. cbn [Py.str].
      rewrite !string_app_assoc.
      apply (occurs_in_middle company (bullet +:+ " ")).
    + rewrite !string_app_assoc.
      repeat apply occurs_in_app_l. exact (Hw entry company Hin Hc).
Qed.

Lemma select_public_In (keep : bool) (results l : list dict) (entry : dict) :
  select_public keep results = Ok l ->
  In entry results ->
  Bool.eqb (is_public_entry entry) keep = true ->
  In entry l.
Proof.
  revert l.
  induction results as [|r rs IH]; intros l H Hin Hk; simpl in H; [destruct Hin|].
  bind_inv H. bind_inv H. injection H as <-.
  apply dict_item_Ok in Ha.
  destruct Hin as [<-|Hin].
  - unfold is_public_entry in Hk. rewrite Ha in Hk. rewrite Hk. left. reflexivity.
  - specialize (IH _ Ha0 Hin Hk).
    destruct (Bool.eqb (Py.truthy a) keep); [right|]; exact IH.
Qed.

(** X14.  The report of a success result of the trading-status check
    starts with the title line and mentions every trimmed name of the
    input. *)
Theorem report_mentions_every_company (company_names : string) (p : trading_payload)
    (company : string) :
  check_public_trading_status yf company_names = Success p ->
  In company (trimmed_names company_names) ->
  occurs_in company (report p) = true /\
  starts_with ("Trading Status Analysis:" +:+ Json.newline +:+ Json.newline) (report p) = true.
Proof.
  unfold check_public_trading_status, try_except. intros H Hin.
  match type of H with
  | match ?body with _ => _ end = _ => destruct body as [r|e] eqn:B; [subst r | discriminate]
  end.
  bind_inv B. bind_inv B. bind_inv B. bind_inv B.
  injection B as <-. cbn [report].
  rename a into pub, a0 into priv, a1 into r1, a2 into r2.
  set (head := "Trading Status Analysis:" +:+ Json.newline +:+ Json.newline) in *.
  assert (exists w1, r1 = head +:+ w1 /\
            forall entry c, In entry pub -> dict_lookup entry "company" = Some (PStr c) ->
                            occurs_in c w1 = true) as (w1 & -> & Hw1).
  { destruct pub as [|e es].
    - injection Ha1 as <-. exists "". split; [|intros ? ? []].
      symmetry. apply string_app_empty.
    - bind_inv Ha1. injection Ha1 as <-.
      destruct (public_lines_mention _ _ _ Ha3) as (w & -> & Hw).
      eexists. split; [rewrite !string_app_assoc; reflexivity|].
      intros entry c He Hc. do 3 apply occurs_in_app_l.
      apply occurs_in_app_r, (Hw entry c He Hc). }
  assert (exists w2, r2 = (head +:+ w1) +:+ w2 /\
            forall entry c, In entry priv -> dict_lookup entry "company" = Some (PStr c) ->
                            occurs_in c w2 = true) as (w2 & -> & Hw2).
  { destruct priv as [|e es].
    - injection Ha2 as <-. exists "". split; [|intros ? ? []].
      symmetry. apply string_app_empty.
    - destruct (private_lines_mention _ _ _ Ha2) as (w & -> & Hw).
      eexists. split; [rewrite !string_app_assoc; reflexivity|].
      intros entry c He Hc. do 3 apply occurs_in_app_l. exact (Hw entry c He Hc). }
  split; [|rewrite string_app_assoc; apply starts_with_refl].
  destruct (loop_entries yf (List.map Str.strip (Str.split "," company_names)) [])
    as (entries & He & Hall).
  simpl in He. rewrite He in *.
  fold (trimmed_names company_names) in Hall.
  assert (exists entry, In entry entries /\ entry_for company entry) as (entry & Hentry & Hc & b & Hb).
  { clear -Hall Hin. induction Hall as [|c e cs es Hce _ IH]; [destruct Hin|].
    destruct Hin as [<-|Hin].
    - exists e. split; [left; reflexivity | exact Hce].
    - destruct (IH Hin) as (e' & He' & Hc'). exists e'. split; [right; exact He' | exact Hc']. }
  destruct b.
  - assert (In entry pub) as Hp.
    { apply (select_public_In true entries); [exact Ha | exact Hentry|].
      unfold is_public_entry. rewrite Hb. reflexivity. }
    rewrite string_app_assoc. apply occurs_in_app_l, occurs_in_app_r, (Hw1 entry company Hp Hc).
  - assert (In entry priv) as Hp.
    { apply (select_public_In false entries); [exact Ha0 | exact Hentry|].
      unfold is_public_entry. rewrite Hb. reflexivity. }
    apply occurs_in_app_l, (Hw2 entry company Hp Hc).
Qed.

(** X15.  When the provider fails on every symbol, the trading-status
    check still succeeds: no company is public, every non-empty name has an
    entry that is marked not public, and the private count is the number of
    names. *)
Theorem provider_outage (company_names : string) :
  provider_down yf ->
  exists p,
    check_public_trading_status yf company_names = Success p /\
    public_count p = 0%nat /\
    private_count p = length (trimmed_names company_names) /\
    Forall (fun entry => dict_lookup entry "is_public" = Some (PBool false))
      (detailed_results p).
Proof.
  intros Hdown.
  destruct (trading_status_succeeds yf company_names) as [p Hp].
  exists p. split; [exact Hp|].
  destruct (trading_success_inv _ _ _ Hp) as (Hd & pub & priv & Hpub & Hpriv & Hc & Hc').
  pose proof (select_public_lengths _ _ _ Hpub Hpriv) as Hlen.
  apply select_public_filter in Hpub.
  assert (forall entry, In entry (detailed_results p) -> is_public_entry entry = false) as Hno.
  { intros entry Hin. destruct (is_public_entry entry) eqn:E; [|reflexivity].
    rewrite Hd in Hin. apply in_flat_map in Hin. destruct Hin as (c & _ & Hchk).
    destruct (check_company_public yf c entry Hchk E) as (_ & symbol & tk & i & Hyf & _).
    destruct (Hdown symbol) as [e He]. congruence. }
  assert (pub = []) as ->.
  { rewrite Hpub. clear -Hno.
    induction (detailed_results p) as [|e es IH]; [reflexivity|].
    simpl. rewrite (Hno e (or_introl eq_refl)). apply IH.
    intros e' He'. apply Hno. right. exact He'. }
  destruct (loop_entries yf (List.map Str.strip (Str.split "," company_names)) [])
    as (entries & He & Hall).
  rewrite loop_flat_map in He. simpl in He. rewrite <- Hd in He. subst entries.
  fold (trimmed_names company_names) in Hall.
  split; [exact Hc|]. split.
  - rewrite Hc'. simpl in Hlen. rewrite Hlen. symmetry. exact (Forall2_length _ _ _ Hall).
  - apply List.Forall_forall. intros entry Hin.
    pose proof (Hno entry Hin) as Hf.
    assert (exists c, entry_for c entry) as (c & _ & b & Hb).
    { clear -Hall Hin. induction Hall as [|c e cs es Hce _ IH]; [destruct Hin|].
      destruct Hin as [<-|Hin]; [eauto | exact (IH Hin)]. }
    unfold is_public_entry in Hf. rewrite Hb in Hf. simpl in Hf. subst b. exact Hb.
Qed.

End Report.

(** ** The further properties on the sample answers *)

(** [known_private_company] on the sample input, whose first name is PWC. *)
Lemma known_private_company_witness :
  exists p,
    check_public_trading_status sample_yf " PWC, Oracle ,, orcl inc,foo" = Success p /\
    In (private_entry "PWC") (detailed_results p).
Proof.
  apply (known_private_company sample_yf " PWC, Oracle ,, orcl inc,foo" "PWC").
  - vm_compute. left. reflexivity.
  - vm_compute. left. reflexivity.
Defined.

(** [public_entry_is_confirmed] on the entry of Oracle in the sample result. *)
Lemma public_entry_is_confirmed_witness :
  exists company symbol tk i,
    In company (trimmed_names " PWC, Oracle ,, orcl inc,foo") /\
    sample_yf symbol = Ok tk /\ info tk = Ok i /\ (1 < size i)%nat /\
    nth 1 (detailed_results sample_trading) [] =
      dict_of [ ("company", PStr company);
                ("is_public", PBool true);
                ("symbol", PStr symbol);
                ("official_name",
                   info_get i "longName" (info_get i "shortName" (PStr company)));
                ("exchange", info_get i "exchange" (PStr "Unknown"));
                ("status", PStr "Publicly traded") ] /\
    match mapping_get symbol_mappings (Str.lower company) with
    | Some s => symbol = s
    | None => In symbol (possible_symbols company)
    end.
Proof.
  apply (public_entry_is_confirmed sample_yf " PWC, Oracle ,, orcl inc,foo" sample_trading
           (nth 1 (detailed_results sample_trading) []) sample_trading_success).
  - vm_compute. right. left. reflexivity.
  - reflexivity.
Defined.

(** [report_mentions_every_company] on the sample result. *)
Lemma report_mentions_every_company_witness :
  occurs_in "orcl inc" (report sample_trading) = true /\
  starts_with ("Trading Status Analysis:" +:+ Json.newline +:+ Json.newline)
    (report sample_trading) = true.
Proof.
  apply (report_mentions_every_company sample_yf " PWC, Oracle ,, orcl inc,foo" sample_trading
           "orcl inc" sample_trading_success).
  vm_compute. right. right. left. reflexivity.
Defined.

(** [provider_outage] on a provider that refuses every connection. *)
Lemma provider_outage_witness :
  exists p,
    check_public_trading_status sample_outage "Oracle, PWC, Spotify" = Success p /\
    public_count p = 0%nat /\
    private_count p = length (trimmed_names "Oracle, PWC, Spotify") /\
    Forall (fun entry => dict_lookup entry "is_public" = Some (PBool false))
      (detailed_results p).
Proof.
  apply (provider_outage sample_outage "Oracle, PWC, Spotify").
  intros symbol. exists "Connection refused". reflexivity.
Defined.

(** [success_record_layout] on the Oracle sample. *)
Lemma success_record_layout_witness :
  keys (detailed_metrics oracle_metrics) =
    (record_keys ++
     List.filter (has_key (detailed_metrics oracle_metrics)) derived_margin_keys ++
     provider_margin_keys)%list /\
  NoDup (keys (detailed_metrics oracle_metrics)) /\
  (21 <= length (detailed_metrics oracle_metrics) <= 25)%nat /\
  keys (summary oracle_metrics) = summary_keys /\
  dict_lookup (detailed_metrics oracle_metrics) "fiscal_year_end" =
    Some (PStr (fiscal_year oracle_metrics)).
Proof.
  exact (success_record_layout sample_yf "orcl" oracle_metrics oracle_success).
Defined.

Lemma sample_search_success :
  Api.search_company_analysis sample_http_exception_str sample_generate_content
    sample_market " ibm " = Api.Returned sample_search.
Proof. vm_compute. reflexivity. Qed.

Lemma sample_found_trading_success :
  check_public_trading_status sample_yf
    (join ", "
       (Api.find_companies
          (contracted_report (Str.strip " ibm ")
             (PStr "Its partners include Accenture and PwC.")))) =
  Success sample_found_trading.
Proof. vm_compute. reflexivity. Qed.

(** [search_needs_a_public_company] on the provider that knows none of the
    companies found. *)
Lemma search_needs_a_public_company_witness :
  Api.search_company_analysis sample_http_exception_str sample_generate_content
    sample_yf " ibm " =
  Api.Failed 500 "Internal server error: object of type 'int' has no len()".
Proof.
  exact (search_needs_a_public_company sample_http_exception_str sample_generate_content
           sample_yf " ibm " (PStr "Its partners include Accenture and PwC.")
           sample_found_trading eq_refl eq_refl sample_found_trading_success).
Defined.

(** [search_contracted_companies] on the sample search: the company
    searched for is among the companies found. *)
Lemma search_contracted_companies_witness :
  Api.company_searched sample_search = "ibm" /\
  Api.contracted_companies sample_search `sublist_of` Api.example_companies /\
  (1 <= Api.total_companies_found sample_search <= 10)%nat /\
  In "IBM" (Api.contracted_companies sample_search).
Proof.
  destruct (search_contracted_companies sample_http_exception_str sample_generate_content
              sample_market " ibm " sample_search sample_search_success)
    as (H1 & _ & H3 & _ & H5 & H6).
  split; [exact H1|]. split; [exact H3|]. split; [exact H5|].
  apply H6; [vm_compute; tauto | reflexivity].
Defined.

(** [search_counts] on the sample search. *)
Lemma search_counts_witness :
  Forall2 entry_for (Api.contracted_companies sample_search)
    (Api.trading_status_details sample_search) /\
  length (Api.trading_status_details sample_search) =
    Api.total_companies_found sample_search /\
  Api.public_companies_count sample_search =
    length (List.filter is_public_entry (Api.trading_status_details sample_search)) /\
  (length (Api.financial_data sample_search) <=
   Api.public_companies_count sample_search)%nat /\
  (1 <= Api.public_companies_count sample_search <=
   Api.total_companies_found sample_search)%nat.
Proof.
  exact (search_counts sample_http_exception_str sample_generate_content sample_market
           " ibm " sample_search sample_search_success).
Defined.

(** [search_financial_data] on the sample search, and on its one record. *)
Lemma search_financial_data_witness :
  Api.financial_data sample_search =
    flat_map (metrics_entries sample_market)
      (List.filter is_public_entry (Api.trading_status_details sample_search)) /\
  exists entry company symbol m,
    In entry (Api.trading_status_details sample_search) /\
    In company (Api.contracted_companies sample_search) /\
    dict_lookup entry "company" = Some (PStr company) /\
    dict_lookup entry "is_public" = Some (PBool true) /\
    dict_lookup entry "symbol" = Some (PStr symbol) /\
    mapping_get symbol_mappings (Str.lower company) = Some symbol /\
    get_company_financial_metrics sample_market symbol = Success m /\
    nth 0 (Api.financial_data sample_search) [] = detailed_metrics m.
Proof.
  destruct (search_financial_data sample_http_exception_str sample_generate_content
              sample_market " ibm " sample_search sample_search_success) as [H1 H2].
  split; [exact H1|].
  apply H2. vm_compute. left. reflexivity.
Defined.

(** [search_asks_for_ten_symbols] on two providers that differ on ORCL only. *)
Lemma search_asks_for_ten_symbols_witness :
  Api.search_company_analysis sample_http_exception_str sample_generate_content
    sample_market " ibm " =
  Api.search_company_analysis sample_http_exception_str sample_generate_content
    sample_market_without_oracle " ibm ".
Proof.
  apply (search_asks_for_ten_symbols sample_http_exception_str sample_generate_content
           sample_market sample_market_without_oracle " ibm ").
  intros symbol Hin. simpl in Hin.
  repeat (destruct Hin as [<-|Hin]; [reflexivity|]). destruct Hin.
Defined.
